(** * JSON to TOON conversion: a verification development for [app.py]

    The conversion core of the application consists of four Python
    functions: [json_to_toon] (the structural encoder), [format_value]
    (the scalar formatter), [validate_toon] (the line-oriented validator)
    and [verify_toon_roundtrip] (the round-trip verifier).  They are
    embedded here as Rocq functions and the properties stated for them
    are proved or refuted. *)

From Stdlib Require Import String Ascii DecimalString.
From Stdlib Require Import List NArith ZArith Bool Lia ListSet.
Import ListNotations.

Set Implicit Arguments.
Set Warnings "-register-all".

(** ** Python strings

    A Python [str] is a sequence of Unicode code points; it is modelled as
    a list of code points so that non-ASCII content is covered. *)

Module PyStr.

Definition codepoint : Type := N.
Definition pystr : Type := list codepoint.

(** ASCII literals. *)
Definition py (s : String.string) : pystr :=
  List.map Ascii.N_of_ascii (String.list_ascii_of_string s).
Arguments py s%_string.

Definition NL : codepoint := 10%N.      (* newline *)
Definition SP : codepoint := 32%N.      (* space *)
Definition DQ : codepoint := 34%N.      (* double quote *)
Definition SQ : codepoint := 39%N.      (* single quote *)
Definition COMMA : codepoint := 44%N.
Definition DASH : codepoint := 45%N.
Definition COLON : codepoint := 58%N.
Definition LBRACK : codepoint := 91%N.
Definition BSLASH : codepoint := 92%N.
Definition RBRACK : codepoint := 93%N.
Definition LBRACE : codepoint := 123%N.
Definition PIPE : codepoint := 124%N.
Definition RBRACE : codepoint := 125%N.

Definition pystr_eq_dec : forall a b : pystr, {a = b} + {a <> b} :=
  list_eq_dec N.eq_dec.

(** [not s] on a string: true iff the string is empty. *)
Definition is_empty {A : Type} (l : list A) : bool :=
  match l with [] => true | _ :: _ => false end.

(** [c in s] for a single character [c]. *)
Definition mem (c : codepoint) (s : pystr) : bool :=
  existsb (N.eqb c) s.

(** [s.startswith(p)]. *)
Fixpoint startswith (p s : pystr) : bool :=
  match p, s with
  | [], _ => true
  | _ :: _, [] => false
  | a :: p', b :: s' => N.eqb a b && startswith p' s'
  end.

(** [s.endswith(p)]. *)
Definition endswith (p s : pystr) : bool :=
  startswith (rev p) (rev s).

(** [p in s] for a substring [p]. *)
Fixpoint contains (p s : pystr) : bool :=
  startswith p s ||
  match s with
  | [] => false
  | _ :: s' => contains p s'
  end.

(** Unicode white space as CPython's [str.isspace], [str.strip] and the
    [\s] class of [re] on [str] patterns see it. *)
Definition is_space (c : codepoint) : bool :=
  ((9 <=? c) && (c <=? 13) || (28 <=? c) && (c <=? 32) ||
   (c =? 133) || (c =? 160) || (c =? 5760) ||
   (8192 <=? c) && (c <=? 8202) ||
   (c =? 8232) || (c =? 8233) || (c =? 8239) || (c =? 8287) ||
   (c =? 12288))%N.

(** Drop the leading characters that satisfy [f]. *)
Fixpoint dropwhile (f : codepoint -> bool) (s : pystr) : pystr :=
  match s with
  | [] => []
  | c :: s' => if f c then dropwhile f s' else s
  end.

Fixpoint takewhile (f : codepoint -> bool) (s : pystr) : pystr :=
  match s with
  | [] => []
  | c :: s' => if f c then c :: takewhile f s' else []
  end.

(** [s.lstrip()], [s.rstrip()], [s.strip()]. *)
Definition lstrip (s : pystr) : pystr := dropwhile is_space s.
Definition rstrip (s : pystr) : pystr := rev (dropwhile is_space (rev s)).
Definition strip (s : pystr) : pystr := rstrip (lstrip s).

(** [s.strip(chars)]: strip the characters of the set [chars] from both
    ends. *)
Definition strip_chars (chars s : pystr) : pystr :=
  rev (dropwhile (fun c => mem c chars)
         (rev (dropwhile (fun c => mem c chars) s))).

(** [s.split(c)] for a one-character separator: the pieces between the
    occurrences of [c]; always at least one piece. *)
Fixpoint split_char (c : codepoint) (s : pystr) : list pystr :=
  match s with
  | [] => [[]]
  | x :: s' =>
      if N.eqb x c then [] :: split_char c s'
      else match split_char c s' with
           | [] => [[x]]
           | piece :: pieces => (x :: piece) :: pieces
           end
  end.

(** [s.split(c, 1)]: split at the first occurrence of [c] only. *)
Fixpoint split_once (c : codepoint) (s : pystr) : list pystr :=
  match s with
  | [] => [[]]
  | x :: s' =>
      if N.eqb x c then [[]; s']
      else match split_once c s' with
           | piece :: pieces => (x :: piece) :: pieces
           | [] => [[x]]
           end
  end.

(** [s.split(sep)] for a separator of several characters: occurrences are
    found from the left and do not overlap.  [skip] counts the characters
    of a separator just found that are still to be passed over; [cur] is
    the current piece, reversed. *)
Fixpoint split_str_aux (sep s : pystr) (skip : nat) (cur : pystr)
  : list pystr :=
  match s with
  | [] => [rev cur]
  | x :: s' =>
      match skip with
      | S k => split_str_aux sep s' k cur
      | O =>
          if startswith sep s
          then rev cur :: split_str_aux sep s' (length sep - 1) []
          else split_str_aux sep s' 0 (x :: cur)
      end
  end.

Definition split_str (sep s : pystr) : list pystr :=
  split_str_aux sep s 0 [].

(** [sep.join(parts)]. *)
Fixpoint join (sep : pystr) (parts : list pystr) : pystr :=
  match parts with
  | [] => []
  | [p] => p
  | p :: rest => p ++ sep ++ join sep rest
  end.

(** [s[1:]] and [s[1:-1]]. *)
Definition slice_from1 (s : pystr) : pystr := tl s.
Definition slice_1_m1 (s : pystr) : pystr := removelast (tl s).

(** [str(n)] for an [int]. *)
Definition str_int (z : Z) : pystr :=
  py (NilZero.string_of_int (Z.to_int z)).

(** [str(b).lower()] for a [bool]. *)
Definition str_bool_lower (b : bool) : pystr :=
  if b then py "true" else py "false".

End PyStr.
Export PyStr.

(** ** The value model

    The input of the converter is what [json.load] returns: [None], a
    [bool], an [int], a [float], a [str], a [list] or a [dict] with string
    keys.  The five primitive types are those of the tuple
    [(str, int, float, bool, type(None))] that the source tests with
    [isinstance]; they are grouped in [Prim].  A [dict] keeps its
    insertion order; it is an association list, whose keys are pairwise
    distinct in every value that Python can build ([wf_value]).

    A [float] is only ever observed through [str], [repr] and its truth
    value; it is represented by the text [str] gives for it. *)

Inductive Prim : Type :=
  | PNull
  | PBool (b : bool)
  | PInt (z : Z)
  | PFloat (repr : pystr)
  | PStr (s : pystr).

Inductive Value : Type :=
  | VPrim (p : Prim)
  | VList (items : list Value)
  | VDict (entries : list (pystr * Value)).

Definition VNull : Value := VPrim PNull.
Definition VBool (b : bool) : Value := VPrim (PBool b).
Definition VInt (z : Z) : Value := VPrim (PInt z).
Definition VFloat (repr : pystr) : Value := VPrim (PFloat repr).
Definition VStr (s : pystr) : Value := VPrim (PStr s).

(** Key uniqueness, at every level. *)
Fixpoint wf_value (v : Value) : Prop :=
  match v with
  | VPrim _ => True
  | VList items =>
      (fix all (l : list Value) : Prop :=
         match l with
         | [] => True
         | x :: l' => wf_value x /\ all l'
         end) items
  | VDict entries =>
      NoDup (map fst entries) /\
      (fix all (l : list (pystr * Value)) : Prop :=
         match l with
         | [] => True
         | (_, x) :: l' => wf_value x /\ all l'
         end) entries
  end.

(** [isinstance(v, (str, int, float, bool, type(None)))]. *)
Definition is_primitive (v : Value) : bool :=
  match v with VPrim _ => true | _ => false end.

(** [isinstance(v, (dict, list)) and v]: a non-empty collection. *)
Definition is_nonempty_collection (v : Value) : bool :=
  match v with
  | VPrim _ => false
  | VList items => negb (is_empty items)
  | VDict entries => negb (is_empty entries)
  end.

(** The truth value of a Python object, as [if json_data] takes it. *)
Definition truthy (v : Value) : bool :=
  match v with
  | VPrim PNull => false
  | VPrim (PBool b) => b
  | VPrim (PInt z) => negb (Z.eqb z 0)
  | VPrim (PFloat r) =>
      negb (if pystr_eq_dec r (py "0.0") then true
            else if pystr_eq_dec r (py "-0.0") then true else false)
  | VPrim (PStr s) => negb (is_empty s)
  | VList items => negb (is_empty items)
  | VDict entries => negb (is_empty entries)
  end.

(** The values that Python takes for false, listed one by one as the
    language reference does: [None], [False], the zeros of the numeric
    types, and the empty string, list and dictionary.  [truthy] is
    compared with this list. *)
Inductive falsy : Value -> Prop :=
  | FalsyNone : falsy VNull
  | FalsyFalse : falsy (VBool false)
  | FalsyZero : falsy (VInt 0)
  | FalsyFloatZero : falsy (VFloat (py "0.0"))
  | FalsyFloatNegZero : falsy (VFloat (py "-0.0"))
  | FalsyStr : falsy (VStr [])
  | FalsyList : falsy (VList [])
  | FalsyDict : falsy (VDict []).

(** [d.get(k, default)]. *)
Fixpoint dict_get {A : Type} (d : list (pystr * A)) (k : pystr) (default : A)
  : A :=
  match d with
  | [] => default
  | (k', v) :: d' => if pystr_eq_dec k' k then v else dict_get d' k default
  end.

(** ** The standard JSON encoder

    [json.dumps] of the Python standard library with its default
    arguments ([ensure_ascii=True], separators [", "] and [": "]).  A
    string is put between double quotes; the quote, the backslash and the
    five control characters with a short form get a backslash escape,
    every other character outside [' '..'~'] becomes [\uXXXX] (a surrogate
    pair above the basic plane). *)

Definition hex_digit (n : N) : codepoint :=
  (if n <? 10 then 48 + n else 87 + n)%N.

Definition hex4 (n : N) : pystr :=
  [hex_digit ((n / 4096) mod 16); hex_digit ((n / 256) mod 16);
   hex_digit ((n / 16) mod 16); hex_digit (n mod 16)]%N.

Definition u_escape (n : N) : pystr := BSLASH :: 117%N :: hex4 n.

Definition escape_char (c : codepoint) : pystr :=
  (if c =? DQ then [BSLASH; DQ]
   else if c =? BSLASH then [BSLASH; BSLASH]
   else if c =? 10 then [BSLASH; 110]
   else if c =? 13 then [BSLASH; 114]
   else if c =? 9 then [BSLASH; 116]
   else if c =? 8 then [BSLASH; 98]
   else if c =? 12 then [BSLASH; 102]
   else if (32 <=? c) && (c <=? 126) then [c]
   else if c <? 65536 then u_escape c
   else let v := c - 65536 in
        u_escape (N.lor 55296 (N.land (N.shiftr v 10) 1023)) ++
        u_escape (N.lor 56320 (N.land v 1023)))%N.

Definition json_dumps_str (s : pystr) : pystr :=
  DQ :: flat_map escape_char s ++ [DQ].

(** [float.__repr__] as the JSON encoder writes it. *)
Definition json_float (r : pystr) : pystr :=
  if pystr_eq_dec r (py "nan") then py "NaN"
  else if pystr_eq_dec r (py "inf") then py "Infinity"
  else if pystr_eq_dec r (py "-inf") then py "-Infinity"
  else r.

Fixpoint json_dumps (v : Value) : pystr :=
  match v with
  | VPrim PNull => py "null"
  | VPrim (PBool b) => str_bool_lower b
  | VPrim (PInt z) => str_int z
  | VPrim (PFloat r) => json_float r
  | VPrim (PStr s) => json_dumps_str s
  | VList items =>
      py "[" ++ join (py ", ") (map json_dumps items) ++ py "]"
  | VDict entries =>
      py "{" ++
      join (py ", ")
        (map (fun kv => json_dumps_str (fst kv) ++ py ": " ++
                        json_dumps (snd kv)) entries) ++
      py "}"
  end.

(** ** The scalar formatter: [format_value] *)

(** [any(char in value for char in [...])]: the eight characters that
    force quoting. *)
Definition special_chars : list codepoint :=
  [NL; DQ; COLON; PIPE; LBRACK; RBRACK; LBRACE; RBRACE].

Definition needs_quoting (s : pystr) : bool :=
  existsb (fun char => mem char s) special_chars.

Definition format_value (value : Value) : pystr :=
  match value with
  | VPrim PNull => py "null"
  | VPrim (PBool b) => str_bool_lower b
  | VPrim (PStr s) => if needs_quoting s then json_dumps value else s
  | VPrim (PInt z) => str_int z
  | VPrim (PFloat r) => r
  | _ => json_dumps value
  end.

(** ** The structural encoder: [json_to_toon] *)

(** The tabular test
    [all(isinstance(item, dict) and len(item) > 0 and
         all(isinstance(v, (str, int, float, bool, type(None)))
             for v in item.values()) for item in value)].
    On success the model keeps what the test has established: every item
    is a [dict] (a row) whose values are primitives. *)

Definition Row : Type := list (pystr * Prim).

Fixpoint all_some {A B : Type} (f : A -> option B) (l : list A)
  : option (list B) :=
  match l with
  | [] => Some []
  | x :: l' =>
      match f x with
      | None => None
      | Some y =>
          match all_some f l' with
          | None => None
          | Some ys => Some (y :: ys)
          end
      end
  end.

Definition as_prim_entry (kv : pystr * Value) : option (pystr * Prim) :=
  match snd kv with
  | VPrim p => Some (fst kv, p)
  | _ => None
  end.

Definition as_row (item : Value) : option Row :=
  match item with
  | VDict entries =>
      if (0 <? length entries)%nat then all_some as_prim_entry entries
      else None
  | _ => None
  end.

Definition as_table (items : list Value) : option (list Row) :=
  all_some as_row items.

(** The tabular detector, as a truth value. *)
Definition is_tabular (items : list Value) : bool :=
  match as_table items with Some _ => true | None => false end.

(** A cell of a table row (lines 78-87 and 132-140). *)
Definition table_cell (val : Prim) : pystr :=
  match val with
  | PNull => py "null"
  | PBool b => str_bool_lower b
  | PStr s => if mem PIPE s || mem NL s then [DQ] ++ s ++ [DQ] else s
  | PInt z => str_int z
  | PFloat r => r
  end.

Definition table_row (prefix : pystr) (keys : list pystr) (item : Row)
  : pystr :=
  prefix ++
  join (py " | ") (map (fun k => table_cell (dict_get item k (PStr []))) keys).

(** Header and rows of a table; nothing when there is no first item
    (the guards [if value:] and [if data:]). *)
Definition table_lines (prefix : pystr) (rows : list Row) : list pystr :=
  match rows with
  | [] => []
  | first :: _ =>
      let keys := map fst first in
      (prefix ++ join (py " | ") keys) :: map (table_row prefix keys) rows
  end.

(** The key of an object entry, quoted when it holds a space, a colon or
    a newline. *)
Definition quote_key (key : pystr) : pystr :=
  if mem SP key || mem COLON key || mem NL key
  then [DQ] ++ key ++ [DQ] else key.

Definition indent_of (indent : nat) : pystr := repeat SP (2 * indent).

Definition join_lines (lines : list pystr) : pystr := join [NL] lines.
Definition split_lines (s : pystr) : list pystr := split_char NL s.

Fixpoint json_to_toon (data : Value) (indent : nat) {struct data} : pystr :=
  let indent_str := indent_of indent in
  match data with
  | VDict entries =>
      if is_empty entries then py "{}"
      else
        join_lines
          (flat_map
             (fun kv =>
                let key_str := quote_key (fst kv) in
                let value := snd kv in
                match value with
                | VList ((_ :: _) as items) =>
                    match as_table items with
                    | Some rows =>
                        (indent_str ++ key_str ++ py ":")
                          :: table_lines (indent_str ++ py "  ") rows
                    | None =>
                        [indent_str ++ key_str ++ py ":";
                         json_to_toon value (S indent)]
                    end
                | VDict (_ :: _) =>
                    [indent_str ++ key_str ++ py ":";
                     json_to_toon value (S indent)]
                | _ =>
                    [indent_str ++ key_str ++ py ": " ++ format_value value]
                end)
             entries)
  | VList items =>
      if is_empty items then py "[]"
      else if forallb is_primitive items
      then py "[" ++ join (py ", ") (map format_value items) ++ py "]"
      else
        let regular :=
          join_lines
            (flat_map
               (fun item =>
                  let item_str := json_to_toon item indent in
                  if is_nonempty_collection item
                  then (indent_str ++ py "-")
                         :: map (fun line => indent_str ++ py "  " ++ lstrip line)
                              (filter (fun line => negb (is_empty (strip line)))
                                 (split_lines item_str))
                  else [indent_str ++ py "- " ++ item_str])
               items) in
        match as_table items with
        | Some ((_ :: _) as rows) => join_lines (table_lines indent_str rows)
        | _ => regular
        end
  | VPrim _ => format_value data
  end.

(** ** Exceptions

    The operations of the validator that can raise in Python (indexing a
    list) are modelled with an explicit error result, so that the
    [try ... except Exception] of [validate_toon] has its meaning. *)

Inductive exc (A : Type) : Type :=
  | Ok (a : A)
  | Err (e : pystr).
Arguments Ok {A} a.
Arguments Err {A} e.

Definition bind {A B : Type} (m : exc A) (f : A -> exc B) : exc B :=
  match m with
  | Ok a => f a
  | Err e => Err e
  end.

Notation "x <- m ;; k" := (bind m (fun x => k))
  (at level 61, m at next level, right associativity).

(** [l[i]]: raises [IndexError] out of range. *)
Definition py_index {A : Type} (l : list A) (i : nat) : exc A :=
  match nth_error l i with
  | Some x => Ok x
  | None => Err (py "list index out of range")
  end.

(** ** The line-oriented validator: [validate_toon] *)

(** A verdict [(is_valid, error_message)]. *)
Definition verdict : Type := (bool * option pystr)%type.

(** What one turn of the [while] loop does after looking at a line: go on
    with the next line ([i += 1; continue]) or return a verdict. *)
Inductive step : Type :=
  | Continue
  | Return (v : verdict).

Definition line_no (i : nat) : pystr := str_int (Z.of_nat (i + 1)).

Definition nonempty (s : pystr) : bool := negb (is_empty s).

(** The body of the loop for [line = lines[i]] (lines 202-274).  In the
    branch of a [key:] line the source looks at the indentation of the
    next line and then does nothing with it ([pass]); the guarded access
    [lines[i + 1]] is kept. *)
Definition check_line (lines : list pystr) (i : nat) (line : pystr)
  : exc step :=
  let stripped := strip line in
  if is_empty stripped then Ok Continue
  else if contains (py " | ") stripped && negb (startswith (py "-") stripped)
  then
    let parts := map strip (split_str (py " | ") stripped) in
    if is_empty parts || negb (forallb nonempty parts)
    then Ok (Return (false, Some (py "Invalid tabular format at line " ++
                                  line_no i ++ py ": empty columns")))
    else Ok Continue
  else if startswith (py "-") stripped
  then
    let content := strip (slice_from1 stripped) in
    if is_empty content
    then Ok (Return (false, Some (py "Empty list item at line " ++ line_no i)))
    else Ok Continue
  else if mem COLON stripped
  then
    let parts := split_once COLON stripped in
    p0 <- py_index parts 0 ;;
    let key := strip p0 in
    value <- (if (1 <? length parts)%nat
              then p1 <- py_index parts 1 ;; Ok (strip p1)
              else Ok []) ;;
    if is_empty key
    then Ok (Return (false, Some (py "Empty key at line " ++ line_no i)))
    else
      _ <- (if is_empty value
            then if (i + 1 <? length lines)%nat
                 then next_line <- py_index lines (i + 1) ;; Ok tt
                 else Ok tt
            else Ok tt) ;;
      Ok Continue
  else if startswith (py "[") stripped && endswith (py "]") stripped
  then
    let content := strip (slice_1_m1 stripped) in
    if nonempty content
    then
      let values := map strip (split_char COMMA content) in
      if negb (forallb nonempty values)
      then Ok (Return (false, Some (py "Invalid array format at line " ++
                                    line_no i ++ py ": empty values")))
      else Ok Continue
    else Ok Continue
  else if existsb (fun m => if pystr_eq_dec stripped m then true else false)
            [py "{}"; py "[]"]
  then Ok Continue
  else Ok Continue.

(** The loop [while i < len(lines)]; [fuel] bounds the number of turns,
    [None] means that the bound was reached. *)
Fixpoint validate_loop (fuel : nat) (lines : list pystr) (i : nat)
  : option (exc verdict) :=
  match fuel with
  | O => None
  | S fuel' =>
      if (i <? length lines)%nat
      then
        match (line <- py_index lines i ;; check_line lines i line) with
        | Err e => Some (Err e)
        | Ok (Return v) => Some (Ok v)
        | Ok Continue => validate_loop fuel' lines (i + 1)
        end
      else Some (Ok (true, None))
  end.

Definition validate_toon_fuel (fuel : nat) (toon_data : pystr)
  : option verdict :=
  if is_empty toon_data || is_empty (strip toon_data)
  then Some (false, Some (py "TOON data is empty"))
  else
    let lines := split_lines toon_data in
    match validate_loop fuel lines 0 with
    | None => None
    | Some (Ok v) => Some v
    | Some (Err e) => Some (false, Some (py "Validation error: " ++ e))
    end.

(** One turn per line and one more to leave the loop. *)
Definition validate_toon (toon_data : pystr) : option verdict :=
  validate_toon_fuel (S (length (split_lines toon_data))) toon_data.

(** ** The round-trip verifier: [verify_toon_roundtrip] *)

(** A character other than the colon: the class [[^:]]. *)
Definition not_colon (c : codepoint) : bool := negb (N.eqb c COLON).

(** [re.match(r'^\s*([^:]+):', line)], giving group 1.  [\s*] is greedy:
    it first takes all the leading white space and gives characters back
    one at a time; [k] is the number of characters it holds.  [[^:]+]
    takes the whole run up to the next colon (a shorter run is followed
    by a character that is not a colon, so giving back does not help). *)
Fixpoint regex_try (k : nat) (line : pystr) : option pystr :=
  let rest := skipn k line in
  let run := takewhile not_colon rest in
  if nonempty run && startswith [COLON] (skipn (length run) rest)
  then Some run
  else match k with
       | O => None
       | S k' => regex_try k' line
       end.

Definition key_regex (line : pystr) : option pystr :=
  regex_try (length (takewhile is_space line)) line.

(** A Python [set] of strings. *)
Definition py_set : Type := set pystr.
Definition py_set_add (x : pystr) (s : py_set) : py_set :=
  set_add pystr_eq_dec x s.
Definition py_set_of (l : list pystr) : py_set :=
  fold_left (fun s x => py_set_add x s) l (empty_set pystr).

(** The keys read back from the text (lines 303-309). *)
Definition toon_keys_of (toon_data : pystr) : py_set :=
  fold_left
    (fun toon_keys line =>
       if mem COLON line && negb (startswith (py "-") (strip line))
       then match key_regex line with
            | Some group1 =>
                py_set_add (strip_chars [DQ; SQ] (strip group1)) toon_keys
            | None => toon_keys
            end
       else toon_keys)
    (split_lines toon_data) (empty_set pystr).

Definition no_keys_found (json_data : Value) (toon_data : pystr) : bool :=
  match json_data with
  | VDict entries =>
      let json_keys := py_set_of (map fst entries) in
      let toon_keys := toon_keys_of toon_data in
      (0 <? length json_keys)%nat && (length toon_keys =? 0)%nat
  | _ => false
  end.

Definition verify_toon_roundtrip (json_data : Value) (toon_data : pystr)
  : option verdict :=
  if truthy json_data && is_empty (strip toon_data)
  then Some (false, Some (py "TOON output is empty but input had data"))
  else if no_keys_found json_data toon_data
  then Some (false, Some (py "No keys found in TOON output"))
  else
    match validate_toon toon_data with
    | None => None
    | Some (is_valid, error) =>
        if negb is_valid then Some (false, error) else Some (true, None)
    end.

(** ** Reading verdicts *)

Definition rejects (toon_data : pystr) : Prop :=
  exists msg, validate_toon toon_data = Some (false, Some msg).

Definition accepts (toon_data : pystr) : Prop :=
  validate_toon toon_data = Some (true, None).

(** The leading white space of a line, counted as the validator does:
    [len(line) - len(line.lstrip())]. *)
Definition indent_width (line : pystr) : nat :=
  length line - length (lstrip line).

(** The four defects of shape that the validator looks for in a line. *)

Definition empty_column (line : pystr) : Prop :=
  let stripped := strip line in
  contains (py " | ") stripped = true /\
  startswith (py "-") stripped = false /\
  In [] (map strip (split_str (py " | ") stripped)).

Definition empty_list_item (line : pystr) : Prop :=
  let stripped := strip line in
  startswith (py "-") stripped = true /\
  strip (slice_from1 stripped) = [].

Definition empty_key (line : pystr) : Prop :=
  let stripped := strip line in
  mem COLON stripped = true /\
  exists key rest, split_once COLON stripped = key :: rest /\ strip key = [].

Definition empty_array_value (line : pystr) : Prop :=
  let stripped := strip line in
  startswith (py "[") stripped = true /\
  endswith (py "]") stripped = true /\
  strip (slice_1_m1 stripped) <> [] /\
  In [] (map strip (split_char COMMA (strip (slice_1_m1 stripped)))).

(** The message of a rejection and the defect it reports, for line
    number [i + 1]. *)
Inductive shape_defect (i : nat) (line : pystr) : pystr -> Prop :=
  | DefectColumn :
      empty_column line ->
      shape_defect i line
        (py "Invalid tabular format at line " ++ line_no i ++
         py ": empty columns")
  | DefectListItem :
      empty_list_item line ->
      shape_defect i line (py "Empty list item at line " ++ line_no i)
  | DefectKey :
      empty_key line ->
      shape_defect i line (py "Empty key at line " ++ line_no i)
  | DefectArray :
      empty_array_value line ->
      shape_defect i line
        (py "Invalid array format at line " ++ line_no i ++
         py ": empty values").

(** ** JSON string literals

    The grammar of a JSON string (RFC 8259, section 7), as a reference
    against which the quoting of the encoder is checked: a double quote,
    then characters other than the quote, the backslash and the control
    characters below U+0020, or a backslash followed by one of
    the quote, the backslash, [/], [b], [f], [n], [r], [t], or by [u] and
    four hexadecimal digits, then a double quote. *)

Inductive lit_state : Type :=
  | LStart
  | LBody
  | LEscape
  | LHex (remaining : nat)
  | LEnd
  | LFail.

Definition is_hex (c : codepoint) : bool :=
  ((48 <=? c) && (c <=? 57) || (97 <=? c) && (c <=? 102) ||
   (65 <=? c) && (c <=? 70))%N.

Definition lit_step (st : lit_state) (c : codepoint) : lit_state :=
  match st with
  | LStart => if N.eqb c DQ then LBody else LFail
  | LBody =>
      if N.eqb c DQ then LEnd
      else if N.eqb c BSLASH then LEscape
      else if (c <? 32)%N then LFail
      else LBody
  | LEscape =>
      if existsb (N.eqb c) [DQ; BSLASH; 47; 98; 102; 110; 114; 116]%N
      then LBody
      else if N.eqb c 117 then LHex 4
      else LFail
  | LHex (S k) =>
      if is_hex c then match k with O => LBody | S _ => LHex k end
      else LFail
  | LHex O => LFail
  | LEnd => LFail
  | LFail => LFail
  end.

Definition is_json_string_literal (s : pystr) : bool :=
  match fold_left lit_step s LStart with
  | LEnd => true
  | _ => false
  end.

(** ** Reading a JSON string literal back

    The decoder of a JSON string, as a reference for what a literal
    denotes (RFC 8259, section 7, and [py_scanstring] of the standard
    library in its strict mode): after the opening quote, a character
    stands for itself, a backslash and a letter for the character of the
    table, [\uXXXX] for the code unit with that hexadecimal value; a high
    surrogate followed by the escape of a low surrogate stands for the
    one character of the pair; the literal ends with the closing quote.
    A control character, an unknown escape and a lacking quote are
    errors. *)

Definition hex_value (c : codepoint) : option N :=
  (if (48 <=? c) && (c <=? 57) then Some (c - 48)
   else if (97 <=? c) && (c <=? 102) then Some (c - 87)
   else if (65 <=? c) && (c <=? 70) then Some (c - 55)
   else None)%N.

Definition hex4_value (a b c d : codepoint) : option N :=
  match hex_value a, hex_value b, hex_value c, hex_value d with
  | Some x, Some y, Some z, Some w =>
      Some (4096 * x + 256 * y + 16 * z + w)%N
  | _, _, _, _ => None
  end.

Definition short_escape (e : codepoint) : option codepoint :=
  (if e =? DQ then Some DQ
   else if e =? BSLASH then Some BSLASH
   else if e =? 47 then Some 47
   else if e =? 98 then Some 8
   else if e =? 102 then Some 12
   else if e =? 110 then Some 10
   else if e =? 114 then Some 13
   else if e =? 116 then Some 9
   else None)%N.

Definition is_high_surrogate (n : N) : bool :=
  ((55296 <=? n) && (n <=? 56319))%N.

Definition is_low_surrogate (n : N) : bool :=
  ((56320 <=? n) && (n <=? 57343))%N.

Definition surrogate_pair (hi lo : N) : codepoint :=
  (65536 + N.lor (N.shiftl (hi - 55296) 10) (lo - 56320))%N.

(** The characters of the literal after the opening quote. *)
Fixpoint json_string_body (s : pystr) : option pystr :=
  match s with
  | [] => None
  | c :: rest =>
      if (c =? DQ)%N then if is_empty rest then Some [] else None
      else if (c =? BSLASH)%N then
        match rest with
        | [] => None
        | e :: rest1 =>
            if (e =? 117)%N then
              match rest1 with
              | a :: b :: c' :: d :: rest2 =>
                  match hex4_value a b c' d with
                  | None => None
                  | Some uni =>
                      let single := option_map (cons uni) (json_string_body rest2) in
                      if is_high_surrogate uni then
                        match rest2 with
                        | b1 :: u1 :: rest3 =>
                            if ((b1 =? BSLASH) && (u1 =? 117))%N then
                              match rest3 with
                              | a2 :: b2 :: c2 :: d2 :: rest4 =>
                                  match hex4_value a2 b2 c2 d2 with
                                  | None => None
                                  | Some uni2 =>
                                      if is_low_surrogate uni2
                                      then option_map
                                             (cons (surrogate_pair uni uni2))
                                             (json_string_body rest4)
                                      else single
                                  end
                              | _ => None
                              end
                            else single
                        | _ => single
                        end
                      else single
                  end
              | _ => None
              end
            else
              match short_escape e with
              | Some x => option_map (cons x) (json_string_body rest1)
              | None => None
              end
        end
      else if (c <? 32)%N then None
      else option_map (cons c) (json_string_body rest)
  end.

(** [json.loads] on a text that is one string literal. *)
Definition json_loads_str (text : pystr) : option pystr :=
  match text with
  | [] => None
  | c :: body => if (c =? DQ)%N then json_string_body body else None
  end.

(** A Unicode scalar value: a code point that is not a surrogate.  The
    strings of a JSON file in UTF-8 are made of these, unless the file
    spells a lone surrogate with an escape. *)
Definition scalar_value (c : codepoint) : Prop :=
  (c < 55296 \/ 57343 < c < 1114112)%N.

(** The characters of [special_chars] do not occur in [s]. *)
Definition delimiter_free (s : pystr) : Prop :=
  forall c, In c special_chars -> ~ In c s.

(** The text of a [float], as [str] writes one: digits, sign, point,
    exponent, and the letters of [inf] and [nan]. *)
Definition float_text (r : pystr) : bool :=
  forallb (fun c => existsb (N.eqb c) (py "0123456789.e+-infa")) r.

Definition wf_prim (p : Prim) : Prop :=
  match p with
  | PFloat r => float_text r = true
  | _ => True
  end.

(** ** Tables *)

(** The object that a row of primitives stands for. *)
Definition value_of_row (r : Row) : Value :=
  VDict (map (fun kp => (fst kp, VPrim (snd kp))) r).

(** The tabular detector where it is consulted: the array is known to be
    non-empty (lines 60 and 109) and passes the test of lines 62-65 and
    118-120. *)
Definition tabular_detector (items : list Value) : bool :=
  negb (is_empty items) && is_tabular items.

(** An object with at least one key, all of whose values are
    primitives. *)
Definition flat_record (item : Value) : Prop :=
  exists entries,
    item = VDict entries /\ entries <> [] /\
    Forall (fun kv => is_primitive (snd kv) = true) entries.

(** ** Keys that the verifier can read back

    A key that is not empty, holds no newline, and whose first character
    after leading white space is not a dash. *)
Definition good_key (k : pystr) : Prop :=
  k <> [] /\ mem NL k = false /\ startswith (py "-") (lstrip k) = false.

(** What a line must be for the verifier to read a key from it. *)
Definition key_line (line : pystr) : Prop :=
  mem COLON line && negb (startswith (py "-") (strip line)) = true /\
  exists g, key_regex line = Some g.

(** ** The upload filter: [allowed_file] *)

Definition DOT : codepoint := 46%N.

(** [s.rsplit(c, 1)]: split at the last occurrence of [c] only. *)
Fixpoint rsplit_once (c : codepoint) (s : pystr) : list pystr :=
  match s with
  | [] => [[]]
  | x :: s' =>
      match rsplit_once c s' with
      | [piece] => if N.eqb x c then [[]; piece] else [x :: piece]
      | before :: rest => (x :: before) :: rest
      | [] => [[x]]
      end
  end.

(** [s.lower()].  The ASCII capitals go to their small letters; of the
    characters outside ASCII, the two whose lower case has an ASCII
    letter are modelled (U+0130 gives [i] and U+0307, U+212A gives [k]),
    and the others, whose lower case stays outside ASCII, are left as
    they are: a comparison with an ASCII text is not affected. *)
Definition lower_char (c : codepoint) : pystr :=
  (if (65 <=? c) && (c <=? 90) then [c + 32]
   else if c =? 304 then [105; 775]
   else if c =? 8490 then [107]
   else [c])%N.

Definition py_lower (s : pystr) : pystr := flat_map lower_char s.

(** [app.config['ALLOWED_EXTENSIONS']]. *)
Definition ALLOWED_EXTENSIONS : list pystr := [py "json"].

Definition pystr_eqb (a b : pystr) : bool :=
  if pystr_eq_dec a b then true else false.

(** [allowed_file] (lines 29-32); the index [[1]] is kept with its
    possible [IndexError]. *)
Definition allowed_file (filename : pystr) : exc bool :=
  if mem DOT filename
  then ext <- py_index (rsplit_once DOT filename) 1 ;;
       Ok (existsb (pystr_eqb (py_lower ext)) ALLOWED_EXTENSIONS)
  else Ok false.

(** The sixteen spellings of [json] in either case. *)
Definition json_extension (ext : pystr) : Prop :=
  exists a b c d,
    ext = [a; b; c; d] /\
    (a = 106 \/ a = 74)%N /\ (b = 115 \/ b = 83)%N /\
    (c = 111 \/ c = 79)%N /\ (d = 110 \/ d = 78)%N.

(** ** Plain records

    A key made of letters, digits and underscores, and a primitive whose
    text holds no pipe character. *)
Definition ident_char (c : codepoint) : bool :=
  ((48 <=? c) && (c <=? 57) || (65 <=? c) && (c <=? 90) ||
   (97 <=? c) && (c <=? 122) || (c =? 95))%N.

Definition plain_key (k : pystr) : Prop :=
  k <> [] /\ forall c, In c k -> ident_char c = true.

Definition pipe_free (p : Prim) : Prop :=
  match p with
  | PStr s => mem PIPE s = false
  | PFloat r => float_text r = true
  | _ => True
  end.

Definition plain_entry (kp : pystr * Prim) : Prop :=
  plain_key (fst kp) /\ pipe_free (snd kp).

(** [isinstance(v, dict)]. *)
Definition is_dict (v : Value) : bool :=
  match v with VDict _ => true | _ => false end.

(** A primitive whose text the scalar formatter leaves as it is. *)
Definition unquoted (p : Prim) : Prop :=
  match p with
  | PStr s => needs_quoting s = false
  | PFloat r => float_text r = true
  | _ => True
  end.

(** ** The encoder under the recursion limit of the interpreter

    [json_to_toon] calls itself for the items of an array written item
    by item and for the nested values of an object, and Python raises
    [RecursionError] when a call would go deeper than the interpreter
    allows.  [limit] is the number of nested activations of
    [json_to_toon] for which the stack has room when the encoder is
    called; the frames of the calls that an activation makes to
    [format_value], [json.dumps] and the generator expressions of its
    tests, which do not recurse, are counted with it.  The function
    below is the source with this bound: an activation with no room
    left raises, and the exception of an inner call passes through the
    loops of the outer ones, which have no handler.  [json_to_toon] is
    the text that is returned when nothing is raised
    ([json_to_toon_limited_spec]). *)

Definition recursion_error : pystr := py "maximum recursion depth exceeded".

(** [m] raises an exception. *)
Definition raises {A : Type} (m : exc A) : Prop := exists e, m = Err e.

(** A loop that extends [lines] with what [f] gives for each element, and
    is left by the first exception. *)
Fixpoint flat_mapM {A B : Type} (f : A -> exc (list B)) (l : list A)
  : exc (list B) :=
  match l with
  | [] => Ok []
  | x :: l' => ys <- f x ;; zs <- flat_mapM f l' ;; Ok (ys ++ zs)
  end.

Fixpoint json_to_toon_limited (limit : nat) (data : Value) (indent : nat)
  {struct limit} : exc pystr :=
  match limit with
  | O => Err recursion_error
  | S limit' =>
      let indent_str := indent_of indent in
      match data with
      | VDict entries =>
          if is_empty entries then Ok (py "{}")
          else
            lines <-
              flat_mapM
                (fun kv =>
                   let key_str := quote_key (fst kv) in
                   let value := snd kv in
                   match value with
                   | VList ((_ :: _) as items) =>
                       match as_table items with
                       | Some rows =>
                           Ok ((indent_str ++ key_str ++ py ":")
                                 :: table_lines (indent_str ++ py "  ") rows)
                       | None =>
                           value_str <-
                             json_to_toon_limited limit' value (S indent) ;;
                           Ok [indent_str ++ key_str ++ py ":"; value_str]
                       end
                   | VDict (_ :: _) =>
                       value_str <-
                         json_to_toon_limited limit' value (S indent) ;;
                       Ok [indent_str ++ key_str ++ py ":"; value_str]
                   | _ =>
                       Ok [indent_str ++ key_str ++ py ": " ++
                           format_value value]
                   end)
                entries ;;
            Ok (join_lines lines)
      | VList items =>
          if is_empty items then Ok (py "[]")
          else if forallb is_primitive items
          then Ok (py "[" ++ join (py ", ") (map format_value items) ++ py "]")
          else
            match as_table items with
            | Some ((_ :: _) as rows) =>
                Ok (join_lines (table_lines indent_str rows))
            | _ =>
                lines <-
                  flat_mapM
                    (fun item =>
                       item_str <- json_to_toon_limited limit' item indent ;;
                       Ok (if is_nonempty_collection item
                           then (indent_str ++ py "-")
                                  :: map (fun line =>
                                            indent_str ++ py "  " ++ lstrip line)
                                       (filter
                                          (fun line =>
                                             negb (is_empty (strip line)))
                                          (split_lines item_str))
                           else [indent_str ++ py "- " ++ item_str]))
                    items ;;
                Ok (join_lines lines)
            end
      | VPrim _ => Ok (format_value data)
      end
  end.

(** The nested activations of [json_to_toon] that the encoding of a
    value needs: one for the call itself, and below it the deepest of the
    calls it makes.  An array written item by item calls the encoder for
    every item, primitives too (line 148); an object calls it for the
    values that are non-empty collections and not tables (line 92). *)
Fixpoint activations (v : Value) : nat :=
  match v with
  | VPrim _ => 1
  | VList items =>
      if is_empty items then 1
      else if forallb is_primitive items then 1
      else
        match as_table items with
        | Some (_ :: _) => 1
        | _ => S (list_max (map activations items))
        end
  | VDict entries =>
      S (list_max
           (map (fun kv =>
                   let value := snd kv in
                   match value with
                   | VList ((_ :: _) as items) =>
                       match as_table items with
                       | Some _ => 0
                       | None => activations value
                       end
                   | VDict (_ :: _) => activations value
                   | _ => 0
                   end)
              entries))
  end.

(** The nesting depth of a value: no level for a primitive, one more
    than its deepest element for an array or an object. *)
Fixpoint depth (v : Value) : nat :=
  match v with
  | VPrim _ => 0
  | VList items => S (list_max (map depth items))
  | VDict entries => S (list_max (map (fun kv => depth (snd kv)) entries))
  end.

(** [n] arrays around the empty array: the value of the JSON text made
    of [n + 1] opening and as many closing brackets. *)
Fixpoint nested_lists (n : nat) : Value :=
  match n with
  | O => VList []
  | S n' => VList [nested_lists n']
  end.

(** ** The conversion endpoint: [api_convert]

    The handler is modelled for what it decides.  Its whole body is
    inside [try]: reading [request.files] gives the uploaded file or
    none, or raises (the request is parsed at this point, and a body
    above [MAX_CONTENT_LENGTH] raises [RequestEntityTooLarge]); a file
    has a name and a content, and [json.load] on the content gives a
    value or raises a [JSONDecodeError] or something else; the encoder
    runs with the room the stack has left ([limit]) and may raise
    [RecursionError]; the other calls of the handler do not recurse, and
    the stack is taken to have room for them.  Every exception other
    than [JSONDecodeError] is answered by the last handler with status
    500 and its text.  The response is the body given to [jsonify] and
    the status code.  [download_stem] stands for
    [os.path.splitext(secure_filename(name))[0]], which belongs to the
    libraries. *)

Inductive load_result : Type :=
  | Loaded (json_data : Value)
  | DecodeError (msg : pystr)
  | LoadError (msg : pystr).

Record upload : Type := Upload {
  filename : pystr;
  content : load_result
}.

Inductive body : Type :=
  | ErrorBody (error : pystr)
  | FailureBody (error : pystr)
  | SuccessBody (toon : pystr) (name : pystr).

Definition response : Type := (body * nat)%type.

(** [str(x)] for a message that may be [None]. *)
Definition str_opt (m : option pystr) : pystr :=
  match m with
  | Some s => s
  | None => py "None"
  end.

Section Api.

Variable download_stem : pystr -> pystr.
Variable limit : nat.

Definition api_convert (request_files : exc (option upload))
  : option response :=
  match request_files with
  | Err e => Some (ErrorBody e, 500)
  | Ok None => Some (ErrorBody (py "No file part"), 400)
  | Ok (Some file) =>
      if is_empty (filename file)
      then Some (ErrorBody (py "No file selected"), 400)
      else
        match allowed_file (filename file) with
        | Err e => Some (ErrorBody e, 500)
        | Ok false => Some (ErrorBody (py "Invalid file type"), 400)
        | Ok true =>
            match content file with
            | DecodeError e => Some (ErrorBody (py "Invalid JSON: " ++ e), 400)
            | LoadError e => Some (ErrorBody e, 500)
            | Loaded json_data =>
                match json_to_toon_limited limit json_data 0 with
                | Err e => Some (ErrorBody e, 500)
                | Ok toon_data =>
                    match verify_toon_roundtrip json_data toon_data with
                    | None => None
                    | Some (is_valid, error_msg) =>
                        if negb is_valid
                        then Some (FailureBody
                                     (py "TOON validation failed: " ++
                                      str_opt error_msg), 400)
                        else Some (SuccessBody toon_data
                                     (download_stem (filename file) ++
                                      py ".toon"),
                                   200)
                    end
                end
            end
        end
  end.

End Api.

(** A name that [allowed_file] accepts. *)
Definition json_name (name : pystr) : Prop :=
  exists stem ext, name = stem ++ DOT :: ext /\ json_extension ext.

(** A line that has none of the shapes the validator knows: once
    stripped it holds neither pipe nor colon, does not begin with a
    dash, and is not between square brackets. *)
Definition unrecognised (line : pystr) : Prop :=
  let stripped := strip line in
  ~ In PIPE stripped /\ ~ In COLON stripped /\
  startswith (py "-") stripped = false /\
  startswith (py "[") stripped && endswith (py "]") stripped = false.

(** A table cell that is not empty and holds neither white space nor
    pipe. *)
Definition plain_cell (t : pystr) : Prop :=
  t <> [] /\ forall x, In x t -> is_space x = false /\ x <> PIPE.

(** The cells of a row under the keys of a header. *)
Definition row_cells (keys : list pystr) (item : Row) : list pystr :=
  map (fun k => table_cell (dict_get item k (PStr []))) keys.

(** The text of an element of an inline array that is not empty and
    holds neither white space nor pipe, comma or colon. *)
Definition plain_item (t : pystr) : Prop :=
  t <> [] /\
  forall x, In x t ->
            is_space x = false /\ x <> PIPE /\ x <> COMMA /\ x <> COLON.

(** * Properties *)

(** ** The validator on single lines *)

(** C9, as stated, at the line [a | | b]: the validator does not reject
    it.  The separator is the three characters space, pipe, space; the
    line splits into [a] and [| b], and neither is empty. *)
Lemma C9_counterexample : ~ rejects (py "a | | b").
Proof.
  intros [msg H]. vm_compute in H. discriminate H.
Qed.

(** C9, amended: the validator accepts the line [a | | b]; it rejects a
    row whose middle column is empty, [a |  | b] (two separators in a
    row), and a bare [-]; it accepts [- item], [key: value], [[1, 2]],
    [{}] and [[]]. *)
Theorem C9_validator_lines :
  accepts (py "a | | b") /\
  validate_toon (py "a |  | b") =
    Some (false, Some (py "Invalid tabular format at line 1: empty columns")) /\
  validate_toon (py "-") =
    Some (false, Some (py "Empty list item at line 1")) /\
  accepts (py "- item") /\
  accepts (py "key: value") /\
  accepts (py "[1, 2]") /\
  accepts (py "{}") /\
  accepts (py "[]").
Proof.
  unfold accepts. repeat split; vm_compute; reflexivity.
Qed.

(** ** The validator never raises and always terminates *)

Lemma forallb_nonempty_false (parts : list pystr) :
  forallb nonempty parts = false -> In [] parts.
Proof.
  induction parts as [|p parts IH]; simpl; intros H.
  - discriminate.
  - destruct p as [|c p]; simpl in H.
    + now left.
    + right. now apply IH.
Qed.

Lemma split_once_cons (c : codepoint) (s : pystr) :
  exists piece pieces, split_once c s = piece :: pieces.
Proof.
  induction s as [|x s IH]; simpl.
  - now exists [], [].
  - destruct (N.eqb x c).
    + now exists [], [s].
    + destruct IH as (piece & pieces & ->). now exists (x :: piece), pieces.
Qed.

Lemma split_char_cons (c : codepoint) (s : pystr) :
  exists piece pieces, split_char c s = piece :: pieces.
Proof.
  induction s as [|x s IH]; simpl.
  - now exists [], [].
  - destruct (N.eqb x c).
    + now exists [], (split_char c s).
    + destruct IH as (piece & pieces & ->). now exists (x :: piece), pieces.
Qed.

Lemma py_index_lt {A : Type} (l : list A) (i : nat) :
  i < length l -> exists x, py_index l i = Ok x /\ nth_error l i = Some x.
Proof.
  intros H. unfold py_index.
  destruct (nth_error l i) as [x|] eqn:E.
  - now exists x.
  - apply nth_error_None in E. lia.
Qed.

(** A turn of the loop either goes on or returns a rejection that names
    a defect of the line; it never raises. *)
Lemma check_line_cases (lines : list pystr) (i : nat) (line : pystr) :
  check_line lines i line = Ok Continue \/
  exists msg, check_line lines i line = Ok (Return (false, Some msg)) /\
              shape_defect i line msg.
Proof.
  unfold check_line.
  destruct (is_empty (strip line)); [now left|].
  destruct (contains (py " | ") (strip line)) eqn:Hc;
    [destruct (startswith (py "-") (strip line)) eqn:Hd|]; cbn [andb negb].
  - (* a list item that holds a separator *)
    destruct (is_empty (strip (slice_from1 (strip line)))) eqn:He; [|now left].
    right. eexists. split; [reflexivity|]. apply DefectListItem. split; [exact Hd|].
    destruct (strip (slice_from1 (strip line))); [reflexivity|discriminate].
  - (* a table line *)
    destruct (is_empty (map strip (split_str (py " | ") (strip line))) ||
              negb (forallb nonempty (map strip (split_str (py " | ") (strip line)))))
      eqn:Hp; [|now left].
    right. eexists. split; [reflexivity|]. apply DefectColumn.
    split; [exact Hc|split; [exact Hd|]].
    apply orb_true_iff in Hp. destruct Hp as [Hp|Hp].
    + destruct (map strip (split_str (py " | ") (strip line))) eqn:E;
        [|simpl in Hp; discriminate Hp].
      unfold split_str in E. exfalso.
      assert (G : forall s k cur, split_str_aux (py " | ") s k cur <> []).
      { induction s as [|x s IH]; intros k cur; cbn [split_str_aux];
          [discriminate|].
        destruct k; [|apply IH].
        destruct (startswith (py " | ") (x :: s)); [discriminate|apply IH]. }
      destruct (split_str_aux (py " | ") (strip line) 0 []) eqn:E2;
        [now apply G in E2|discriminate].
    + apply negb_true_iff in Hp. now apply forallb_nonempty_false.
  - destruct (startswith (py "-") (strip line)) eqn:Hd.
    + destruct (is_empty (strip (slice_from1 (strip line)))) eqn:He; [|now left].
      right. eexists. split; [reflexivity|]. apply DefectListItem.
      split; [exact Hd|].
      destruct (strip (slice_from1 (strip line))); [reflexivity|discriminate].
    + destruct (mem COLON (strip line)) eqn:Hm.
      * destruct (split_once_cons COLON (strip line)) as (key & rest & E).
        rewrite E. cbn [py_index nth_error bind].
        assert (Hv : exists value,
                   (if (1 <? length (key :: rest))%nat
                    then p1 <- py_index (key :: rest) 1;; Ok (strip p1)
                    else Ok []) = Ok value).
        { destruct (1 <? length (key :: rest))%nat eqn:L; [|now exists []].
          apply Nat.ltb_lt in L.
          destruct (py_index_lt (key :: rest) L) as (x & -> & _).
          now exists (strip x). }
        destruct Hv as (value & ->). cbn [bind].
        destruct (is_empty (strip key)) eqn:Hk.
        -- right. eexists. split; [reflexivity|]. apply DefectKey.
           split; [exact Hm|]. exists key, rest. split; [exact E|].
           destruct (strip key); [reflexivity|discriminate].
        -- left.
           destruct (is_empty value); [|reflexivity].
           destruct (i + 1 <? length lines)%nat eqn:L; [|reflexivity].
           apply Nat.ltb_lt in L.
           destruct (py_index_lt lines L) as (x & -> & _). reflexivity.
      * destruct (startswith (py "[") (strip line) && endswith (py "]") (strip line))
          eqn:Hb.
        -- apply andb_true_iff in Hb. destruct Hb as [Hb1 Hb2].
           destruct (nonempty (strip (slice_1_m1 (strip line)))) eqn:Hn;
             [|now left].
           destruct (negb (forallb nonempty
                       (map strip (split_char COMMA (strip (slice_1_m1 (strip line)))))))
             eqn:Hf; [|now left].
           right. eexists. split; [reflexivity|]. apply DefectArray.
           split; [exact Hb1|split; [exact Hb2|split]].
           ++ intros E. rewrite E in Hn. discriminate.
           ++ apply negb_true_iff in Hf. now apply forallb_nonempty_false.
        -- left. now destruct (existsb _ _).
Qed.

(** The loop, given one unit of fuel per remaining line and one more:
    it accepts when every remaining line lets it go on, and otherwise
    rejects at the first line with a defect. *)
Lemma validate_loop_cases (fuel : nat) (lines : list pystr) :
  forall i, length lines - i < fuel ->
  (validate_loop fuel lines i = Some (Ok (true, None)) /\
   forall j line, i <= j -> nth_error lines j = Some line ->
                  check_line lines j line = Ok Continue) \/
  (exists j line msg,
      i <= j /\ nth_error lines j = Some line /\ shape_defect j line msg /\
      validate_loop fuel lines i = Some (Ok (false, Some msg))).
Proof.
  induction fuel as [|fuel IH]; intros i Hf; [lia|].
  cbn [validate_loop].
  destruct (i <? length lines)%nat eqn:L.
  - apply Nat.ltb_lt in L.
    destruct (py_index_lt lines L) as (line & -> & Hn). cbn [bind].
    destruct (check_line_cases lines i line) as [Hc|(msg & Hc & Hd)]; rewrite Hc.
    + destruct (IH (i + 1)) as [[Hr Hall]|(j & l & m & Hj & Hl & Hs & Hr)];
        [lia| |].
      * left. split; [exact Hr|].
        intros j l Hj Hl. destruct (Nat.eq_dec j i) as [->|Hne].
        -- rewrite Hn in Hl. injection Hl as <-. exact Hc.
        -- apply Hall; [lia|exact Hl].
      * right. exists j, l, m. repeat split; try assumption. lia.
    + right. exists i, line, msg. repeat split; try assumption. lia.
  - apply Nat.ltb_ge in L. left. split; [reflexivity|].
    intros j l Hj Hl.
    assert (j < length lines) by (apply nth_error_Some; congruence). lia.
Qed.

Lemma blank_test (toon_data : pystr) :
  is_empty toon_data || is_empty (strip toon_data) = true <->
  strip toon_data = [].
Proof.
  split.
  - intros H. apply orb_true_iff in H. destruct H as [H|H].
    + destruct toon_data; [reflexivity|discriminate].
    + destruct (strip toon_data); [reflexivity|discriminate].
  - intros ->. apply orb_true_r.
Qed.

(** The three outcomes of [validate_toon]; the handler of the
    [try ... except] is never reached and the fuel is never used up. *)
Lemma validate_toon_cases (toon_data : pystr) :
  (strip toon_data = [] /\
   validate_toon toon_data = Some (false, Some (py "TOON data is empty"))) \/
  (strip toon_data <> [] /\ accepts toon_data /\
   forall j line, nth_error (split_lines toon_data) j = Some line ->
                  check_line (split_lines toon_data) j line = Ok Continue) \/
  (strip toon_data <> [] /\
   exists j line msg,
     nth_error (split_lines toon_data) j = Some line /\
     shape_defect j line msg /\
     validate_toon toon_data = Some (false, Some msg)).
Proof.
  unfold accepts, validate_toon, validate_toon_fuel.
  destruct (is_empty toon_data || is_empty (strip toon_data)) eqn:B.
  - left. apply blank_test in B. now split.
  - right.
    assert (Hne : strip toon_data <> []).
    { intros E. apply blank_test in E. congruence. }
    destruct (@validate_loop_cases (S (length (split_lines toon_data)))
                (split_lines toon_data) 0)
      as [[Hr Hall]|(j & l & m & Hj & Hl & Hs & Hr)]; [lia| |]; rewrite Hr.
    + left. repeat split; [exact Hne|].
      intros j line Hl. apply Hall; [lia|exact Hl].
    + right. split; [exact Hne|]. now exists j, l, m.
Qed.

(** More fuel does not change a result. *)
Lemma validate_loop_more (fuel : nat) (lines : list pystr) :
  forall fuel' i r,
    fuel <= fuel' -> validate_loop fuel lines i = Some r ->
    validate_loop fuel' lines i = Some r.
Proof.
  induction fuel as [|fuel IH]; intros fuel' i r Hle H; [discriminate H|].
  destruct fuel' as [|fuel']; [lia|].
  cbn [validate_loop] in *.
  destruct (i <? length lines)%nat; [|exact H].
  destruct (line <- py_index lines i;; check_line lines i line)
    as [[|v]|e]; try exact H.
  apply IH; [lia|exact H].
Qed.

Lemma validate_toon_fuel_enough (fuel : nat) (toon_data : pystr) :
  length (split_lines toon_data) < fuel ->
  validate_toon_fuel fuel toon_data = validate_toon toon_data.
Proof.
  intros Hf. unfold validate_toon, validate_toon_fuel.
  destruct (is_empty toon_data || is_empty (strip toon_data)); [reflexivity|].
  destruct (@validate_loop_cases (S (length (split_lines toon_data)))
              (split_lines toon_data) 0)
    as [[Hr _]|(j & l & m & _ & _ & _ & Hr)]; [lia| |];
    rewrite (validate_loop_more (split_lines toon_data) 0 Hf Hr), Hr;
    reflexivity.
Qed.

(** ** The encoder and the recursion limit *)

Lemma json_to_toon_list (items : list Value) (indent : nat) :
  json_to_toon (VList items) indent =
  if is_empty items then py "[]"
  else if forallb is_primitive items
  then py "[" ++ join (py ", ") (map format_value items) ++ py "]"
  else
    match as_table items with
    | Some ((_ :: _) as rows) => join_lines (table_lines (indent_of indent) rows)
    | _ =>
        join_lines
          (flat_map
             (fun item =>
                if is_nonempty_collection item
                then (indent_of indent ++ py "-")
                       :: map (fun line =>
                                 indent_of indent ++ py "  " ++ lstrip line)
                            (filter (fun line => negb (is_empty (strip line)))
                               (split_lines (json_to_toon item indent)))
                else [indent_of indent ++ py "- " ++ json_to_toon item indent])
             items)
    end.
Proof.
  reflexivity.
Qed.

Lemma json_to_toon_dict (entries : list (pystr * Value)) (indent : nat) :
  json_to_toon (VDict entries) indent =
  if is_empty entries then py "{}"
  else
    join_lines
      (flat_map
         (fun kv =>
            match snd kv with
            | VList ((_ :: _) as items) =>
                match as_table items with
                | Some rows =>
                    (indent_of indent ++ quote_key (fst kv) ++ py ":")
                      :: table_lines (indent_of indent ++ py "  ") rows
                | None =>
                    [indent_of indent ++ quote_key (fst kv) ++ py ":";
                     json_to_toon (snd kv) (S indent)]
                end
            | VDict (_ :: _) =>
                [indent_of indent ++ quote_key (fst kv) ++ py ":";
                 json_to_toon (snd kv) (S indent)]
            | _ =>
                [indent_of indent ++ quote_key (fst kv) ++ py ": " ++
                 format_value (snd kv)]
            end)
         entries).
Proof.
  reflexivity.
Qed.

Lemma activations_pos (v : Value) : 1 <= activations v.
Proof.
  destruct v as [p|items|entries]; cbn [activations]; [lia| |lia].
  destruct (is_empty items); [lia|].
  destruct (forallb is_primitive items); [lia|].
  destruct (as_table items) as [[|r rows]|]; lia.
Qed.

Lemma forallb_leb_list_max {A : Type} (f : A -> nat) (n : nat) (l : list A) :
  forallb (fun x => f x <=? n) l = (list_max (map f l) <=? n).
Proof.
  induction l as [|x l IH]; [reflexivity|].
  cbn [forallb map list_max fold_right]. rewrite IH.
  change (fold_right Nat.max 0 (map f l)) with (list_max (map f l)).
  destruct (Nat.leb_spec (f x) n), (Nat.leb_spec (list_max (map f l)) n),
    (Nat.leb_spec (Nat.max (f x) (list_max (map f l))) n);
    cbn [andb]; try reflexivity; lia.
Qed.

(** A loop whose body raises [e] on some elements and returns on the
    others raises [e] when it meets one of the former, and returns the
    lines of all elements otherwise. *)
Lemma flat_mapM_spec {A B : Type} (f : A -> exc (list B))
      (p : A -> bool) (g : A -> list B) (e : pystr) (l : list A) :
  (forall x, In x l -> f x = if p x then Ok (g x) else Err e) ->
  flat_mapM f l = if forallb p l then Ok (flat_map g l) else Err e.
Proof.
  induction l as [|x l IH]; intros H; [reflexivity|].
  cbn [flat_mapM forallb flat_map].
  rewrite (H x (or_introl eq_refl)).
  destruct (p x); cbn [bind andb]; [|reflexivity].
  rewrite IH by (intros y Hy; apply H; now right).
  destruct (forallb p l); reflexivity.
Qed.

(** The encoder under a limit returns the text of [json_to_toon] when
    the value needs no more activations than the limit, and raises
    [RecursionError] otherwise. *)
Lemma json_to_toon_limited_spec (limit : nat) :
  forall (v : Value) (indent : nat),
    json_to_toon_limited limit v indent =
    if activations v <=? limit then Ok (json_to_toon v indent)
    else Err recursion_error.
Proof.
  induction limit as [|limit IH]; intros v indent.
  - pose proof (activations_pos v) as H.
    destruct (Nat.leb_spec (activations v) 0); [lia|reflexivity].
  - destruct v as [p|items|entries].
    + reflexivity.
    + rewrite json_to_toon_list. cbn [json_to_toon_limited activations].
      destruct (is_empty items); [reflexivity|].
      destruct (forallb is_primitive items); [reflexivity|].
      assert (R : flat_mapM
                    (fun item =>
                       item_str <- json_to_toon_limited limit item indent ;;
                       Ok (if is_nonempty_collection item
                           then (indent_of indent ++ py "-")
                                  :: map (fun line =>
                                            indent_of indent ++ py "  " ++
                                            lstrip line)
                                       (filter
                                          (fun line =>
                                             negb (is_empty (strip line)))
                                          (split_lines item_str))
                           else [indent_of indent ++ py "- " ++ item_str]))
                    items =
                  if list_max (map activations items) <=? limit
                  then Ok (flat_map
                             (fun item =>
                                if is_nonempty_collection item
                                then (indent_of indent ++ py "-")
                                       :: map (fun line =>
                                                 indent_of indent ++ py "  " ++
                                                 lstrip line)
                                            (filter
                                               (fun line =>
                                                  negb (is_empty (strip line)))
                                               (split_lines
                                                  (json_to_toon item indent)))
                                else [indent_of indent ++ py "- " ++
                                      json_to_toon item indent])
                             items)
                  else Err recursion_error).
      { rewrite <- forallb_leb_list_max. apply flat_mapM_spec.
        intros item _. rewrite IH.
        destruct (activations item <=? limit); reflexivity. }
      destruct (as_table items) as [[|r rows]|]; [|reflexivity|];
        rewrite R; cbn [Nat.leb];
        destruct (list_max (map activations items) <=? limit); reflexivity.
    + rewrite json_to_toon_dict. cbn [json_to_toon_limited activations].
      destruct (is_empty entries) eqn:E;
        [destruct entries; [reflexivity|discriminate E]|].
      cbn [Nat.leb]. rewrite <- forallb_leb_list_max.
      match goal with
      | |- context [forallb ?p entries] =>
          match goal with
          | |- context [flat_map ?g entries] =>
              rewrite (@flat_mapM_spec _ _ _ p g recursion_error)
          end
      end.
      * destruct (forallb _ entries); cbn [bind]; reflexivity.
      * intros [k value] _. cbn [fst snd].
        destruct value as [p|[|i items]|[|en es]]; try reflexivity.
        -- destruct (as_table (i :: items)); [reflexivity|].
           rewrite IH.
           destruct (activations (VList (i :: items)) <=? limit); reflexivity.
        -- rewrite IH.
           destruct (activations (VDict (en :: es)) <=? limit); reflexivity.
Qed.

Lemma Value_nested_ind (P : Value -> Prop) :
  (forall p, P (VPrim p)) ->
  (forall items, Forall P items -> P (VList items)) ->
  (forall entries, Forall (fun kv => P (snd kv)) entries -> P (VDict entries)) ->
  forall v, P v.
Proof.
  intros HP HL HD. fix IH 1. intros [p|items|entries].
  - apply HP.
  - apply HL. induction items as [|x items IHi]; constructor;
      [apply IH|exact IHi].
  - apply HD. induction entries as [|[k x] es IHe]; constructor;
      [apply IH|exact IHe].
Qed.

Lemma list_max_map_le {A : Type} (f g : A -> nat) (l : list A) :
  Forall (fun x => f x <= g x) l ->
  list_max (map f l) <= list_max (map g l).
Proof.
  induction 1 as [|x l Hx _ IH]; [reflexivity|].
  cbn [map list_max fold_right].
  change (fold_right Nat.max 0 (map f l)) with (list_max (map f l)).
  change (fold_right Nat.max 0 (map g l)) with (list_max (map g l)).
  lia.
Qed.

Lemma list_max_map_S {A : Type} (f : A -> nat) (l : list A) :
  list_max (map (fun x => S (f x)) l) <= S (list_max (map f l)).
Proof.
  induction l as [|x l IH]; [cbn; lia|].
  cbn [map list_max fold_right].
  change (fold_right Nat.max 0 (map (fun x => S (f x)) l))
    with (list_max (map (fun x => S (f x)) l)).
  change (fold_right Nat.max 0 (map f l)) with (list_max (map f l)).
  lia.
Qed.

(** A value needs at most one activation per level of nesting, and one
    more for the primitives at the bottom. *)
Lemma activations_depth (v : Value) : activations v <= S (depth v).
Proof.
  induction v as [p|items IH|entries IH] using Value_nested_ind;
    cbn [activations depth].
  - lia.
  - destruct (is_empty items); [lia|].
    destruct (forallb is_primitive items); [lia|].
    pose proof (list_max_map_le activations (fun x => S (depth x)) IH).
    pose proof (list_max_map_S depth items).
    destruct (as_table items) as [[|r rows]|]; lia.
  - apply le_n_S.
    etransitivity; [|apply (list_max_map_S (fun kv => depth (snd kv)))].
    apply list_max_map_le.
    induction IH as [|[k value] es Hv _ IHes]; constructor; [|exact IHes].
    cbn [snd] in *.
    destruct value as [p|[|i items]|[|en es']]; try lia.
    destruct (as_table (i :: items)); lia.
Qed.

Lemma activations_nested_lists (n : nat) : activations (nested_lists n) = S n.
Proof.
  induction n as [|n IH]; [reflexivity|].
  assert (L : exists l, nested_lists n = VList l)
    by (destruct n; eexists; reflexivity).
  destruct L as (l & E). cbn [nested_lists]. rewrite E in *.
  transitivity (S (list_max [activations (VList l)])); [reflexivity|].
  rewrite IH. cbn [list_max fold_right]. lia.
Qed.

Lemma wf_nested_lists (n : nat) : wf_value (nested_lists n).
Proof.
  induction n as [|n IH]; cbn; auto.
Qed.




(** ** Blank text *)

Lemma shape_defect_head_T (i : nat) (line msg : pystr) :
  shape_defect i line msg -> hd 0%N msg <> 84%N.
Proof.
  intros [H|H|H|H]; discriminate.
Qed.

Lemma truthy_falsy (v : Value) : truthy v = false <-> falsy v.
Proof.
  split.
  - destruct v as [[|b|z|r|s]|items|entries]; cbn [truthy].
    + constructor.
    + intros ->. constructor.
    + intros H. apply negb_false_iff, Z.eqb_eq in H. subst z. constructor.
    + destruct (pystr_eq_dec r (py "0.0")) as [->|_]; [constructor|].
      destruct (pystr_eq_dec r (py "-0.0")) as [->|_]; [constructor|].
      discriminate.
    + destruct s; [constructor|discriminate].
    + destruct items; [constructor|discriminate].
    + destruct entries; [constructor|discriminate].
  - intros []; reflexivity.
Qed.

(** C8, as stated, fails on the empty text: the validator itself rejects
    it, by the test of lines 192-193. *)
Lemma C8_counterexample :
  ~ (forall toon_data, strip toon_data = [] -> ~ rejects toon_data).
Proof.
  intros H. apply (H []); [reflexivity|].
  exists (py "TOON data is empty"). reflexivity.
Qed.

(** C8, amended: the validator itself rejects empty and white-space-only
    text, with the message [TOON data is empty]; the verifier has a test
    of its own for blank text, which comes first and applies only when the
    input value is true: it answers [TOON output is empty but input had
    data] exactly when the value is true and the text blank, and for a
    false value (one of the eight of [falsy]) and a blank text it hands
    on the verdict of the validator; every other rejection of the
    validator reports one of the four defects of shape (empty tabular
    column, empty list-item content, empty key, empty inline array
    value) in a line of the text. *)
Theorem C8_blank_and_shape (toon_data : pystr) :
  (strip toon_data = [] ->
   validate_toon toon_data = Some (false, Some (py "TOON data is empty"))) /\
  (forall json_data,
      truthy json_data = true -> strip toon_data = [] ->
      verify_toon_roundtrip json_data toon_data =
        Some (false, Some (py "TOON output is empty but input had data"))) /\
  (forall json_data,
      verify_toon_roundtrip json_data toon_data =
        Some (false, Some (py "TOON output is empty but input had data")) ->
      truthy json_data = true /\ ~ falsy json_data /\ strip toon_data = []) /\
  (forall json_data,
      falsy json_data -> strip toon_data = [] ->
      truthy json_data = false /\
      verify_toon_roundtrip json_data toon_data =
        Some (false, Some (py "TOON data is empty"))) /\
  (forall msg,
      validate_toon toon_data = Some (false, msg) ->
      (strip toon_data = [] /\ msg = Some (py "TOON data is empty")) \/
      (strip toon_data <> [] /\
       exists j line m,
         msg = Some m /\
         nth_error (split_lines toon_data) j = Some line /\
         shape_defect j line m)).
Proof.
  assert (B : strip toon_data = [] ->
              validate_toon toon_data
                = Some (false, Some (py "TOON data is empty"))).
  { intros E.
    destruct (validate_toon_cases toon_data)
      as [[_ H]|[(Hne & _)|(Hne & _)]]; [exact H|congruence|congruence]. }
  split; [exact B|]. split; [|split; [|split]].
  - intros json_data Ht E. unfold verify_toon_roundtrip.
    rewrite Ht, E. reflexivity.
  - intros json_data. unfold verify_toon_roundtrip.
    destruct (truthy json_data) eqn:Ht; cbn [andb].
    + destruct (strip toon_data) as [|c r] eqn:E; cbn [is_empty].
      * intros _. split; [reflexivity|]. split; [|reflexivity].
        intros F. apply truthy_falsy in F. congruence.
      * destruct (no_keys_found json_data toon_data); [discriminate|].
        destruct (validate_toon_cases toon_data)
          as [[E' _]|[(_ & H & _)|(_ & j & l & m & _ & Hs & H)]];
          [congruence| |]; unfold accepts in *; rewrite H; cbn [negb];
          [discriminate|].
        intros [= F]. apply shape_defect_head_T in Hs. rewrite F in Hs.
        now destruct Hs.
    + destruct (no_keys_found json_data toon_data); [discriminate|].
      destruct (validate_toon_cases toon_data)
        as [[_ H]|[(_ & H & _)|(_ & j & l & m & _ & Hs & H)]];
        unfold accepts in *; rewrite H; cbn [negb]; try discriminate.
      intros [= F]. apply shape_defect_head_T in Hs. rewrite F in Hs.
      now destruct Hs.
  - intros json_data F E. pose proof (proj2 (truthy_falsy json_data) F) as Ht.
    split; [exact Ht|]. unfold verify_toon_roundtrip.
    rewrite Ht, (B E). cbn [andb negb].
    destruct F; reflexivity.
  - intros msg H.
    destruct (validate_toon_cases toon_data)
      as [[E H']|[(_ & H' & _)|(Hne & j & l & m & Hl & Hs & H')]].
    + left. split; [exact E|]. congruence.
    + unfold accepts in H'. congruence.
    + right. split; [exact Hne|]. exists j, l, m.
      repeat split; try assumption. congruence.
Qed.

Lemma C8_blank_and_shape_witness :
  validate_toon (py "  ") = Some (false, Some (py "TOON data is empty")) /\
  verify_toon_roundtrip (VInt 1) (py "  ") =
    Some (false, Some (py "TOON output is empty but input had data")) /\
  (truthy (VList [VNull]) = true /\ ~ falsy (VList [VNull]) /\
   strip (NL :: py " ") = []) /\
  (truthy (VInt 0) = false /\
   verify_toon_roundtrip (VInt 0) (py "  ") =
     Some (false, Some (py "TOON data is empty"))) /\
  (truthy (VDict []) = false /\
   verify_toon_roundtrip (VDict []) [] =
     Some (false, Some (py "TOON data is empty"))) /\
  exists j line m,
    nth_error (split_lines (py "-")) j = Some line /\ shape_defect j line m.
Proof.
  split; [|split; [|split; [|split; [|split]]]].
  - apply (proj1 (C8_blank_and_shape (py "  "))). reflexivity.
  - apply (proj1 (proj2 (C8_blank_and_shape (py "  ")))); reflexivity.
  - apply (proj1 (proj2 (proj2 (C8_blank_and_shape (NL :: py " "))))
             (VList [VNull])).
    reflexivity.
  - apply (proj1 (proj2 (proj2 (proj2 (C8_blank_and_shape (py "  ")))))
             (VInt 0)); [constructor|reflexivity].
  - apply (proj1 (proj2 (proj2 (proj2 (C8_blank_and_shape [])))) (VDict []));
      [constructor|reflexivity].
  - destruct (proj2 (proj2 (proj2 (proj2 (C8_blank_and_shape (py "-")))))
                (Some (py "Empty list item at line 1")) eq_refl)
      as [[E _]|(_ & j & line & m & _ & Hl & Hs)].
    + discriminate E.
    + now exists j, line, m.
Defined.

(** ** Where the encoder departs from the format *)

(** C2 at the objects [{k: [1, 2]}] and [{o: {k: [1, 2]}}]: the inline
    array is the block of the key [k], and its line has no indentation at
    all, where one level more than that of the [k:] line is asked for
    (2 and 4 spaces).  The inline form of the array branch is returned
    without [indent_str]; the blocks of the sibling branches, a table and
    a nested object, are indented by one level. *)
Theorem C2_inline_block_not_indented :
  let flat := VDict [(py "k", VList [VInt 1; VInt 2])] in
  let deep := VDict [(py "o", VDict [(py "k", VList [VInt 1; VInt 2])])] in
  let table := VDict [(py "k", VList [VDict [(py "a", VInt 1)]])] in
  let object := VDict [(py "k", VDict [(py "a", VInt 1)])] in
  wf_value flat /\ wf_value deep /\
  split_lines (json_to_toon flat 0) = [py "k:"; py "[1, 2]"] /\
  map indent_width (split_lines (json_to_toon flat 0)) = [0; 0] /\
  split_lines (json_to_toon deep 0) = [py "o:"; py "  k:"; py "[1, 2]"] /\
  map indent_width (split_lines (json_to_toon deep 0)) = [0; 2; 0] /\
  split_lines (json_to_toon table 0) = [py "k:"; py "  a"; py "  1"] /\
  map indent_width (split_lines (json_to_toon table 0)) = [0; 2; 2] /\
  split_lines (json_to_toon object 0) = [py "k:"; py "  a: 1"] /\
  map indent_width (split_lines (json_to_toon object 0)) = [0; 2].
Proof.
  cbv zeta. repeat split; try (vm_compute; reflexivity);
    repeat constructor; simpl; intuition discriminate.
Qed.

(** C6 at the array of one object whose field [a] is the four-character
    string [x], [|], double quote, [y]: the table cell is the string put
    between two double quotes as it is, which is not a JSON string
    literal (the inner quote is not escaped), whereas the scalar
    formatter writes the same string with the JSON encoder. *)
Theorem C6_table_cell_not_json_quoted :
  let s := py "x|" ++ [DQ] ++ py "y" in
  let value := VList [VDict [(py "a", VStr s)]] in
  wf_value value /\
  split_lines (json_to_toon value 0) = [py "a"; [DQ] ++ s ++ [DQ]] /\
  table_cell (PStr s) = [DQ] ++ s ++ [DQ] /\
  is_json_string_literal (table_cell (PStr s)) = false /\
  format_value (VStr s) = json_dumps_str s /\
  json_dumps_str s = [DQ] ++ py "x|" ++ [BSLASH; DQ] ++ py "y" ++ [DQ] /\
  is_json_string_literal (json_dumps_str s) = true.
Proof.
  cbv zeta. repeat split; try (vm_compute; reflexivity);
    repeat constructor; simpl; intuition discriminate.
Qed.

(** C7 at the array [[[1], [2]]]: the line of each element is the dash
    alone, with neither the space nor any content after it; the content
    is on the next line.  The validator of the same program rejects such
    a line. *)
Theorem C7_bare_dash_for_nested_items :
  let value := VList [VList [VInt 1]; VList [VInt 2]] in
  wf_value value /\
  split_lines (json_to_toon value 0) =
    [py "-"; py "  [1]"; py "-"; py "  [2]"] /\
  (forall content, py "-" <> indent_of 0 ++ py "- " ++ content) /\
  verify_toon_roundtrip value (json_to_toon value 0) =
    Some (false, Some (py "Empty list item at line 1")).
Proof.
  cbv zeta. repeat split; try (vm_compute; reflexivity).
  intros content H. vm_compute in H. discriminate H.
Qed.

(** ** The scalar formatter *)

Lemma hex_digit_is_hex (m : N) : (m < 16)%N -> is_hex (hex_digit m) = true.
Proof.
  intros H.
  assert (E : (m = 0 \/ m = 1 \/ m = 2 \/ m = 3 \/ m = 4 \/ m = 5 \/ m = 6 \/
               m = 7 \/ m = 8 \/ m = 9 \/ m = 10 \/ m = 11 \/ m = 12 \/
               m = 13 \/ m = 14 \/ m = 15)%N) by lia.
  repeat (destruct E as [->|E]; [reflexivity|]). subst m. reflexivity.
Qed.

Lemma u_escape_literal (n : N) :
  fold_left lit_step (u_escape n) LBody = LBody.
Proof.
  unfold u_escape, hex4. cbn [fold_left].
  change (lit_step LBody BSLASH) with LEscape.
  change (lit_step LEscape 117%N) with (LHex 4).
  repeat (cbn [lit_step];
          rewrite hex_digit_is_hex by (apply N.mod_lt; discriminate)).
  reflexivity.
Qed.

Lemma escape_char_literal (c : codepoint) :
  fold_left lit_step (escape_char c) LBody = LBody.
Proof.
  unfold escape_char.
  destruct (c =? DQ)%N eqn:E1; [reflexivity|].
  destruct (c =? BSLASH)%N eqn:E2; [reflexivity|].
  destruct (c =? 10)%N; [reflexivity|].
  destruct (c =? 13)%N; [reflexivity|].
  destruct (c =? 9)%N; [reflexivity|].
  destruct (c =? 8)%N; [reflexivity|].
  destruct (c =? 12)%N; [reflexivity|].
  destruct ((32 <=? c) && (c <=? 126))%N eqn:E3.
  - cbn [fold_left lit_step]. rewrite E1, E2.
    apply andb_true_iff in E3. destruct E3 as [E3 _].
    apply N.leb_le in E3.
    destruct (c <? 32)%N eqn:E4; [apply N.ltb_lt in E4; lia|reflexivity].
  - destruct (c <? 65536)%N.
    + apply u_escape_literal.
    + cbv zeta. rewrite fold_left_app, !u_escape_literal. reflexivity.
Qed.

Lemma escape_body_literal (s : pystr) :
  fold_left lit_step (flat_map escape_char s) LBody = LBody.
Proof.
  induction s as [|c s IH]; [reflexivity|].
  cbn [flat_map]. rewrite fold_left_app, escape_char_literal. exact IH.
Qed.

(** The output of the JSON encoder on a string is a JSON string
    literal. *)
Lemma json_dumps_str_literal (s : pystr) :
  is_json_string_literal (json_dumps_str s) = true.
Proof.
  unfold is_json_string_literal, json_dumps_str.
  cbn [fold_left]. change (lit_step LStart DQ) with LBody.
  rewrite fold_left_app, escape_body_literal. reflexivity.
Qed.

Lemma escape_char_nonempty (c : codepoint) : 1 <= length (escape_char c).
Proof.
  unfold escape_char, u_escape, hex4.
  repeat match goal with
         | |- context [if ?b then _ else _] => destruct b
         end; cbv zeta; rewrite ?length_app; cbn [length]; lia.
Qed.

Lemma json_dumps_str_longer (s : pystr) :
  length s + 2 <= length (json_dumps_str s).
Proof.
  unfold json_dumps_str. cbn [length]. rewrite length_app. cbn [length].
  assert (length s <= length (flat_map escape_char s)); [|lia].
  induction s as [|c s IH]; [reflexivity|].
  cbn [flat_map length]. rewrite length_app.
  pose proof (escape_char_nonempty c). lia.
Qed.

Lemma mem_In (c : codepoint) (s : pystr) : mem c s = true <-> In c s.
Proof.
  unfold mem. rewrite existsb_exists. split.
  - intros (x & Hx & E). apply N.eqb_eq in E. now subst.
  - intros H. exists c. split; [exact H|apply N.eqb_refl].
Qed.

Lemma mem_false (c : codepoint) (s : pystr) : mem c s = false <-> ~ In c s.
Proof.
  rewrite <- mem_In. destruct (mem c s); split; congruence.
Qed.

Lemma needs_quoting_false (s : pystr) :
  needs_quoting s = false <-> delimiter_free s.
Proof.
  unfold needs_quoting, delimiter_free. split.
  - intros H c Hc Hs.
    assert (E : existsb (fun char => mem char s) special_chars = true).
    { apply existsb_exists. exists c. split; [exact Hc|now apply mem_In]. }
    congruence.
  - intros H. destruct (existsb _ special_chars) eqn:E; [|reflexivity].
    apply existsb_exists in E. destruct E as (c & Hc & Hm).
    apply mem_In in Hm. now apply H in Hm.
Qed.

(** Decimal digits and sign only in the text of an integer. *)
Lemma uint_digits (d : Decimal.uint) (c : codepoint) :
  In c (py (NilEmpty.string_of_uint d)) -> (48 <= c <= 57)%N.
Proof.
  induction d; cbn; intros H; try contradiction;
    (destruct H as [<-|H]; [lia|now apply IHd]).
Qed.

Lemma str_int_chars (z : Z) (c : codepoint) :
  In c (str_int z) -> (48 <= c <= 57)%N \/ c = DASH.
Proof.
  unfold str_int, NilZero.string_of_int, NilZero.string_of_uint.
  destruct (Z.to_int z) as [d|d].
  - destruct d; try (intros H; left; revert H; apply uint_digits).
    cbn. intros [<-|F]; [left; lia|destruct F].
  - intros H. change (In c (DASH :: py (match d with
                                         | Decimal.Nil => "0"%string
                                         | _ => NilEmpty.string_of_uint d
                                         end))) in H.
    destruct H as [<-|H]; [now right|]. left.
    destruct d; try (revert H; apply uint_digits).
    cbn in H. destruct H as [<-|F]; [lia|destruct F].
Qed.

Lemma str_int_delimiter_free (z : Z) : delimiter_free (str_int z).
Proof.
  intros c Hc H. apply str_int_chars in H.
  unfold special_chars in Hc. cbn [In] in Hc.
  unfold NL, DQ, COLON, PIPE, LBRACK, RBRACK, LBRACE, RBRACE, DASH in *.
  destruct H as [H| ->]; intuition (subst; try lia; try discriminate).
Qed.

Lemma float_text_delimiter_free (r : pystr) :
  float_text r = true -> delimiter_free r.
Proof.
  unfold float_text. intros H c Hc Hr.
  rewrite forallb_forall in H. apply H in Hr.
  unfold special_chars in Hc. cbn [In] in Hc.
  intuition (subst; vm_compute in Hr; discriminate).
Qed.

(** ** Reading the quoted form back *)

Lemma hex_value_digit (m : N) :
  (m < 16)%N -> hex_value (hex_digit m) = Some m.
Proof.
  intros H.
  assert (E : (m = 0 \/ m = 1 \/ m = 2 \/ m = 3 \/ m = 4 \/ m = 5 \/ m = 6 \/
               m = 7 \/ m = 8 \/ m = 9 \/ m = 10 \/ m = 11 \/ m = 12 \/
               m = 13 \/ m = 14 \/ m = 15)%N) by lia.
  repeat (destruct E as [->|E]; [reflexivity|]). subst m. reflexivity.
Qed.

(** The four digits of [hex4] spell the number. *)
Lemma hex4_value_hex4 (n : N) :
  (n < 65536)%N ->
  hex4_value (hex_digit ((n / 4096) mod 16)) (hex_digit ((n / 256) mod 16))
             (hex_digit ((n / 16) mod 16)) (hex_digit (n mod 16)) = Some n.
Proof.
  intros H. unfold hex4_value.
  rewrite !hex_value_digit by (apply N.mod_lt; discriminate).
  f_equal. zify. Z.to_euclidean_division_equations. lia.
Qed.

Lemma body_single (a b c d : codepoint) (n : N) (rest : pystr) :
  hex4_value a b c d = Some n -> is_high_surrogate n = false ->
  json_string_body (BSLASH :: 117%N :: a :: b :: c :: d :: rest) =
  option_map (cons n) (json_string_body rest).
Proof.
  intros H1 H2.
  cbn -[hex4_value is_high_surrogate is_low_surrogate surrogate_pair].
  rewrite H1, H2. reflexivity.
Qed.

Lemma body_pair (a b c d a2 b2 c2 d2 : codepoint) (hi lo : N)
      (rest : pystr) :
  hex4_value a b c d = Some hi -> is_high_surrogate hi = true ->
  hex4_value a2 b2 c2 d2 = Some lo -> is_low_surrogate lo = true ->
  json_string_body
    (BSLASH :: 117%N :: a :: b :: c :: d ::
     BSLASH :: 117%N :: a2 :: b2 :: c2 :: d2 :: rest) =
  option_map (cons (surrogate_pair hi lo)) (json_string_body rest).
Proof.
  intros H1 H2 H3 H4.
  cbn -[hex4_value is_high_surrogate is_low_surrogate surrogate_pair].
  rewrite H1, H2, H3, H4. reflexivity.
Qed.

(** Below ten bits and from ten bits on: [lor] is the sum. *)
Lemma lor_shiftl_add (k b : N) :
  (b < 1024)%N -> N.lor (N.shiftl k 10) b = (k * 1024 + b)%N.
Proof.
  intros H.
  assert (L : N.land (N.shiftl k 10) b = 0%N).
  { apply N.bits_inj. intros n. rewrite N.land_spec, N.bits_0.
    destruct (N.lt_ge_cases n 10) as [Hn|Hn].
    - now rewrite N.shiftl_spec_low.
    - rewrite <- (N.mod_small b (2 ^ 10)) by exact H.
      rewrite N.mod_pow2_bits_high by exact Hn. apply andb_false_r. }
  rewrite <- (N.lxor_lor _ _ L), <- (N.add_nocarry_lxor _ _ L).
  now rewrite N.shiftl_mul_pow2.
Qed.

(** The two escapes of a character above the basic plane are read back
    as that character. *)
Lemma surrogates_of (c : codepoint) :
  (65536 <= c < 1114112)%N ->
  let v := (c - 65536)%N in
  let hi := N.lor 55296 (N.land (N.shiftr v 10) 1023) in
  let lo := N.lor 56320 (N.land v 1023) in
  (hi < 65536)%N /\ (lo < 65536)%N /\
  is_high_surrogate hi = true /\ is_low_surrogate lo = true /\
  surrogate_pair hi lo = c.
Proof.
  intros Hc v hi lo.
  assert (Hv : (v < 1048576)%N) by (unfold v; lia).
  assert (Ea : N.land (N.shiftr v 10) 1023 = ((v / 1024) mod 1024)%N).
  { change 1023%N with (N.ones 10).
    now rewrite N.land_ones, N.shiftr_div_pow2. }
  assert (Eb : N.land v 1023 = (v mod 1024)%N).
  { change 1023%N with (N.ones 10). now rewrite N.land_ones. }
  assert (Ha : ((v / 1024) mod 1024 < 1024)%N)
    by (apply N.mod_lt; discriminate).
  assert (Hb : (v mod 1024 < 1024)%N) by (apply N.mod_lt; discriminate).
  assert (Ehi : hi = (55296 + (v / 1024) mod 1024)%N).
  { unfold hi. rewrite Ea. change 55296%N with (N.shiftl 54 10) at 1.
    now rewrite lor_shiftl_add. }
  assert (Elo : lo = (56320 + v mod 1024)%N).
  { unfold lo. rewrite Eb. change 56320%N with (N.shiftl 55 10) at 1.
    now rewrite lor_shiftl_add. }
  split; [lia|]. split; [lia|].
  split; [unfold is_high_surrogate; apply andb_true_iff; split;
          apply N.leb_le; lia|].
  split; [unfold is_low_surrogate; apply andb_true_iff; split;
          apply N.leb_le; lia|].
  unfold surrogate_pair. rewrite Ehi, Elo.
  replace (55296 + (v / 1024) mod 1024 - 55296)%N
    with ((v / 1024) mod 1024)%N by lia.
  replace (56320 + v mod 1024 - 56320)%N with (v mod 1024)%N by lia.
  rewrite lor_shiftl_add by exact Hb.
  assert (((v / 1024) mod 1024) * 1024 + v mod 1024 = v)%N
    by (zify; Z.to_euclidean_division_equations; lia).
  unfold v in *. lia.
Qed.

(** What the encoder writes for a character is read back as that
    character. *)
Lemma body_escape_char (c : codepoint) (rest : pystr) :
  scalar_value c ->
  json_string_body (escape_char c ++ rest) =
  option_map (cons c) (json_string_body rest).
Proof.
  intros Hs. unfold escape_char.
  destruct (c =? DQ)%N eqn:E1;
    [apply N.eqb_eq in E1; subst c; reflexivity|].
  destruct (c =? BSLASH)%N eqn:E2;
    [apply N.eqb_eq in E2; subst c; reflexivity|].
  destruct (c =? 10)%N eqn:E3;
    [apply N.eqb_eq in E3; subst c; reflexivity|].
  destruct (c =? 13)%N eqn:E4;
    [apply N.eqb_eq in E4; subst c; reflexivity|].
  destruct (c =? 9)%N eqn:E5;
    [apply N.eqb_eq in E5; subst c; reflexivity|].
  destruct (c =? 8)%N eqn:E6;
    [apply N.eqb_eq in E6; subst c; reflexivity|].
  destruct (c =? 12)%N eqn:E7;
    [apply N.eqb_eq in E7; subst c; reflexivity|].
  destruct ((32 <=? c) && (c <=? 126))%N eqn:E8.
  - apply andb_true_iff in E8. destruct E8 as [E8 _]. apply N.leb_le in E8.
    cbn [app json_string_body]. rewrite E1, E2.
    destruct (c <? 32)%N eqn:E9; [apply N.ltb_lt in E9; lia|reflexivity].
  - destruct (c <? 65536)%N eqn:E9.
    + apply N.ltb_lt in E9. unfold u_escape, hex4. cbn [app].
      apply body_single; [now apply hex4_value_hex4|].
      unfold is_high_surrogate, scalar_value in *.
      apply andb_false_iff.
      destruct Hs as [Hs|Hs]; [left; apply N.leb_gt; lia|
                               right; apply N.leb_gt; lia].
    + apply N.ltb_ge in E9. cbv zeta.
      assert (Hc : (65536 <= c < 1114112)%N)
        by (unfold scalar_value in Hs; lia).
      destruct (surrogates_of Hc) as (H1 & H2 & H3 & H4 & H5).
      unfold u_escape, hex4. cbn [app].
      etransitivity;
        [eapply body_pair;
         [apply hex4_value_hex4; exact H1|exact H3|
          apply hex4_value_hex4; exact H2|exact H4]|].
      now rewrite H5.
Qed.

(** The reference decoder reads the output of the JSON encoder back as
    the string that was encoded. *)
Lemma json_loads_dumps_str (s : pystr) :
  Forall scalar_value s -> json_loads_str (json_dumps_str s) = Some s.
Proof.
  intros H. unfold json_loads_str, json_dumps_str.
  change (DQ =? DQ)%N with true. cbv iota.
  induction H as [|c s Hc _ IH]; [reflexivity|].
  cbn [flat_map]. rewrite <- app_assoc, (body_escape_char _ Hc), IH.
  reflexivity.
Qed.



(** ** The tabular detector and the table *)

Lemma all_some_Forall2 {A B : Type} (f : A -> option B) (l : list A)
      (ys : list B) :
  all_some f l = Some ys <-> Forall2 (fun x y => f x = Some y) l ys.
Proof.
  revert ys. induction l as [|x l IH]; intros ys; cbn [all_some].
  - split.
    + intros [= <-]. constructor.
    + intros H. inversion H. reflexivity.
  - split.
    + destruct (f x) as [y|] eqn:E; [|discriminate].
      destruct (all_some f l) as [ys'|]; [|discriminate].
      intros [= <-]. constructor; [exact E|]. now apply IH.
    + intros H. inversion H as [|x' y l' ys' E T]; subst.
      rewrite E. apply IH in T. now rewrite T.
Qed.

Lemma as_prim_entry_Some (kv : pystr * Value) (kp : pystr * Prim) :
  as_prim_entry kv = Some kp <-> kv = (fst kp, VPrim (snd kp)).
Proof.
  destruct kv as [k v], kp as [k' p]. unfold as_prim_entry. cbn [fst snd].
  split.
  - destruct v; try discriminate. now intros [= -> ->].
  - now intros [= -> ->].
Qed.

Lemma as_row_Some (item : Value) (r : Row) :
  as_row item = Some r <-> item = value_of_row r /\ r <> [].
Proof.
  unfold value_of_row. split.
  - destruct item as [p|items|entries]; cbn [as_row]; try discriminate.
    destruct (0 <? length entries)%nat eqn:L; [|discriminate].
    intros H. apply all_some_Forall2 in H.
    assert (E : entries = map (fun kp => (fst kp, VPrim (snd kp))) r).
    { clear L. induction H as [|kv kp l ys Hx _ IH]; [reflexivity|].
      cbn [map]. apply as_prim_entry_Some in Hx. now rewrite Hx, <- IH. }
    split; [now rewrite E|].
    intros ->. cbn in E. subst entries. discriminate L.
  - intros [-> Hne]. cbn [as_row]. rewrite length_map.
    destruct r as [|kp r]; [congruence|]. cbn [length Nat.ltb Nat.leb].
    apply all_some_Forall2.
    generalize (kp :: r). intros l.
    induction l as [|x l IH]; constructor; [|exact IH].
    now apply as_prim_entry_Some.
Qed.

Lemma as_table_Some (items : list Value) (rows : list Row) :
  as_table items = Some rows <->
  items = map value_of_row rows /\ Forall (fun r => r <> []) rows.
Proof.
  unfold as_table. rewrite all_some_Forall2. split.
  - intros H. induction H as [|x y l ys Hx _ [IH1 IH2]].
    + split; [reflexivity|constructor].
    + apply as_row_Some in Hx. destruct Hx as [-> Hy].
      split; [cbn [map]; now rewrite IH1|now constructor].
  - intros [-> H]. induction H as [|r rows Hr _ IH]; constructor;
      [now apply as_row_Some|exact IH].
Qed.

Lemma flat_record_row (item : Value) :
  flat_record item <-> exists r, as_row item = Some r.
Proof.
  split.
  - intros (entries & -> & Hne & Hp).
    assert (E : exists r, entries = map (fun kp => (fst kp, VPrim (snd kp))) r).
    { induction Hp as [|[k v] l Hv _ IH].
      - now exists [].
      - destruct l as [|kv l].
        + cbn [snd] in Hv. destruct v; try discriminate.
          now exists [(k, p)].
        + destruct IH as (r & Er); [discriminate|].
          cbn [snd] in Hv. destruct v; try discriminate.
          exists ((k, p) :: r). cbn [map fst snd]. now rewrite Er. }
    destruct E as (r & ->). exists r. apply as_row_Some.
    split; [reflexivity|]. intros ->. now apply Hne.
  - intros (r & H). apply as_row_Some in H. destruct H as [-> Hne].
    exists (map (fun kp => (fst kp, VPrim (snd kp))) r).
    split; [reflexivity|]. split.
    + destruct r; [congruence|discriminate].
    + apply Forall_forall. intros kv Hin. apply in_map_iff in Hin.
      destruct Hin as (kp & <- & _). reflexivity.
Qed.

Lemma is_tabular_Forall (items : list Value) :
  is_tabular items = true <-> Forall flat_record items.
Proof.
  unfold is_tabular, as_table. split.
  - destruct (all_some as_row items) as [rows|] eqn:E; [|discriminate].
    intros _. apply all_some_Forall2 in E.
    induction E as [|x y l ys Hx _ IH]; constructor; [|exact IH].
    apply flat_record_row. now exists y.
  - intros H.
    assert (E : exists rows, all_some as_row items = Some rows).
    { induction H as [|x l Hx _ (rows & IH)].
      - now exists [].
      - apply flat_record_row in Hx. destruct Hx as (r & Hr).
        exists (r :: rows). cbn [all_some]. now rewrite Hr, IH. }
    destruct E as (rows & ->). reflexivity.
Qed.

(** A field that the item does not have is rendered as the empty text. *)
Lemma table_cell_absent (item : Row) (k : pystr) :
  ~ In k (map fst item) -> table_cell (dict_get item k (PStr [])) = [].
Proof.
  induction item as [|[k' p] item IH]; cbn [dict_get map fst In];
    intros H; [reflexivity|].
  destruct (pystr_eq_dec k' k) as [E|_]; [tauto|]. apply IH. tauto.
Qed.

(** A field that the item has is rendered from its value. *)
Lemma dict_get_present (item : Row) (k : pystr) (p : Prim) :
  NoDup (map fst item) -> In (k, p) item -> dict_get item k (PStr []) = p.
Proof.
  induction item as [|[k' p'] item IH]; cbn [dict_get map fst In];
    intros Hnd Hin; [contradiction|].
  inversion Hnd as [|? ? Hk Hnd']; subst.
  destruct (pystr_eq_dec k' k) as [->|Hne].
  - destruct Hin as [[= ->]|Hin]; [reflexivity|].
    exfalso. apply Hk. apply in_map_iff. now exists (k, p).
  - destruct Hin as [[= -> ->]|Hin]; [congruence|]. now apply IH.
Qed.

(** C4: the tabular detector is true exactly when the array is not empty
    and each element is an object with at least one key whose values are
    all primitives.  The table then written, for an array met directly
    and for an array under a key, has as header the keys of the first
    element in their order, and one row per element with one cell per
    key of the header: the cell of a field that the element has is the
    text of its value, the cell of a field that it lacks is empty, and a
    field that is not in the header has no cell. *)
Theorem C4_tabular (items : list Value) (indent : nat) :
  (tabular_detector items = true <->
   items <> [] /\ Forall flat_record items) /\
  (tabular_detector items = true ->
   exists first rest,
     items = map value_of_row (first :: rest) /\
     let keys := map fst first in
     json_to_toon (VList items) indent =
       join_lines
         ((indent_of indent ++ join (py " | ") keys)
            :: map (table_row (indent_of indent) keys) (first :: rest)) /\
     forall key,
       json_to_toon (VDict [(key, VList items)]) indent =
         join_lines
           ((indent_of indent ++ quote_key key ++ py ":")
              :: (indent_of indent ++ py "  " ++ join (py " | ") keys)
              :: map (table_row (indent_of indent ++ py "  ") keys)
                   (first :: rest))) /\
  (forall (prefix : pystr) (keys : list pystr) (item : Row),
      table_row prefix keys item =
        prefix ++
        join (py " | ")
          (map (fun k => table_cell (dict_get item k (PStr []))) keys)) /\
  (forall (item : Row) (k : pystr),
      ~ In k (map fst item) -> table_cell (dict_get item k (PStr [])) = []) /\
  (forall (item : Row) (k : pystr) (p : Prim),
      NoDup (map fst item) -> In (k, p) item ->
      dict_get item k (PStr []) = p).
Proof.
  split; [|split; [|split; [|split]]].
  - unfold tabular_detector. rewrite andb_true_iff, is_tabular_Forall.
    destruct items; cbn [is_empty negb]; split; intros [H1 H2];
      (split; [congruence|exact H2]).
  - unfold tabular_detector. intros H. apply andb_true_iff in H.
    destruct H as [Hne Ht]. unfold is_tabular in Ht.
    destruct (as_table items) as [rows|] eqn:E; [|discriminate].
    pose proof E as E'. apply as_table_Some in E'. destruct E' as [Hi _].
    destruct rows as [|first rest].
    { subst items. discriminate Hne. }
    exists first, rest. split; [exact Hi|]. cbv zeta.
    subst items. cbn [map] in *. split.
    + cbn [json_to_toon is_empty forallb is_primitive value_of_row andb].
      fold (value_of_row first). rewrite E. reflexivity.
    + intros key.
      cbn [json_to_toon is_empty flat_map fst snd value_of_row].
      fold (value_of_row first). rewrite E.
      rewrite app_nil_r. cbn [table_lines]. rewrite <- !app_assoc.
      reflexivity.
  - reflexivity.
  - apply table_cell_absent.
  - apply dict_get_present.
Qed.

Lemma C4_tabular_witness :
  let rows := [[(py "a", PInt 1); (py "b", PInt 2)]; [(py "b", PInt 4)]] in
  exists first rest,
    map value_of_row rows = map value_of_row (first :: rest) /\
    json_to_toon (VList (map value_of_row rows)) 0 =
      join_lines
        (join (py " | ") (map fst first)
           :: map (table_row [] (map fst first)) (first :: rest)).
Proof.
  cbv zeta.
  destruct (proj1 (proj2 (C4_tabular
              (map value_of_row
                 [[(py "a", PInt 1); (py "b", PInt 2)]; [(py "b", PInt 4)]])
              0)) eq_refl)
    as (first & rest & E & H & _).
  exists first, rest. split; [exact E|exact H].
Defined.

(** ** Lines of a joined text *)

Lemma split_char_app (c : codepoint) (a b : pystr) :
  split_char c (a ++ c :: b) = split_char c a ++ split_char c b.
Proof.
  induction a as [|x a IH]; cbn [app split_char].
  - now rewrite N.eqb_refl.
  - destruct (N.eqb x c); [now rewrite IH|].
    rewrite IH. destruct (split_char_cons c a) as (p & ps & ->). reflexivity.
Qed.

Lemma split_join (c : codepoint) (parts : list pystr) :
  parts <> [] ->
  split_char c (join [c] parts) = flat_map (split_char c) parts.
Proof.
  induction parts as [|p parts IH]; [congruence|]. intros _.
  destruct parts as [|q parts].
  - cbn [join flat_map]. now rewrite app_nil_r.
  - change (join [c] (p :: q :: parts)) with (p ++ c :: join [c] (q :: parts)).
    rewrite split_char_app, IH by discriminate. reflexivity.
Qed.

(** The first line of a text that begins with a piece free of the
    separator begins with that piece. *)
Lemma split_char_first (c : codepoint) (a b : pystr) :
  mem c a = false ->
  exists t rest, split_char c (a ++ b) = (a ++ t) :: rest.
Proof.
  induction a as [|x a IH]; intros H.
  - destruct (split_char_cons c b) as (p & ps & E). now exists p, ps.
  - cbn [mem existsb] in H. apply orb_false_iff in H. destruct H as [Hx Ha].
    destruct (IH Ha) as (t & rest & E).
    exists t, rest. cbn [app split_char].
    rewrite N.eqb_sym in Hx. now rewrite Hx, E.
Qed.

(** ** White space at both ends *)

Lemma dropwhile_head (f : codepoint -> bool) (s : pystr) (c : codepoint)
      (r : pystr) :
  dropwhile f s = c :: r -> f c = false.
Proof.
  induction s as [|x s IH]; cbn [dropwhile]; [discriminate|].
  destruct (f x) eqn:E; [exact IH|]. now intros [= <- _].
Qed.

Lemma dropwhile_app_cons (f : codepoint -> bool) (a b : pystr)
      (c : codepoint) (r : pystr) :
  dropwhile f a = c :: r -> dropwhile f (a ++ b) = c :: r ++ b.
Proof.
  induction a as [|x a IH]; cbn [dropwhile app]; [discriminate|].
  destruct (f x); [exact IH|]. now intros [= <- <-].
Qed.

Lemma dropwhile_app_nil (f : codepoint -> bool) (a b : pystr) :
  dropwhile f a = [] -> dropwhile f (a ++ b) = dropwhile f b.
Proof.
  induction a as [|x a IH]; cbn [dropwhile app]; [reflexivity|].
  destruct (f x); [exact IH|discriminate].
Qed.

Lemma dropwhile_snoc (f : codepoint -> bool) (s : pystr) (c : codepoint) :
  f c = false -> dropwhile f (s ++ [c]) = dropwhile f s ++ [c].
Proof.
  intros H. induction s as [|x s IH]; cbn [dropwhile app].
  - now rewrite H.
  - destruct (f x); [exact IH|reflexivity].
Qed.

Lemma rstrip_cons (c : codepoint) (r : pystr) :
  is_space c = false -> exists r', rstrip (c :: r) = c :: r'.
Proof.
  intros H. unfold rstrip. cbn [rev].
  rewrite dropwhile_snoc by exact H. rewrite rev_app_distr. cbn [rev app].
  now eexists.
Qed.

(** A line whose first character after the leading white space is not a
    dash is not taken for a list item. *)
Lemma strip_not_dash (line : pystr) (c : codepoint) (r : pystr) :
  lstrip line = c :: r -> c <> DASH ->
  startswith (py "-") (strip line) = false.
Proof.
  intros E Hc. unfold strip. rewrite E.
  destruct (@rstrip_cons c r) as (r' & ->).
  - exact (dropwhile_head _ _ E).
  - change (py "-") with [DASH]. cbn [startswith].
    destruct (N.eqb_spec DASH c); [congruence|reflexivity].
Qed.

(** ** Reading keys back *)

Lemma colon_after_run (line : pystr) :
  mem COLON line = true ->
  startswith [COLON] (skipn (length (takewhile not_colon line)) line) = true.
Proof.
  induction line as [|x line IH]; cbn [mem existsb]; [discriminate|].
  intros H. cbn [takewhile]. unfold not_colon at 1.
  destruct (N.eqb_spec x COLON) as [->|Hne]; cbn [negb length skipn].
  - reflexivity.
  - apply IH. apply orb_true_iff in H. destruct H as [H|H]; [|exact H].
    apply N.eqb_eq in H. congruence.
Qed.

Lemma regex_try_zero (c : codepoint) (line : pystr) :
  c <> COLON -> mem COLON (c :: line) = true ->
  exists g, regex_try 0 (c :: line) = Some g.
Proof.
  intros Hc Hm. unfold regex_try. cbn [skipn].
  fold not_colon. rewrite (colon_after_run _ Hm).
  cbn [takewhile]. unfold not_colon at 1.
  destruct (N.eqb_spec c COLON); [congruence|]. cbn [negb nonempty is_empty andb].
  now eexists.
Qed.

Lemma regex_try_mono (k : nat) (line : pystr) :
  (exists g, regex_try 0 line = Some g) -> exists g, regex_try k line = Some g.
Proof.
  intros H. induction k as [|k IH]; [exact H|].
  cbn [regex_try].
  destruct (nonempty _ && startswith [COLON] _); [now eexists|exact IH].
Qed.

(** A key is read from [kq ++ ":" ++ t] when [kq] is not empty, does not
    begin with a colon, and is blank or has a first character after its
    leading white space that is not a dash. *)
Lemma key_line_intro (c : codepoint) (kq t : pystr) :
  c <> COLON ->
  startswith (py "-") (lstrip (c :: kq)) = false ->
  key_line ((c :: kq) ++ COLON :: t).
Proof.
  intros Hc Hd.
  assert (Hm : mem COLON ((c :: kq) ++ COLON :: t) = true).
  { apply mem_In, in_or_app. right. now left. }
  split.
  - rewrite Hm. cbn [andb]. apply negb_true_iff.
    unfold lstrip in Hd.
    destruct (dropwhile is_space (c :: kq)) as [|d r] eqn:E.
    + apply strip_not_dash with (c := COLON) (r := t); [|discriminate].
      unfold lstrip. rewrite (dropwhile_app_nil _ _ _ E). reflexivity.
    + apply strip_not_dash with (c := d) (r := r ++ COLON :: t).
      * unfold lstrip. apply dropwhile_app_cons. exact E.
      * intros ->. discriminate Hd.
  - unfold key_regex. apply regex_try_mono.
    apply regex_try_zero; [exact Hc|exact Hm].
Qed.

Lemma quote_key_cases (k : pystr) :
  (quote_key k = DQ :: k ++ [DQ]) \/
  (quote_key k = k /\ mem COLON k = false /\ mem SP k = false).
Proof.
  unfold quote_key.
  destruct (mem SP k) eqn:E1; [now left|].
  destruct (mem COLON k) eqn:E2; [now left|].
  destruct (mem NL k); [now left|]. now right.
Qed.

(** The line that opens the entry of a good key is a key line. *)
Lemma good_key_line (k t : pystr) :
  good_key k -> key_line (quote_key k ++ COLON :: t).
Proof.
  intros (Hne & _ & Hd).
  destruct (quote_key_cases k) as [->|(-> & Hc & _)].
  - apply key_line_intro with (c := DQ); [discriminate|reflexivity].
  - destruct k as [|c k]; [congruence|].
    apply key_line_intro; [|exact Hd].
    intros ->. cbn [mem existsb] in Hc. discriminate Hc.
Qed.

Lemma quote_key_no_newline (k : pystr) :
  mem NL k = false -> mem NL (quote_key k ++ [COLON]) = false.
Proof.
  intros H. apply mem_false. intros Hin. apply in_app_or in Hin.
  destruct Hin as [Hin|[E|[]]]; [|discriminate E].
  destruct (quote_key_cases k) as [E|(E & _)]; rewrite E in Hin.
  - destruct Hin as [E'|Hin]; [discriminate E'|].
    apply in_app_or in Hin. destruct Hin as [Hin|[E'|[]]];
      [|discriminate E'].
    now apply mem_false in H.
  - now apply mem_false in H.
Qed.

Lemma toon_keys_step_nonempty (lines : list pystr) :
  forall acc : py_set,
  (acc <> [] \/ exists line, In line lines /\ key_line line) ->
  fold_left
    (fun toon_keys line =>
       if mem COLON line && negb (startswith (py "-") (strip line))
       then match key_regex line with
            | Some group1 =>
                py_set_add (strip_chars [DQ; SQ] (strip group1)) toon_keys
            | None => toon_keys
            end
       else toon_keys) lines acc <> [].
Proof.
  induction lines as [|l lines IH]; intros acc H; cbn [fold_left].
  - destruct H as [H|(line & [] & _)]. exact H.
  - apply IH. destruct H as [H|(line & [<-|Hin] & Hk)].
    + left.
      destruct (mem COLON l && negb (startswith (py "-") (strip l)));
        [|exact H].
      destruct (key_regex l); [|exact H]. apply set_add_not_empty.
    + left. destruct Hk as [-> (g & ->)]. apply set_add_not_empty.
    + right. now exists line.
Qed.

Lemma toon_keys_nonempty (toon_data line : pystr) :
  In line (split_lines toon_data) -> key_line line ->
  toon_keys_of toon_data <> [].
Proof.
  intros Hin Hk. unfold toon_keys_of.
  apply toon_keys_step_nonempty. right. now exists line.
Qed.

(** The text of a non-empty object at the top level is made of the lines
    of its entries, and the entry of a key [k] begins with the line
    [quote_key k ++ ":" ++ ...]. *)
Lemma dict_entry_line (entries : list (pystr * Value)) (k : pystr)
      (v : Value) :
  In (k, v) entries ->
  exists parts u,
    json_to_toon (VDict entries) 0 = join_lines parts /\
    In (quote_key k ++ COLON :: u) parts.
Proof.
  intros Hin.
  destruct entries as [|e entries]; [contradiction|].
  cbn [json_to_toon is_empty]. remember (e :: entries) as es eqn:Ees.
  clear Ees e entries.
  assert (T : forall items, exists rows, as_table items = rows)
    by (intros; now eexists).
  destruct v as [p|[|i items]|[|e es']];
    try destruct (T (i :: items)) as ([rows|] & Et);
    eexists; eexists; (split; [reflexivity|]);
    apply in_flat_map; eexists; (split; [exact Hin|]);
    cbn [fst snd]; try rewrite Et; left; reflexivity.
Qed.

Lemma shape_defect_head (i : nat) (line msg : pystr) :
  shape_defect i line msg -> hd 0%N msg <> 78%N.
Proof.
  intros [H|H|H|H]; discriminate.
Qed.

(** C1, as stated, at the object with the single key that is the empty
    string and the value 1: the text is [: 1], no key is read back from
    it, and the verifier fails with [No keys found in TOON output]. *)
Lemma C1_counterexample :
  ~ (forall entries : list (pystr * Value),
        entries <> [] ->
        toon_keys_of (json_to_toon (VDict entries) 0) <> [] /\
        verify_toon_roundtrip (VDict entries) (json_to_toon (VDict entries) 0)
          <> Some (false, Some (py "No keys found in TOON output"))).
Proof.
  intros H.
  destruct (H [([], VInt 1)]) as [_ H2]; [discriminate|].
  apply H2. vm_compute. reflexivity.
Qed.

(** C1, amended: for every object with at least one key that is not
    empty, holds no newline and does not begin, after leading white
    space, with a dash, the verifier reads at least one key back from
    the text of the encoder and so does not fail with
    [No keys found in TOON output]; in particular the object
    [{a: 1, b: 2}] is written as the lines [a: 1] and [b: 2], and the
    verifier finds it valid. *)
Theorem C1_key_coverage :
  (forall (entries : list (pystr * Value)) (k : pystr) (v : Value),
      In (k, v) entries -> good_key k ->
      let text := json_to_toon (VDict entries) 0 in
      toon_keys_of text <> [] /\
      no_keys_found (VDict entries) text = false /\
      verify_toon_roundtrip (VDict entries) text
        <> Some (false, Some (py "No keys found in TOON output"))) /\
  (let ab := VDict [(py "a", VInt 1); (py "b", VInt 2)] in
   split_lines (json_to_toon ab 0) = [py "a: 1"; py "b: 2"] /\
   verify_toon_roundtrip ab (json_to_toon ab 0) = Some (true, None)).
Proof.
  split; [|cbv zeta; split; vm_compute; reflexivity].
  intros entries k v Hin Hk. cbv zeta.
  assert (K : toon_keys_of (json_to_toon (VDict entries) 0) <> []).
  { destruct (dict_entry_line entries k v Hin) as (parts & u & -> & Hp).
    destruct Hk as (Hne & Hnl & Hd).
    destruct (@split_char_first NL (quote_key k ++ [COLON]) u
                (quote_key_no_newline k Hnl)) as (t & rest & E).
    apply toon_keys_nonempty with (line := quote_key k ++ COLON :: t).
    - unfold split_lines, join_lines.
      rewrite split_join by (intros ->; contradiction).
      apply in_flat_map. exists (quote_key k ++ COLON :: u).
      split; [exact Hp|].
      replace (quote_key k ++ COLON :: u)
        with ((quote_key k ++ [COLON]) ++ u)
        by (now rewrite <- app_assoc).
      rewrite E. left. now rewrite <- app_assoc.
    - apply good_key_line. now repeat split. }
  assert (F : no_keys_found (VDict entries) (json_to_toon (VDict entries) 0)
              = false).
  { cbn [no_keys_found].
    destruct (toon_keys_of (json_to_toon (VDict entries) 0)); [congruence|].
    cbn [length Nat.eqb]. apply andb_false_r. }
  split; [exact K|]. split; [exact F|].
  unfold verify_toon_roundtrip. rewrite F.
  destruct (truthy (VDict entries) &&
            is_empty (strip (json_to_toon (VDict entries) 0))).
  - intros [= E].
  - destruct (validate_toon_cases (json_to_toon (VDict entries) 0))
      as [[_ H]|[(_ & H & _)|(_ & j & l & m & _ & Hs & H)]];
      [| unfold accepts in H |]; rewrite H; cbn [negb].
    + intros [= E].
    + discriminate.
    + intros [= E]. apply shape_defect_head in Hs. rewrite E in Hs.
      now apply Hs.
Qed.

Lemma C1_key_coverage_witness :
  let entries := [(py "-x", VInt 1); (py "name", VStr (py "n"))] in
  toon_keys_of (json_to_toon (VDict entries) 0) <> [] /\
  no_keys_found (VDict entries) (json_to_toon (VDict entries) 0) = false /\
  verify_toon_roundtrip (VDict entries) (json_to_toon (VDict entries) 0)
    <> Some (false, Some (py "No keys found in TOON output")).
Proof.
  cbv zeta.
  apply (proj1 C1_key_coverage
           [(py "-x", VInt 1); (py "name", VStr (py "n"))]
           (py "name") (VStr (py "n"))).
  - right. left. reflexivity.
  - repeat split. discriminate.
Defined.

(** ** Bare dashes *)

Lemma split_char_no_sep (c : codepoint) (a : pystr) :
  mem c a = false -> split_char c a = [a].
Proof.
  induction a as [|x a IH]; intros H; [reflexivity|].
  cbn [mem existsb] in H. apply orb_false_iff in H. destruct H as [Hx Ha].
  cbn [split_char]. rewrite N.eqb_sym in Hx. now rewrite Hx, (IH Ha).
Qed.

Lemma indent_dash_no_newline (indent : nat) :
  mem NL (indent_of indent ++ py "-") = false.
Proof.
  apply mem_false. intros H. apply in_app_or in H.
  destruct H as [H|[H|[]]]; [|discriminate H].
  apply repeat_spec in H. discriminate H.
Qed.

Lemma strip_indent_dash (indent : nat) :
  strip (indent_of indent ++ py "-") = py "-".
Proof.
  unfold strip, lstrip, indent_of.
  induction (2 * indent) as [|m IH]; [reflexivity|exact IH].
Qed.

(** The validator stops at a line made of indentation and a dash. *)
Lemma check_line_bare_dash (lines : list pystr) (j indent : nat) :
  check_line lines j (indent_of indent ++ py "-") =
    Ok (Return (false, Some (py "Empty list item at line " ++ line_no j))).
Proof.
  unfold check_line. rewrite strip_indent_dash. reflexivity.
Qed.

(** An array written item by item has a bare dash line for each item
    that is a non-empty array or object. *)
Lemma regular_list_bare_dash (items : list Value) (indent : nat)
      (item : Value) :
  In item items -> is_nonempty_collection item = true ->
  tabular_detector items = false ->
  exists parts,
    json_to_toon (VList items) indent = join_lines parts /\
    In (indent_of indent ++ py "-") parts.
Proof.
  intros Hin Hc Ht.
  assert (Hp : forallb is_primitive items = false).
  { destruct (forallb is_primitive items) eqn:E; [|reflexivity].
    rewrite forallb_forall in E. apply E in Hin.
    destruct item; discriminate. }
  assert (Ha : as_table items = None).
  { unfold tabular_detector, is_tabular in Ht.
    destruct items; [contradiction|]. cbn [is_empty negb andb] in Ht.
    destruct (as_table (v :: items)); [discriminate|reflexivity]. }
  destruct items as [|i items]; [contradiction|].
  cbn [json_to_toon is_empty]. rewrite Hp, Ha.
  eexists. split; [reflexivity|].
  apply in_flat_map. exists item. split; [exact Hin|].
  rewrite Hc. now left.
Qed.

(** Whatever the array, once it is written item by item and one item is
    a non-empty array or object, the verifier rejects the text. *)
Lemma regular_list_rejected (items : list Value) (indent : nat)
      (item : Value) :
  In item items -> is_nonempty_collection item = true ->
  tabular_detector items = false ->
  exists msg,
    verify_toon_roundtrip (VList items) (json_to_toon (VList items) indent)
      = Some (false, Some msg).
Proof.
  intros Hin Hc Ht.
  destruct (regular_list_bare_dash items indent item Hin Hc Ht)
    as (parts & E & Hp).
  assert (Hl : In (indent_of indent ++ py "-")
                  (split_lines (json_to_toon (VList items) indent))).
  { rewrite E. unfold split_lines, join_lines.
    rewrite split_join by (intros ->; contradiction).
    apply in_flat_map. exists (indent_of indent ++ py "-").
    split; [exact Hp|].
    rewrite (split_char_no_sep _ _ (indent_dash_no_newline indent)).
    now left. }
  unfold verify_toon_roundtrip.
  destruct (truthy (VList items) && is_empty (strip _)); [now eexists|].
  cbn [no_keys_found].
  destruct (validate_toon_cases (json_to_toon (VList items) indent))
    as [[_ H]|[(_ & H & Hall)|(_ & j & l & m & _ & _ & H)]].
  - rewrite H. now eexists.
  - apply In_nth_error in Hl. destruct Hl as (j & Hj).
    apply Hall in Hj. rewrite check_line_bare_dash in Hj. discriminate Hj.
  - rewrite H. now eexists.
Qed.

(** ** The pipeline on its own output *)

(** C10: the pipeline rejects its own output on well-formed values.
    Every array that is written item by item and holds a non-empty array
    or object is rejected by the verifier, for the bare [-] line of that
    item; so it is for the array with one object that holds a nested
    array, rejected as an empty list item.  An array of flat objects
    whose second element lacks the middle field of the first is written
    as a table with an empty column, which the validator rejects as an
    invalid tabular format. *)
Theorem C10_pipeline_rejects_own_output :
  (forall (items : list Value) (indent : nat) (item : Value),
      In item items -> is_nonempty_collection item = true ->
      tabular_detector items = false ->
      exists msg,
        verify_toon_roundtrip (VList items)
          (json_to_toon (VList items) indent) = Some (false, Some msg)) /\
  (let nested := VList [VDict [(py "a", VList [VInt 1])]] in
   let sparse := VList [VDict [(py "a", VInt 1); (py "b", VInt 2);
                               (py "c", VInt 3)];
                        VDict [(py "a", VInt 4); (py "c", VInt 6)]] in
   wf_value nested /\ wf_value sparse /\
   tabular_detector [VDict [(py "a", VList [VInt 1])]] = false /\
   split_lines (json_to_toon nested 0) = [py "-"; py "  a:"; py "  [1]"] /\
   verify_toon_roundtrip nested (json_to_toon nested 0) =
     Some (false, Some (py "Empty list item at line 1")) /\
   tabular_detector
     [VDict [(py "a", VInt 1); (py "b", VInt 2); (py "c", VInt 3)];
      VDict [(py "a", VInt 4); (py "c", VInt 6)]] = true /\
   split_lines (json_to_toon sparse 0) =
     [py "a | b | c"; py "1 | 2 | 3"; py "4 |  | 6"] /\
   verify_toon_roundtrip sparse (json_to_toon sparse 0) =
     Some (false,
           Some (py "Invalid tabular format at line 3: empty columns"))).
Proof.
  split; [exact regular_list_rejected|].
  cbv zeta. repeat split; try (vm_compute; reflexivity);
    repeat constructor; simpl; intuition discriminate.
Qed.

Lemma C10_pipeline_rejects_own_output_witness :
  exists msg,
    verify_toon_roundtrip (VList [VInt 1; VList [VInt 2]])
      (json_to_toon (VList [VInt 1; VList [VInt 2]]) 0)
      = Some (false, Some msg).
Proof.
  apply (proj1 C10_pipeline_rejects_own_output
           [VInt 1; VList [VInt 2]] 0 (VList [VInt 2])).
  - right. left. reflexivity.
  - reflexivity.
  - reflexivity.
Defined.

(** * Further properties of the code *)

(** ** The upload filter *)

Lemma rsplit_once_no_sep (c : codepoint) (s : pystr) :
  mem c s = false -> rsplit_once c s = [s].
Proof.
  induction s as [|x s IH]; intros H; [reflexivity|].
  cbn [mem existsb] in H. apply orb_false_iff in H. destruct H as [Hx Hs].
  cbn [rsplit_once]. rewrite (IH Hs). rewrite N.eqb_sym in Hx.
  now rewrite Hx.
Qed.

Lemma rsplit_once_last (c : codepoint) (stem ext : pystr) :
  mem c ext = false -> rsplit_once c (stem ++ c :: ext) = [stem; ext].
Proof.
  intros H. induction stem as [|x stem IH]; cbn [app rsplit_once].
  - rewrite (@rsplit_once_no_sep c ext H). now rewrite N.eqb_refl.
  - now rewrite IH.
Qed.

Lemma lower_char_cases (c : codepoint) :
  (exists x, lower_char c = [x] /\
             (x = c \/ (x = c + 32 /\ 65 <= c <= 90) \/ x = 107)%N) \/
  lower_char c = [105; 775]%N.
Proof.
  unfold lower_char.
  destruct ((65 <=? c) && (c <=? 90))%N eqn:E.
  - left. eexists. split; [reflexivity|]. right. left. split; [reflexivity|].
    apply andb_true_iff in E. destruct E as [E1 E2].
    apply N.leb_le in E1, E2. lia.
  - destruct (c =? 304)%N; [now right|].
    destruct (c =? 8490)%N; left; eexists; (split; [reflexivity|]); tauto.
Qed.

Lemma lower_json (ext : pystr) :
  py_lower ext = py "json" <-> json_extension ext.
Proof.
  unfold py_lower, json_extension. split.
  - intros H. change (py "json") with [106; 115; 111; 110]%N in H.
    assert (L : forall c x rest tail,
               (97 <= x <= 122)%N -> x <> 105%N -> x <> 107%N ->
               lower_char c ++ rest = x :: tail ->
               (c = x \/ (c + 32 = x)%N) /\ rest = tail).
    { intros c x rest tail Hx Hi Hk E.
      destruct (lower_char_cases c) as [(y & Ey & Hy)|Ey]; rewrite Ey in E.
      - injection E as -> ->. split; [|reflexivity].
        destruct Hy as [->|[[-> _]| ->]]; tauto.
      - injection E as <- _. congruence. }
    destruct ext as [|a ext]; [discriminate H|].
    cbn [flat_map] in H. apply L in H; try lia. destruct H as [Ha H].
    destruct ext as [|b ext]; [discriminate H|].
    cbn [flat_map] in H. apply L in H; try lia. destruct H as [Hb H].
    destruct ext as [|c ext]; [discriminate H|].
    cbn [flat_map] in H. apply L in H; try lia. destruct H as [Hc H].
    destruct ext as [|d ext]; [discriminate H|].
    cbn [flat_map] in H. apply L in H; try lia. destruct H as [Hd H].
    destruct ext as [|e ext].
    + exists a, b, c, d. split; [reflexivity|]. lia.
    + cbn [flat_map] in H.
      destruct (lower_char_cases e) as [(y & Ey & _)|Ey]; rewrite Ey in H;
        discriminate H.
  - intros (a & b & c & d & -> & Ha & Hb & Hc & Hd).
    destruct Ha as [-> | ->], Hb as [-> | ->], Hc as [-> | ->],
      Hd as [-> | ->]; reflexivity.
Qed.

Lemma last_occurrence (c : codepoint) (s : pystr) :
  mem c s = true ->
  exists stem ext, s = stem ++ c :: ext /\ mem c ext = false.
Proof.
  induction s as [|x s IH]; [discriminate|].
  change (mem c (x :: s)) with (N.eqb c x || mem c s).
  intros H. destruct (mem c s) eqn:E.
  - destruct (IH eq_refl) as (stem & ext & -> & Hext).
    now exists (x :: stem), ext.
  - rewrite orb_false_r in H. apply N.eqb_eq in H. subst x.
    now exists [], s.
Qed.

Lemma json_extension_no_dot (ext : pystr) :
  json_extension ext -> mem DOT ext = false.
Proof.
  intros (a & b & c & d & -> & Ha & Hb & Hc & Hd).
  destruct Ha as [-> | ->], Hb as [-> | ->], Hc as [-> | ->],
    Hd as [-> | ->]; reflexivity.
Qed.

Lemma allowed_file_last (stem ext : pystr) :
  mem DOT ext = false ->
  allowed_file (stem ++ DOT :: ext) =
    Ok (pystr_eqb (py_lower ext) (py "json")).
Proof.
  intros H. unfold allowed_file.
  assert (M : mem DOT (stem ++ DOT :: ext) = true).
  { apply mem_In, in_or_app. right. now left. }
  rewrite M, (@rsplit_once_last DOT stem ext H).
  cbn [py_index nth_error bind ALLOWED_EXTENSIONS existsb].
  now rewrite orb_false_r.
Qed.

Lemma pystr_eqb_true (a b : pystr) : pystr_eqb a b = true <-> a = b.
Proof.
  unfold pystr_eqb. destruct (pystr_eq_dec a b); split; congruence.
Qed.

(** X1: [allowed_file] never raises, and it answers true exactly for the
    names that end with a dot followed by [json] in any mix of upper and
    lower case. *)
Theorem allowed_file_spec (filename : pystr) :
  exists b,
    allowed_file filename = Ok b /\
    (b = true <->
     exists stem ext, filename = stem ++ DOT :: ext /\ json_extension ext).
Proof.
  destruct (mem DOT filename) eqn:M.
  - destruct (@last_occurrence DOT filename M) as (stem & ext & -> & Hext).
    exists (pystr_eqb (py_lower ext) (py "json")).
    split; [now apply allowed_file_last|].
    rewrite pystr_eqb_true, lower_json. split.
    + intros J. now exists stem, ext.
    + intros (stem' & ext' & E & J).
      pose proof (json_extension_no_dot J) as Hext'.
      assert (R : [stem; ext] = [stem'; ext']).
      { transitivity (rsplit_once DOT (stem ++ DOT :: ext)).
        - symmetry. now apply rsplit_once_last.
        - rewrite E. now apply rsplit_once_last. }
      injection R as _ ->. exact J.
  - exists false. unfold allowed_file. rewrite M. split; [reflexivity|].
    split; [discriminate|].
    intros (stem & ext & -> & _).
    assert (mem DOT (stem ++ DOT :: ext) = true)
      by (apply mem_In, in_or_app; right; now left).
    congruence.
Qed.

Lemma allowed_file_spec_witness :
  allowed_file (py "report.JSON") = Ok true.
Proof.
  destruct (allowed_file_spec (py "report.JSON")) as (b & E & H).
  rewrite E. f_equal. apply H.
  exists (py "report"), (py "JSON"). split; [reflexivity|].
  exists 74%N, 83%N, 79%N, 78%N. repeat split; tauto.
Defined.

(** X2: only the text after the last dot counts.  A name without a dot
    is refused; whatever comes before the last dot, also nothing at all
    and also other dots, a name is accepted when [json] follows; a name
    with something else after a [.json], such as a second extension or
    nothing, is refused. *)
Theorem allowed_file_last_extension (stem ext : pystr) :
  (mem DOT stem = false -> allowed_file stem = Ok false) /\
  (json_extension ext -> allowed_file (stem ++ DOT :: ext) = Ok true) /\
  (mem DOT ext = false -> ~ json_extension ext ->
   allowed_file (stem ++ py ".json" ++ DOT :: ext) = Ok false).
Proof.
  split; [|split].
  - intros M. unfold allowed_file. now rewrite M.
  - intros J. rewrite (@allowed_file_last stem ext (json_extension_no_dot J)).
    f_equal. apply pystr_eqb_true. now apply lower_json.
  - intros M J. rewrite app_assoc, (@allowed_file_last _ ext M). f_equal.
    destruct (pystr_eqb (py_lower ext) (py "json")) eqn:E; [|reflexivity].
    apply pystr_eqb_true, lower_json in E. contradiction.
Qed.

Lemma allowed_file_last_extension_witness :
  allowed_file (py "json") = Ok false /\
  allowed_file (py "a.b" ++ DOT :: py "JsOn") = Ok true /\
  allowed_file (py "data" ++ py ".json" ++ DOT :: py "txt") = Ok false /\
  allowed_file (py "data" ++ py ".json" ++ DOT :: []) = Ok false.
Proof.
  assert (N : forall ext, length ext <> 4 -> ~ json_extension ext).
  { intros ext L (a & b & c & d & -> & _). now apply L. }
  split; [|split; [|split]].
  - apply (proj1 (allowed_file_last_extension (py "json") [])). reflexivity.
  - apply (proj1 (proj2 (allowed_file_last_extension (py "a.b") (py "JsOn")))).
    exists 74%N, 115%N, 79%N, 110%N. repeat split; tauto.
  - apply (proj2 (proj2 (allowed_file_last_extension (py "data") (py "txt"))));
      [reflexivity|]. apply N. discriminate.
  - apply (proj2 (proj2 (allowed_file_last_extension (py "data") [])));
      [reflexivity|]. apply N. discriminate.
Defined.

(** ** Blank and non-blank text *)

Lemma dropwhile_nil_iff (f : codepoint -> bool) (s : pystr) :
  dropwhile f s = [] <-> forall c, In c s -> f c = true.
Proof.
  induction s as [|x s IH]; cbn [dropwhile].
  - split; [intros _ c []|reflexivity].
  - destruct (f x) eqn:E.
    + rewrite IH. split.
      * intros H c [<-|Hc]; [exact E|now apply H].
      * intros H c Hc. apply H. now right.
    + split; [discriminate|]. intros H.
      specialize (H x (or_introl eq_refl)). congruence.
Qed.

Lemma strip_nil_iff (s : pystr) :
  strip s = [] <-> forall c, In c s -> is_space c = true.
Proof.
  unfold strip, rstrip, lstrip. split.
  - intros H. apply dropwhile_nil_iff.
    destruct (dropwhile is_space s) as [|d r] eqn:E; [reflexivity|].
    exfalso. pose proof (dropwhile_head _ _ E) as Hd.
    apply (f_equal (@rev codepoint)) in H. rewrite rev_involutive in H.
    cbn [rev] in H.
    assert (Hs : is_space d = true).
    { apply (proj1 (dropwhile_nil_iff is_space (rev (d :: r))) H).
      apply -> in_rev. now left. }
    congruence.
  - intros H. apply dropwhile_nil_iff in H. now rewrite H.
Qed.

(** A text is not blank exactly when it holds a character that is not
    white space. *)
Lemma strip_nonblank_iff (s : pystr) :
  strip s <> [] <-> exists c, In c s /\ is_space c = false.
Proof.
  rewrite strip_nil_iff. split.
  - intros H. induction s as [|x s IH].
    + exfalso. apply H. intros c [].
    + destruct (is_space x) eqn:E; [|exists x; split; [now left|exact E]].
      destruct IH as (c & Hc & Hs).
      * intros A. apply H. intros c [<-|Hc]; [exact E|now apply A].
      * exists c. split; [now right|exact Hs].
  - intros (c & Hc & Hs) A. apply A in Hc. congruence.
Qed.

Lemma dropwhile_idem (f : codepoint -> bool) (s : pystr) :
  dropwhile f (dropwhile f s) = dropwhile f s.
Proof.
  destruct (dropwhile f s) as [|d q] eqn:E; [reflexivity|].
  pose proof (dropwhile_head _ _ E) as Hd. cbn [dropwhile]. now rewrite Hd.
Qed.

Lemma rstrip_idem (s : pystr) : rstrip (rstrip s) = rstrip s.
Proof.
  unfold rstrip. now rewrite rev_involutive, dropwhile_idem.
Qed.

Lemma strip_idem (s : pystr) : strip (strip s) = strip s.
Proof.
  assert (L : lstrip (strip s) = strip s).
  { unfold strip. destruct (lstrip s) as [|d q] eqn:E; [reflexivity|].
    pose proof (dropwhile_head _ _ E) as Hd.
    destruct (@rstrip_cons d q Hd) as (r & ->).
    unfold lstrip. cbn [dropwhile]. now rewrite Hd. }
  unfold strip at 1. rewrite L. unfold strip. apply rstrip_idem.
Qed.

(** ** The validator, line by line *)

(** What the validator makes of a line depends on the line only through
    its stripped form, and on neither the other lines nor, apart from
    the number in the message, its position. *)
Lemma check_line_rel (lines lines' : list pystr) (i i' : nat)
      (line line' : pystr) :
  strip line = strip line' ->
  (check_line lines i line = Ok Continue /\
   check_line lines' i' line' = Ok Continue) \/
  (exists f : nat -> pystr,
      check_line lines i line = Ok (Return (false, Some (f i))) /\
      check_line lines' i' line' = Ok (Return (false, Some (f i')))).
Proof.
  intros E. unfold check_line. rewrite E. clear E line.
  set (stripped := strip line').
  assert (G : forall (ls : list pystr) (n : nat) (value : pystr),
             (_ <- (if is_empty value
                    then if (n + 1 <? length ls)%nat
                         then next_line <- py_index ls (n + 1);; Ok tt
                         else Ok tt
                    else Ok tt);; Ok Continue) = Ok Continue).
  { intros ls n value. destruct (is_empty value); [|reflexivity].
    destruct (n + 1 <? length ls)%nat eqn:L; [|reflexivity].
    apply Nat.ltb_lt in L. destruct (py_index_lt ls L) as (x & -> & _).
    reflexivity. }
  destruct (is_empty stripped); [now left|].
  destruct (contains (py " | ") stripped && negb (startswith (py "-") stripped)).
  { destruct (is_empty (map strip (split_str (py " | ") stripped)) ||
              negb (forallb nonempty (map strip (split_str (py " | ") stripped))));
      [|now left].
    right.
    exists (fun n => py "Invalid tabular format at line " ++ line_no n ++
                     py ": empty columns").
    split; reflexivity. }
  destruct (startswith (py "-") stripped).
  { destruct (is_empty (strip (slice_from1 stripped))); [|now left].
    right. exists (fun n => py "Empty list item at line " ++ line_no n).
    split; reflexivity. }
  destruct (mem COLON stripped).
  { destruct (split_once_cons COLON stripped) as (key & rest & ->).
    cbn [py_index nth_error bind].
    assert (Hv : exists value,
               (if (1 <? length (key :: rest))%nat
                then p1 <- py_index (key :: rest) 1;; Ok (strip p1)
                else Ok []) = Ok value).
    { destruct (1 <? length (key :: rest))%nat eqn:L; [|now exists []].
      apply Nat.ltb_lt in L.
      destruct (py_index_lt (key :: rest) L) as (x & -> & _).
      now exists (strip x). }
    destruct Hv as (value & ->). cbn [bind].
    destruct (is_empty (strip key)).
    - right. exists (fun n => py "Empty key at line " ++ line_no n).
      split; reflexivity.
    - left. split; apply G. }
  destruct (startswith (py "[") stripped && endswith (py "]") stripped).
  { destruct (nonempty (strip (slice_1_m1 stripped))); [|now left].
    destruct (negb (forallb nonempty
                (map strip (split_char COMMA (strip (slice_1_m1 stripped))))));
      [|now left].
    right.
    exists (fun n => py "Invalid array format at line " ++ line_no n ++
                     py ": empty values").
    split; reflexivity. }
  left. now destruct (existsb _ _).
Qed.

(** A line that passes, passes anywhere. *)
Lemma check_line_continue (lines lines' : list pystr) (i i' : nat)
      (line line' : pystr) :
  strip line = strip line' ->
  check_line lines i line = Ok Continue ->
  check_line lines' i' line' = Ok Continue.
Proof.
  intros E H.
  destruct (@check_line_rel lines lines' i i' line line' E)
    as [[_ H']|(f & H1 & _)]; [exact H'|congruence].
Qed.

(** The loop stops at the first line that does not pass, with the
    verdict of that line. *)
Lemma validate_loop_first (fuel : nat) (lines : list pystr) :
  forall i, length lines - i < fuel ->
  (validate_loop fuel lines i = Some (Ok (true, None)) /\
   forall j line, i <= j -> nth_error lines j = Some line ->
                  check_line lines j line = Ok Continue) \/
  (exists j line v,
      i <= j /\ nth_error lines j = Some line /\
      check_line lines j line = Ok (Return v) /\
      (forall j' line', i <= j' < j -> nth_error lines j' = Some line' ->
                        check_line lines j' line' = Ok Continue) /\
      validate_loop fuel lines i = Some (Ok v)).
Proof.
  induction fuel as [|fuel IH]; intros i Hf; [lia|].
  cbn [validate_loop].
  destruct (i <? length lines)%nat eqn:L.
  - apply Nat.ltb_lt in L.
    destruct (py_index_lt lines L) as (line & -> & Hn). cbn [bind].
    destruct (check_line_cases lines i line) as [Hc|(msg & Hc & _)];
      rewrite Hc.
    + destruct (IH (i + 1))
        as [[Hr Hall]|(j & l & v & Hj & Hl & Hv & Hb & Hr)]; [lia| |].
      * left. split; [exact Hr|].
        intros j l Hj Hl. destruct (Nat.eq_dec j i) as [->|Hne].
        -- rewrite Hn in Hl. injection Hl as <-. exact Hc.
        -- apply Hall; [lia|exact Hl].
      * right. exists j, l, v. repeat split; try assumption; [lia|].
        intros j' l' Hj' Hl'. destruct (Nat.eq_dec j' i) as [->|Hne].
        -- rewrite Hn in Hl'. injection Hl' as <-. exact Hc.
        -- apply Hb; [lia|exact Hl'].
    + right. exists i, line, (false, Some msg).
      repeat split; try assumption; [lia|]. intros j' l' Hj'. lia.
  - apply Nat.ltb_ge in L. left. split; [reflexivity|].
    intros j l Hj Hl.
    assert (j < length lines) by (apply nth_error_Some; congruence). lia.
Qed.

(** The same at one position: the verdicts are equal. *)
Lemma check_line_same (lines lines' : list pystr) (i : nat)
      (line line' : pystr) :
  strip line = strip line' ->
  check_line lines i line = check_line lines' i line'.
Proof.
  intros E.
  destruct (@check_line_rel lines lines' i i line line' E)
    as [[H H']|(f & H & H')]; congruence.
Qed.

Lemma accepts_lines (toon_data : pystr) :
  accepts toon_data ->
  strip toon_data <> [] /\
  forall line, In line (split_lines toon_data) ->
               check_line [] 0 (strip line) = Ok Continue.
Proof.
  unfold accepts, validate_toon, validate_toon_fuel.
  destruct (is_empty toon_data || is_empty (strip toon_data)) eqn:B;
    [discriminate|].
  assert (Hne : strip toon_data <> []).
  { intros E. apply blank_test in E. congruence. }
  destruct (@validate_loop_first (S (length (split_lines toon_data)))
              (split_lines toon_data) 0)
    as [[Hr Hall]|(j & l & v & _ & Hl & Hv & _ & Hr)]; [lia| |]; rewrite Hr.
  - intros _. split; [exact Hne|].
    intros line Hin. apply In_nth_error in Hin. destruct Hin as (j & Hj).
    apply check_line_continue
      with (lines := split_lines toon_data) (i := j) (line := line);
      [symmetry; apply strip_idem|]. apply Hall; [lia|exact Hj].
  - intros [= ->].
    destruct (check_line_cases (split_lines toon_data) j l)
      as [Hc|(m & Hc & _)]; congruence.
Qed.

Lemma lines_accepts (toon_data : pystr) :
  strip toon_data <> [] ->
  (forall line, In line (split_lines toon_data) ->
                check_line [] 0 (strip line) = Ok Continue) ->
  accepts toon_data.
Proof.
  intros Hne Hall. unfold accepts, validate_toon, validate_toon_fuel.
  destruct (is_empty toon_data || is_empty (strip toon_data)) eqn:B.
  { apply blank_test in B. congruence. }
  destruct (@validate_loop_first (S (length (split_lines toon_data)))
              (split_lines toon_data) 0)
    as [[Hr _]|(j & l & v & _ & Hl & Hv & _ & Hr)]; [lia| |]; rewrite Hr;
    [reflexivity|].
  exfalso.
  assert (C : check_line (split_lines toon_data) j l = Ok Continue).
  { apply check_line_continue
      with (lines := @nil pystr) (i := 0) (line := strip l);
      [apply strip_idem|].
    apply Hall. eapply nth_error_In. exact Hl. }
  congruence.
Qed.

(** X3: the validator accepts a text exactly when the text is not blank
    and every line of it passes when it is checked alone: no line is
    judged by its neighbours or by its indentation. *)
Theorem validator_accepts_iff (toon_data : pystr) :
  accepts toon_data <->
  strip toon_data <> [] /\
  forall line, In line (split_lines toon_data) ->
               check_line [] 0 (strip line) = Ok Continue.
Proof.
  split.
  - apply accepts_lines.
  - intros [Hne Hall]. now apply lines_accepts.
Qed.

Lemma validator_accepts_iff_witness :
  accepts (py "name: x" ++ NL :: py "anything goes here").
Proof.
  apply (proj2 (validator_accepts_iff
                  (py "name: x" ++ NL :: py "anything goes here"))).
  split; [discriminate|].
  intros line [<-|[<-|[]]]; reflexivity.
Defined.

(** X4: a rejection of a text that is not blank is the verdict of the
    first line that does not pass, and its message names that line,
    counted from 1, with one of the four defects; conversely the first
    line that does not pass decides the verdict. *)
Theorem validator_first_defect (toon_data msg : pystr) :
  strip toon_data <> [] ->
  (validate_toon toon_data = Some (false, Some msg) <->
   exists j line,
     nth_error (split_lines toon_data) j = Some line /\
     check_line [] j (strip line) = Ok (Return (false, Some msg)) /\
     shape_defect j line msg /\
     forall j' line',
       j' < j -> nth_error (split_lines toon_data) j' = Some line' ->
       check_line [] 0 (strip line') = Ok Continue).
Proof.
  intros Hne. unfold validate_toon, validate_toon_fuel.
  destruct (is_empty toon_data || is_empty (strip toon_data)) eqn:B.
  { apply blank_test in B. congruence. }
  set (lines := split_lines toon_data).
  destruct (@validate_loop_first (S (length lines)) lines 0)
    as [[Hr Hall]|(j & l & v & _ & Hl & Hv & Hb & Hr)]; [lia| |]; rewrite Hr.
  - split; [discriminate|].
    intros (j & line & Hl & Hc & _). exfalso.
    rewrite (@check_line_same [] lines j (strip line) line (strip_idem line))
      in Hc.
    rewrite (Hall j line (Nat.le_0_l j) Hl) in Hc. discriminate Hc.
  - split.
    + intros [= ->]. exists j, l. split; [exact Hl|]. split; [|split].
      * now rewrite
          (@check_line_same [] lines j (strip l) l (strip_idem l)).
      * destruct (check_line_cases lines j l) as [Hc|(m & Hc & Hd)];
          [congruence|]. rewrite Hc in Hv. now injection Hv as <-.
      * intros j' l' Hj' Hl'.
        apply check_line_continue
          with (lines := lines) (i := j') (line := l');
          [symmetry; apply strip_idem|]. apply Hb; [lia|exact Hl'].
    + intros (j0 & l0 & Hl0 & Hc0 & _ & Hb0).
      rewrite (@check_line_same [] lines j0 (strip l0) l0 (strip_idem l0))
        in Hc0.
      destruct (Nat.lt_trichotomy j0 j) as [Hlt|[->|Hgt]].
      * rewrite (Hb j0 l0 (conj (Nat.le_0_l j0) Hlt) Hl0) in Hc0.
        discriminate Hc0.
      * rewrite Hl0 in Hl. injection Hl as <-. rewrite Hv in Hc0.
        injection Hc0 as ->. reflexivity.
      * exfalso.
        assert (C : check_line lines j l = Ok Continue).
        { apply check_line_continue
            with (lines := @nil pystr) (i := 0) (line := strip l);
            [apply strip_idem|]. now apply (Hb0 j l). }
        congruence.
Qed.

Lemma validator_first_defect_witness :
  validate_toon (py "a: 1" ++ NL :: py "-") =
    Some (false, Some (py "Empty list item at line 2")).
Proof.
  apply (proj2 (@validator_first_defect (py "a: 1" ++ NL :: py "-")
                  (py "Empty list item at line 2")
                  ltac:(discriminate))).
  exists 1, (py "-"). split; [reflexivity|]. split; [reflexivity|].
  split.
  - apply DefectListItem. split; reflexivity.
  - intros j' line' Hj Hl. destruct j' as [|j']; [|lia].
    injection Hl as <-. reflexivity.
Defined.

(** ** Texts put together, and indentation *)

Lemma split_char_chars (c : codepoint) (s piece : pystr) (x : codepoint) :
  In piece (split_char c s) -> In x piece -> In x s.
Proof.
  revert piece. induction s as [|y s IH]; intros piece; cbn [split_char].
  - intros [<-|[]] [].
  - destruct (N.eqb y c).
    + intros [<-|H] Hx; [destruct Hx|]. right. now apply (IH piece).
    + destruct (split_char c s) as [|p ps] eqn:E.
      * intros [<-|[]] [<-|[]]. now left.
      * intros [<-|H] Hx.
        -- destruct Hx as [<-|Hx]; [now left|]. right. apply (IH p); [now left|exact Hx].
        -- right. apply (IH piece); [now right|exact Hx].
Qed.

Lemma split_char_pieces (c : codepoint) (s piece : pystr) :
  In piece (split_char c s) -> mem c piece = false.
Proof.
  revert piece. induction s as [|y s IH]; intros piece; cbn [split_char].
  - now intros [<-|[]].
  - destruct (N.eqb_spec y c) as [->|Hne].
    + intros [<-|H]; [reflexivity|now apply IH].
    + destruct (split_char c s) as [|p ps] eqn:E.
      * intros [<-|[]]. cbn [mem existsb].
        destruct (N.eqb_spec c y); [congruence|reflexivity].
      * intros [<-|H].
        -- cbn [mem existsb]. destruct (N.eqb_spec c y); [congruence|].
           apply (IH p). now left.
        -- apply IH. now right.
Qed.

Lemma in_join (sep : pystr) (parts : list pystr) (x : codepoint) :
  In x (join sep parts) ->
  (exists p, In p parts /\ In x p) \/ In x sep.
Proof.
  induction parts as [|p parts IH]; [intros []|].
  destruct parts as [|q parts].
  - intros H. left. exists p. split; [now left|exact H].
  - change (join sep (p :: q :: parts)) with (p ++ sep ++ join sep (q :: parts)).
    intros H. apply in_app_or in H. destruct H as [H|H].
    + left. exists p. split; [now left|exact H].
    + apply in_app_or in H. destruct H as [H|H]; [now right|].
      destruct (IH H) as [(r & Hr & Hx)|Hs]; [|now right].
      left. exists r. split; [now right|exact Hx].
Qed.

Lemma in_join_part (sep : pystr) (parts : list pystr) (p : pystr)
      (x : codepoint) :
  In p parts -> In x p -> In x (join sep parts).
Proof.
  induction parts as [|q parts IH]; [intros []|].
  intros Hp Hx. destruct parts as [|r parts].
  - destruct Hp as [<-|[]]. exact Hx.
  - change (join sep (q :: r :: parts)) with (q ++ sep ++ join sep (r :: parts)).
    apply in_or_app. destruct Hp as [<-|Hp]; [now left|].
    right. apply in_or_app. right. now apply IH.
Qed.

Lemma split_join_pieces (c : codepoint) (parts : list pystr) :
  parts <> [] -> Forall (fun p => mem c p = false) parts ->
  split_char c (join [c] parts) = parts.
Proof.
  intros Hne H. rewrite split_join by exact Hne.
  clear Hne. induction H as [|p parts Hp _ IH]; [reflexivity|].
  cbn [flat_map]. now rewrite (split_char_no_sep _ _ Hp), IH.
Qed.

Lemma blank_line_passes (line : pystr) :
  strip line = [] -> check_line [] 0 (strip line) = Ok Continue.
Proof.
  intros ->. reflexivity.
Qed.

(** X5: texts that the validator accepts can be put one after the other:
    the text made of an accepted text, a newline and a text that is
    accepted or blank is accepted. *)
Theorem validator_accepts_concat (a b : pystr) :
  accepts a -> accepts b \/ strip b = [] ->
  accepts (a ++ NL :: b) /\ accepts (b ++ NL :: a).
Proof.
  intros Ha Hb. apply accepts_lines in Ha. destruct Ha as [Hna Hla].
  assert (Hlb : forall line, In line (split_lines b) ->
                             check_line [] 0 (strip line) = Ok Continue).
  { destruct Hb as [Hb|Hb].
    - apply accepts_lines in Hb. now destruct Hb.
    - intros line Hin. apply blank_line_passes. apply strip_nil_iff.
      intros x Hx. apply (proj1 (strip_nil_iff b) Hb).
      eapply split_char_chars; eassumption. }
  apply strip_nonblank_iff in Hna. destruct Hna as (x & Hx & Hs).
  split; apply lines_accepts.
  - apply strip_nonblank_iff. exists x. split; [|exact Hs].
    apply in_or_app. now left.
  - unfold split_lines. rewrite split_char_app. intros line Hin.
    apply in_app_or in Hin. destruct Hin; [now apply Hla|now apply Hlb].
  - apply strip_nonblank_iff. exists x. split; [|exact Hs].
    apply in_or_app. right. now right.
  - unfold split_lines. rewrite split_char_app. intros line Hin.
    apply in_app_or in Hin. destruct Hin; [now apply Hlb|now apply Hla].
Qed.

Lemma validator_accepts_concat_witness :
  accepts (py "a: 1" ++ NL :: py "- x") /\
  accepts (py "- x" ++ NL :: py "a: 1").
Proof.
  apply validator_accepts_concat; [|left]; reflexivity.
Defined.

Lemma Forall2_nth_error {A B : Type} (R : A -> B -> Prop) (l : list A)
      (l' : list B) (i : nat) (x : A) :
  Forall2 R l l' -> nth_error l i = Some x ->
  exists y, nth_error l' i = Some y /\ R x y.
Proof.
  intros H. revert i. induction H as [|a b l l' Hab _ IH]; intros i.
  - destruct i; discriminate.
  - destruct i as [|i]; cbn [nth_error].
    + intros [= <-]. now exists b.
    + apply IH.
Qed.

Lemma validate_loop_stripped (lines lines' : list pystr) :
  Forall2 (fun l l' => strip l = strip l') lines lines' ->
  forall fuel i, validate_loop fuel lines i = validate_loop fuel lines' i.
Proof.
  intros H. pose proof (Forall2_length H) as Hlen.
  induction fuel as [|fuel IH]; intros i; [reflexivity|].
  cbn [validate_loop]. rewrite <- Hlen.
  destruct (i <? length lines)%nat eqn:L; [|reflexivity].
  apply Nat.ltb_lt in L.
  destruct (py_index_lt lines L) as (line & E & Hn). rewrite E.
  destruct (Forall2_nth_error i H Hn) as (line' & Hn' & Hs).
  unfold py_index at 1. rewrite Hn'. cbn [bind].
  rewrite (@check_line_same lines lines' i line line' Hs).
  destruct (check_line lines' i line') as [[|v]|e]; try reflexivity.
  apply IH.
Qed.

Lemma blank_join_stripped (lines lines' : list pystr) :
  Forall2 (fun l l' => strip l = strip l') lines lines' ->
  strip (join_lines lines) = [] -> strip (join_lines lines') = [].
Proof.
  intros H B. apply strip_nil_iff. intros x Hx.
  apply in_join in Hx. destruct Hx as [(p' & Hp' & Hx)|[<-|[]]];
    [|reflexivity].
  apply In_nth_error in Hp'. destruct Hp' as (i & Hi).
  assert (F : Forall2 (fun l' l => strip l' = strip l) lines' lines).
  { clear -H. induction H; constructor; [now symmetry|assumption]. }
  destruct (Forall2_nth_error i F Hi) as (p & Hp & Hs).
  assert (Bp : strip p = []).
  { apply strip_nil_iff. intros y Hy.
    apply (proj1 (strip_nil_iff (join_lines lines)) B).
    eapply in_join_part; [eapply nth_error_In; exact Hp|exact Hy]. }
  rewrite Bp in Hs. now apply (proj1 (strip_nil_iff p') Hs).
Qed.

(** X6: the validator is blind to indentation.  Two texts whose lines
    are equal once the white space at both ends of each line is removed
    get the same verdict, with the same message: white space added or
    removed at the start of lines is never noticed. *)
Theorem validator_indentation_blind (lines lines' : list pystr) :
  Forall2 (fun l l' => strip l = strip l') lines lines' ->
  Forall (fun l => mem NL l = false) lines ->
  Forall (fun l => mem NL l = false) lines' ->
  validate_toon (join_lines lines) = validate_toon (join_lines lines').
Proof.
  intros H N N'.
  destruct lines as [|l ls].
  { inversion H. reflexivity. }
  destruct lines' as [|l' ls']; [inversion H|].
  unfold validate_toon, validate_toon_fuel, split_lines, join_lines.
  rewrite !split_join_pieces by (assumption || discriminate).
  assert (B : is_empty (join [NL] (l :: ls)) ||
              is_empty (strip (join [NL] (l :: ls))) =
              is_empty (join [NL] (l' :: ls')) ||
              is_empty (strip (join [NL] (l' :: ls')))).
  { assert (F : Forall2 (fun a b => strip a = strip b) (l' :: ls') (l :: ls)).
    { clear -H. induction H; constructor; [now symmetry|assumption]. }
    destruct (is_empty (join [NL] (l :: ls)) ||
              is_empty (strip (join [NL] (l :: ls)))) eqn:B1;
      destruct (is_empty (join [NL] (l' :: ls')) ||
                is_empty (strip (join [NL] (l' :: ls')))) eqn:B2;
      try reflexivity.
    - apply blank_test in B1. apply (blank_join_stripped H) in B1.
      apply (proj2 (blank_test _)) in B1. unfold join_lines in B1.
      congruence.
    - apply blank_test in B2. apply (blank_join_stripped F) in B2.
      apply (proj2 (blank_test _)) in B2. unfold join_lines in B2.
      congruence. }
  rewrite B. rewrite (Forall2_length H).
  now rewrite (validate_loop_stripped H).
Qed.

Lemma validator_indentation_blind_witness :
  validate_toon (join_lines [py "    a:"; py "b: 1"; py "         -"]) =
  validate_toon (join_lines [py "a:"; py "  b: 1"; py "  -"]).
Proof.
  apply validator_indentation_blind; repeat constructor.
Defined.

(** ** Flat records through the pipeline *)

Lemma hex_digit_range (m : N) :
  (m < 16)%N -> (48 <= hex_digit m <= 102)%N.
Proof.
  intros H. unfold hex_digit.
  destruct (N.ltb_spec m 10); lia.
Qed.

(** The JSON encoder writes printable ASCII only, and a pipe only for a
    pipe. *)
Lemma escape_char_chars (c x : codepoint) :
  In x (escape_char c) -> (32 <= x <= 126)%N /\ (x = PIPE -> c = PIPE).
Proof.
  assert (U : forall n, In x (u_escape n) ->
                        (32 <= x <= 126)%N /\ x <> PIPE).
  { intros n H. unfold u_escape, hex4 in H. cbn [In] in H.
    assert (R : forall m, (48 <= hex_digit (m mod 16) <= 102)%N)
      by (intros m; apply hex_digit_range, N.mod_lt; discriminate).
    pose proof (R (n / 4096)%N). pose proof (R (n / 256)%N).
    pose proof (R (n / 16)%N). pose proof (R n).
    destruct H as [<-|[<-|[<-|[<-|[<-|[<-|[]]]]]]];
      unfold BSLASH, PIPE; lia. }
  unfold escape_char.
  destruct (N.eqb_spec c DQ);
    [intros [<-|[<-|[]]]; (split; [unfold BSLASH, DQ; lia|discriminate])|].
  destruct (N.eqb_spec c BSLASH);
    [intros [<-|[<-|[]]]; (split; [unfold BSLASH; lia|discriminate])|].
  destruct (c =? 10)%N;
    [intros [<-|[<-|[]]]; (split; [unfold BSLASH; lia|discriminate])|].
  destruct (c =? 13)%N;
    [intros [<-|[<-|[]]]; (split; [unfold BSLASH; lia|discriminate])|].
  destruct (c =? 9)%N;
    [intros [<-|[<-|[]]]; (split; [unfold BSLASH; lia|discriminate])|].
  destruct (c =? 8)%N;
    [intros [<-|[<-|[]]]; (split; [unfold BSLASH; lia|discriminate])|].
  destruct (c =? 12)%N;
    [intros [<-|[<-|[]]]; (split; [unfold BSLASH; lia|discriminate])|].
  destruct ((32 <=? c) && (c <=? 126))%N eqn:E.
  - intros [<-|[]]. apply andb_true_iff in E. destruct E as [E1 E2].
    apply N.leb_le in E1, E2. split; [lia|tauto].
  - destruct (c <? 65536)%N.
    + intros H. apply U in H. destruct H as [H1 H2].
      split; [exact H1|intros; contradiction].
    + cbv zeta. intros H. apply in_app_or in H.
      destruct H as [H|H]; apply U in H; destruct H as [H1 H2];
        (split; [exact H1|intros; contradiction]).
Qed.

Lemma json_dumps_str_chars (s : pystr) (x : codepoint) :
  In x (json_dumps_str s) ->
  (32 <= x <= 126)%N /\ (x = PIPE -> In PIPE s).
Proof.
  unfold json_dumps_str. intros [<-|H].
  - split; [unfold DQ; lia|discriminate].
  - apply in_app_or in H. destruct H as [H|[<-|[]]].
    + apply in_flat_map in H. destruct H as (c & Hc & H).
      apply escape_char_chars in H. destruct H as [H1 H2].
      split; [exact H1|]. intros E. now rewrite <- (H2 E).
    + split; [unfold DQ; lia|discriminate].
Qed.

(** The text of a primitive without pipe has neither newline nor pipe. *)
Lemma format_value_chars (p : Prim) (x : codepoint) :
  pipe_free p -> In x (format_value (VPrim p)) -> x <> NL /\ x <> PIPE.
Proof.
  destruct p as [| b | z | r | s]; cbn [pipe_free format_value]; intros P H.
  - cbn in H. unfold NL, PIPE. intuition (subst; discriminate).
  - destruct b; cbn in H; unfold NL, PIPE; intuition (subst; discriminate).
  - apply str_int_chars in H. unfold NL, PIPE, DASH in *.
    destruct H as [H| ->]; split; try lia; discriminate.
  - pose proof (float_text_delimiter_free r P) as D.
    split; intros ->; [apply (D NL)|apply (D PIPE)];
      (cbn; tauto) || exact H.
  - destruct (needs_quoting s) eqn:Q.
    + apply json_dumps_str_chars in H. destruct H as [H1 H2].
      split; [unfold NL; lia|].
      intros E. apply H2 in E. apply mem_In in E. congruence.
    + apply needs_quoting_false in Q. split.
      * intros ->. apply (Q NL); [cbn; tauto|exact H].
      * intros ->. apply (Q PIPE); [cbn; tauto|exact H].
Qed.

Lemma dropwhile_incl (f : codepoint -> bool) (s : pystr) (x : codepoint) :
  In x (dropwhile f s) -> In x s.
Proof.
  induction s as [|y s IH]; cbn [dropwhile]; [intros []|].
  destruct (f y); [|tauto]. intros H. right. now apply IH.
Qed.

Lemma rstrip_incl (s : pystr) (x : codepoint) : In x (rstrip s) -> In x s.
Proof.
  unfold rstrip. intros H. apply in_rev in H.
  apply dropwhile_incl in H. now apply in_rev.
Qed.

Lemma dropwhile_stop (f : codepoint -> bool) (a : pystr) (c : codepoint)
      (b : pystr) :
  f c = false -> dropwhile f (a ++ c :: b) = dropwhile f a ++ c :: b.
Proof.
  intros H. induction a as [|y a IH]; cbn [dropwhile app].
  - now rewrite H.
  - destruct (f y); [exact IH|reflexivity].
Qed.

Lemma rstrip_mid (a : pystr) (c : codepoint) (b : pystr) :
  is_space c = false -> rstrip (a ++ c :: b) = a ++ c :: rstrip b.
Proof.
  intros H. unfold rstrip.
  rewrite rev_app_distr. cbn [rev]. rewrite <- app_assoc. cbn [app].
  rewrite dropwhile_stop by exact H.
  rewrite rev_app_distr. cbn [rev]. rewrite rev_involutive.
  now rewrite <- app_assoc.
Qed.

Lemma startswith_prefix (p s : pystr) :
  startswith p s = true -> exists r, s = p ++ r.
Proof.
  revert s. induction p as [|a p IH]; intros s; cbn [startswith].
  - now exists s.
  - destruct s as [|b s]; [discriminate|]. intros H.
    apply andb_true_iff in H. destruct H as [E H].
    apply N.eqb_eq in E. subst b.
    destruct (IH s H) as (r & ->). now exists r.
Qed.

Lemma contains_pipe (s : pystr) :
  contains (py " | ") s = true -> In PIPE s.
Proof.
  induction s as [|y s IH]; cbn [contains]; intros H;
    apply orb_true_iff in H; destruct H as [H|H]; try discriminate.
  - apply startswith_prefix in H. destruct H as (r & ->).
    right. now left.
  - right. now apply IH.
Qed.

Lemma split_once_first (c : codepoint) (a b : pystr) :
  mem c a = false -> split_once c (a ++ c :: b) = [a; b].
Proof.
  induction a as [|y a IH]; intros H; cbn [app split_once].
  - now rewrite N.eqb_refl.
  - cbn [mem existsb] in H. apply orb_false_iff in H. destruct H as [Hy Ha].
    rewrite N.eqb_sym in Hy. now rewrite Hy, (IH Ha).
Qed.

Lemma ident_char_facts (c : codepoint) :
  ident_char c = true ->
  is_space c = false /\ c <> COLON /\ c <> NL /\ c <> PIPE /\ c <> DASH /\
  c <> LBRACK /\ c <> SP.
Proof.
  unfold ident_char, is_space, COLON, NL, PIPE, DASH, LBRACK, SP.
  intros H.
  repeat (apply orb_true_iff in H; destruct H as [H|H]);
    try (apply andb_true_iff in H; destruct H as [H1 H2];
         apply N.leb_le in H1, H2);
    try (apply N.eqb_eq in H);
    (split; [|lia]);
    repeat (apply orb_false_iff; split);
    try (apply andb_false_iff);
    try (apply N.eqb_neq; lia);
    try (left; apply N.leb_gt; lia); try (right; apply N.leb_gt; lia).
Qed.

Lemma flat_object_text (row : Row) (indent : nat) :
  row <> [] ->
  json_to_toon (value_of_row row) indent =
    join_lines
      (map (fun kp => indent_of indent ++ quote_key (fst kp) ++ py ": " ++
                      format_value (VPrim (snd kp))) row).
Proof.
  intros Hne. unfold value_of_row.
  assert (E : is_empty (map (fun kp : pystr * Prim =>
                               (fst kp, VPrim (snd kp))) row) = false)
    by (destruct row; [congruence|reflexivity]).
  cbn [json_to_toon]. rewrite E. f_equal. clear Hne E.
  induction row as [|x l IH]; [reflexivity|].
  cbn [map flat_map fst snd app]. now rewrite <- IH.
Qed.

Lemma plain_key_quote (k : pystr) : plain_key k -> quote_key k = k.
Proof.
  intros [_ H]. unfold quote_key.
  assert (M : forall c, (c = SP \/ c = COLON \/ c = NL) -> mem c k = false).
  { intros c Hc. apply mem_false. intros Hin. apply H in Hin.
    apply ident_char_facts in Hin. intuition congruence. }
  now rewrite !M by tauto.
Qed.

(** The stripped form of the line of a plain entry. *)
Lemma plain_line_strip (k : pystr) (p : Prim) :
  plain_entry (k, p) ->
  exists c k' u,
    k = c :: k' /\ ident_char c = true /\
    strip (k ++ py ": " ++ format_value (VPrim p)) = k ++ COLON :: u /\
    forall x, In x (k ++ COLON :: u) -> x <> PIPE.
Proof.
  intros [[Hne Hk] Hp]. cbn [fst snd] in *.
  destruct k as [|c k']; [congruence|].
  assert (Hc : ident_char c = true) by (apply Hk; now left).
  pose proof (ident_char_facts c Hc) as (Hs & _).
  exists c, k', (rstrip (SP :: format_value (VPrim p))).
  split; [reflexivity|]. split; [exact Hc|]. split.
  - unfold strip, lstrip. cbn [app dropwhile]. rewrite Hs.
    change (c :: k' ++ py ": " ++ format_value (VPrim p))
      with ((c :: k') ++ COLON :: SP :: format_value (VPrim p)).
    now apply rstrip_mid.
  - intros x Hx. apply in_app_or in Hx. destruct Hx as [Hx|[<-|Hx]].
    + apply Hk in Hx. apply ident_char_facts in Hx. tauto.
    + discriminate.
    + apply rstrip_incl in Hx. destruct Hx as [<-|Hx]; [discriminate|].
      now apply (format_value_chars p x Hp).
Qed.

(** The line of a plain entry passes the validator. *)
Lemma plain_line_passes (k : pystr) (p : Prim) :
  plain_entry (k, p) ->
  check_line [] 0 (strip (k ++ py ": " ++ format_value (VPrim p)))
    = Ok Continue.
Proof.
  intros H. pose proof H as [[Hne Hk] Hp]. cbn [fst snd] in *.
  destruct (plain_line_strip H) as (c & k' & u & Ek & Hc & Es & Hpipe).
  pose proof (ident_char_facts c Hc) as (Hsp & Hcol & _ & _ & Hdash & Hbr & _).
  set (line := k ++ py ": " ++ format_value (VPrim p)) in *.
  destruct (check_line_cases [] 0 (strip line)) as [C|(msg & _ & D)];
    [exact C|exfalso].
  assert (St : strip (strip line) = (c :: k') ++ COLON :: u)
    by (rewrite strip_idem, Es, Ek; reflexivity).
  destruct D as [(D1 & _)|(D1 & _)|(_ & key & rest & D2 & D3)|(D1 & _)];
    cbv zeta in *; rewrite St in *.
  - apply contains_pipe in D1. rewrite <- Ek in D1. now apply Hpipe in D1.
  - change (startswith (py "-") ((c :: k') ++ COLON :: u))
      with (N.eqb DASH c && true) in D1.
    apply andb_true_iff in D1. destruct D1 as [D1 _].
    apply N.eqb_eq in D1. congruence.
  - rewrite split_once_first in D2.
    + injection D2 as <- _.
      apply (proj1 (strip_nil_iff (c :: k'))) with (c := c) in D3;
        [congruence|now left].
    + apply mem_false. intros Hin. rewrite <- Ek in Hin.
      apply Hk, ident_char_facts in Hin. tauto.
  - change (startswith (py "[") ((c :: k') ++ COLON :: u))
      with (N.eqb LBRACK c && true) in D1.
    apply andb_true_iff in D1. destruct D1 as [D1 _].
    apply N.eqb_eq in D1. congruence.
Qed.

Lemma plain_line_no_newline (k : pystr) (p : Prim) :
  plain_entry (k, p) ->
  mem NL (k ++ py ": " ++ format_value (VPrim p)) = false.
Proof.
  intros [[_ Hk] Hp]. cbn [fst snd] in *. apply mem_false. intros H.
  apply in_app_or in H. destruct H as [H|[H|[H|H]]]; try discriminate H.
  - apply Hk, ident_char_facts in H. tauto.
  - now apply (format_value_chars p NL Hp) in H.
Qed.

Lemma plain_key_good (k : pystr) : plain_key k -> good_key k.
Proof.
  intros [Hne Hk]. split; [exact Hne|]. split.
  - apply mem_false. intros H. apply Hk, ident_char_facts in H. tauto.
  - destruct k as [|c k]; [congruence|].
    pose proof (ident_char_facts c (Hk c (or_introl eq_refl)))
      as (Hs & _ & _ & _ & Hd & _).
    unfold lstrip. cbn [dropwhile]. rewrite Hs.
    change (startswith (py "-") (c :: k)) with (N.eqb DASH c && true).
    destruct (N.eqb_spec DASH c); [congruence|reflexivity].
Qed.

Lemma flat_object_lines (row : Row) :
  row <> [] -> Forall plain_entry row ->
  json_to_toon (value_of_row row) 0 =
    join_lines
      (map (fun kp => fst kp ++ py ": " ++ format_value (VPrim (snd kp)))
         row).
Proof.
  intros Hne Hrow. rewrite (flat_object_text 0 Hne). f_equal.
  apply map_ext_in. intros [k p] Hin. cbn [fst snd].
  rewrite Forall_forall in Hrow. apply Hrow in Hin.
  destruct Hin as [Hk _]. cbn [fst] in Hk.
  now rewrite (plain_key_quote Hk).
Qed.

Lemma flat_object_verified (row : Row) :
  row <> [] -> Forall plain_entry row ->
  verify_toon_roundtrip (value_of_row row) (json_to_toon (value_of_row row) 0)
    = Some (true, None).
Proof.
  intros Hne Hrow. rewrite (flat_object_lines Hne Hrow).
  set (lines := map (fun kp => fst kp ++ py ": " ++
                               format_value (VPrim (snd kp))) row).
  assert (Ln : lines <> []).
  { unfold lines. destruct row; [congruence|discriminate]. }
  assert (Sp : split_lines (join_lines lines) = lines).
  { apply split_join_pieces; [exact Ln|]. unfold lines.
    apply Forall_forall. intros l Hl. apply in_map_iff in Hl.
    destruct Hl as ([k p] & <- & Hin). rewrite Forall_forall in Hrow.
    apply plain_line_no_newline. now apply Hrow. }
  destruct row as [|[k p] row']; [congruence|].
  assert (Hkp : plain_entry (k, p)) by (inversion Hrow; assumption).
  assert (Nb : strip (join_lines lines) <> []).
  { destruct (plain_line_strip Hkp) as (c & k' & u & -> & Hc & _).
    apply strip_nonblank_iff. exists c. split.
    - apply in_join_part
        with (p := (c :: k') ++ py ": " ++ format_value (VPrim p));
        now left.
    - apply ident_char_facts in Hc. tauto. }
  assert (A : accepts (join_lines lines)).
  { apply lines_accepts; [exact Nb|]. rewrite Sp. intros l Hl.
    unfold lines in Hl. apply in_map_iff in Hl.
    destruct Hl as ([k1 p1] & <- & Hin). rewrite Forall_forall in Hrow.
    apply plain_line_passes. now apply Hrow. }
  assert (K : toon_keys_of (join_lines lines) <> []).
  { apply toon_keys_nonempty
      with (line := k ++ py ": " ++ format_value (VPrim p)).
    - rewrite Sp. now left.
    - pose proof (proj1 Hkp) as Hk. cbn [fst] in Hk.
      rewrite <- (plain_key_quote Hk) at 1.
      apply (@good_key_line k (SP :: format_value (VPrim p))).
      now apply plain_key_good. }
  unfold verify_toon_roundtrip.
  destruct (strip (join_lines lines)) as [|s0 s1] eqn:Es; [congruence|].
  rewrite andb_false_r. unfold value_of_row. cbn [no_keys_found].
  destruct (toon_keys_of (join_lines lines)); [congruence|].
  cbn [length Nat.eqb]. rewrite andb_false_r.
  unfold accepts in A. now rewrite A.
Qed.

(** X7: a flat object whose keys are made of letters, digits and
    underscores and whose values are primitives without pipe character
    goes through the pipeline: it is written with one line
    [key: value] per entry, in the order of the entries, and the
    verifier finds the text valid. *)
Theorem flat_object_accepted (row : Row) :
  row <> [] -> Forall plain_entry row ->
  json_to_toon (value_of_row row) 0 =
    join_lines
      (map (fun kp => fst kp ++ py ": " ++ format_value (VPrim (snd kp)))
         row) /\
  verify_toon_roundtrip (value_of_row row) (json_to_toon (value_of_row row) 0)
    = Some (true, None).
Proof.
  intros Hne Hrow. split.
  - now apply flat_object_lines.
  - now apply flat_object_verified.
Qed.

Lemma flat_object_accepted_witness :
  let row := [(py "id", PInt 7); (py "name", PStr (py "a: b"));
              (py "ok", PBool true); (py "note", PNull)] in
  verify_toon_roundtrip (value_of_row row) (json_to_toon (value_of_row row) 0)
    = Some (true, None).
Proof.
  cbv zeta.
  refine (proj2 (@flat_object_accepted
                   [(py "id", PInt 7); (py "name", PStr (py "a: b"));
                    (py "ok", PBool true); (py "note", PNull)] _ _)).
  - discriminate.
  - repeat constructor; try discriminate;
      cbn [fst In]; intros c H;
      repeat (destruct H as [<-|H]; [reflexivity|]); destruct H.
Defined.

(** ** Blank output *)

Lemma colon_not_blank (s : pystr) : In COLON s -> strip s <> [].
Proof.
  intros H. apply strip_nonblank_iff. now exists COLON.
Qed.

(** X8: the text of a non-empty object is never blank: it holds a colon.
    So the verifier never answers [TOON output is empty but input had
    data] for an object and the text of the encoder. *)
Theorem object_text_not_blank (entries : list (pystr * Value)) :
  entries <> [] ->
  let text := json_to_toon (VDict entries) 0 in
  In COLON text /\ strip text <> [] /\
  verify_toon_roundtrip (VDict entries) text
    <> Some (false, Some (py "TOON output is empty but input had data")).
Proof.
  intros Hne. cbv zeta.
  destruct entries as [|[k v] entries]; [congruence|].
  destruct (@dict_entry_line ((k, v) :: entries) k v (or_introl eq_refl))
    as (parts & u & E & Hp).
  assert (C : In COLON (json_to_toon (VDict ((k, v) :: entries)) 0)).
  { rewrite E. eapply in_join_part; [exact Hp|].
    apply in_or_app. right. now left. }
  pose proof (colon_not_blank _ C) as Nb.
  split; [exact C|]. split; [exact Nb|].
  unfold verify_toon_roundtrip.
  destruct (strip (json_to_toon (VDict ((k, v) :: entries)) 0)) eqn:Es;
    [congruence|].
  rewrite andb_false_r.
  destruct (no_keys_found _ _); [intros [= F]|].
  destruct (validate_toon_cases (json_to_toon (VDict ((k, v) :: entries)) 0))
    as [[B _]|[(_ & H & _)|(_ & j & l & m & _ & Hs & H)]].
  - congruence.
  - unfold accepts in H. rewrite H. discriminate.
  - rewrite H. cbn [negb]. intros [= F].
    apply shape_defect_head_T in Hs. rewrite F in Hs. now apply Hs.
Qed.

Lemma object_text_not_blank_witness :
  strip (json_to_toon (VDict [([], VStr [])]) 0) <> [].
Proof.
  apply (@object_text_not_blank [([], VStr [])]). discriminate.
Defined.

(** X9: a string that is empty or made of white space without a newline
    cannot be converted at the top level: it is written as it is, and the
    verifier rejects the blank text, with the message of the validator
    for the empty string and with its own for the others. *)
Theorem blank_string_rejected (s : pystr) :
  strip s = [] -> mem NL s = false ->
  json_to_toon (VStr s) 0 = s /\
  verify_toon_roundtrip (VStr s) (json_to_toon (VStr s) 0) =
    Some (false,
          Some (if is_empty s then py "TOON data is empty"
                else py "TOON output is empty but input had data")).
Proof.
  intros B Hnl.
  assert (Q : needs_quoting s = false).
  { apply needs_quoting_false. intros c Hc Hs.
    pose proof (proj1 (strip_nil_iff s) B c Hs) as Sp.
    apply mem_false in Hnl.
    cbn [special_chars In] in Hc.
    destruct Hc as [<-|[<-|[<-|[<-|[<-|[<-|[<-|[<-|[]]]]]]]]];
      try discriminate Sp. now apply Hnl. }
  assert (T : json_to_toon (VStr s) 0 = s).
  { unfold VStr. cbn [json_to_toon format_value]. now rewrite Q. }
  split; [exact T|]. rewrite T. unfold verify_toon_roundtrip.
  rewrite B. cbn [is_empty andb]. rewrite andb_true_r.
  unfold VStr at 1. cbn [truthy].
  destruct s as [|c s]; cbn [is_empty negb]; [|reflexivity].
  reflexivity.
Qed.

Lemma blank_string_rejected_witness :
  verify_toon_roundtrip (VStr (py "  ")) (json_to_toon (VStr (py "  ")) 0) =
    Some (false, Some (py "TOON output is empty but input had data")).
Proof.
  apply (proj2 (@blank_string_rejected (py "  ") eq_refl eq_refl)).
Defined.

(** ** Text that does not tell the type *)

Lemma format_value_unquoted (p : Prim) :
  unquoted p -> needs_quoting (format_value (VPrim p)) = false.
Proof.
  intros U. apply needs_quoting_false.
  destruct p as [| b | z | r | s]; cbn [unquoted format_value] in *.
  - intros c Hc H. cbn [In special_chars] in Hc.
    intuition (subst; vm_compute in H; intuition discriminate).
  - intros c Hc H. cbn [In special_chars] in Hc.
    destruct b; intuition (subst; vm_compute in H; intuition discriminate).
  - apply str_int_delimiter_free.
  - now apply float_text_delimiter_free.
  - rewrite U. now apply needs_quoting_false.
Qed.

Lemma format_value_str_unquoted (s : pystr) :
  needs_quoting s = false -> format_value (VStr s) = s.
Proof.
  intros H. unfold VStr, format_value. now rewrite H.
Qed.

(** X10: the text does not tell a string from another primitive: the
    string that spells [null], [true], [false] or a number, and more
    generally the text of any primitive that is written without quotes,
    is written exactly like that primitive, at any place where a scalar
    is formatted. *)
Theorem scalar_text_loses_type (p : Prim) (indent : nat) :
  unquoted p ->
  format_value (VStr (format_value (VPrim p))) = format_value (VPrim p) /\
  json_to_toon (VStr (format_value (VPrim p))) indent =
    json_to_toon (VPrim p) indent /\
  table_cell (PStr (format_value (VPrim p))) = table_cell p.
Proof.
  intros U. pose proof (format_value_unquoted p U) as Q.
  assert (F : format_value (VStr (format_value (VPrim p)))
              = format_value (VPrim p))
    by (now apply format_value_str_unquoted).
  split; [exact F|]. split; [exact F|].
  assert (D := proj1 (needs_quoting_false _) Q).
  assert (M : mem PIPE (format_value (VPrim p)) || mem NL (format_value (VPrim p))
              = false).
  { apply orb_false_iff. split; apply mem_false; apply D; cbn; tauto. }
  cbn [table_cell]. rewrite M.
  destruct p as [| b | z | r | s]; try reflexivity.
  cbn [unquoted] in U. cbn [format_value table_cell]. rewrite U.
  cbn [format_value] in M. rewrite U in M. now rewrite M.
Qed.

Lemma scalar_text_loses_type_witness :
  json_to_toon (VStr (py "null")) 0 = json_to_toon VNull 0 /\
  json_to_toon (VStr (py "-12")) 0 = json_to_toon (VInt (-12)) 0.
Proof.
  split.
  - apply (proj1 (proj2 (@scalar_text_loses_type PNull 0 I))).
  - apply (proj1 (proj2 (@scalar_text_loses_type (PInt (-12)) 0 I))).
Defined.

(** ** Items of an array written one by one *)

Lemma lstrip_spaces (m : nat) (x : pystr) :
  lstrip (repeat SP m ++ x) = lstrip x.
Proof.
  unfold lstrip. induction m as [|m IH]; [reflexivity|exact IH].
Qed.

(** A line hung under a dash has one more level of indentation than the
    dash, whatever indentation it had before. *)
Lemma indent_width_hanging (indent : nat) (l : pystr) :
  indent_width (indent_of indent ++ py "  " ++ lstrip l) = 2 * indent + 2.
Proof.
  unfold indent_width, indent_of.
  change (repeat SP (2 * indent) ++ py "  " ++ lstrip l)
    with (repeat SP (2 * indent) ++ repeat SP 2 ++ lstrip l).
  rewrite !lstrip_spaces. unfold lstrip at 2. rewrite dropwhile_idem.
  fold (lstrip l). rewrite !length_app, !repeat_length. lia.
Qed.

(** X11: in an array written item by item, every line is the bare dash
    of an item that is a non-empty array or object, or the dash and text
    of another item, or a line of a non-empty item hung under its dash;
    and every line hung under a dash has exactly one more level of
    indentation than the dash, however deep it was in the item: the
    indentation inside an item is not kept. *)
Theorem list_item_lines_flat (items : list Value) (indent : nat) :
  forallb is_primitive items = false ->
  tabular_detector items = false ->
  exists parts,
    json_to_toon (VList items) indent = join_lines parts /\
    Forall
      (fun part =>
         part = indent_of indent ++ py "-" \/
         (exists item,
             In item items /\ is_nonempty_collection item = false /\
             part = indent_of indent ++ py "- " ++ json_to_toon item indent) \/
         (exists item line,
             In item items /\ is_nonempty_collection item = true /\
             In line (split_lines (json_to_toon item indent)) /\
             strip line <> [] /\
             part = indent_of indent ++ py "  " ++ lstrip line /\
             indent_width part = 2 * indent + 2))
      parts.
Proof.
  intros Hp Ht.
  destruct items as [|i items]; [discriminate Hp|].
  assert (Ha : as_table (i :: items) = None).
  { unfold tabular_detector, is_tabular in Ht. cbn [is_empty negb andb] in Ht.
    destruct (as_table (i :: items)); [discriminate|reflexivity]. }
  cbn [json_to_toon is_empty]. rewrite Hp, Ha.
  eexists. split; [reflexivity|].
  apply Forall_forall. intros part Hin.
  apply in_flat_map in Hin. destruct Hin as (item & Hitem & Hin).
  destruct (is_nonempty_collection item) eqn:Hc.
  - destruct Hin as [<-|Hin]; [now left|].
    right. right. apply in_map_iff in Hin.
    destruct Hin as (line & <- & Hl). apply filter_In in Hl.
    destruct Hl as [Hl Hs]. exists item, line.
    repeat split; try assumption.
    + intros E. rewrite E in Hs. discriminate Hs.
    + apply indent_width_hanging.
  - destruct Hin as [<-|[]]. right. left. now exists item.
Qed.

Lemma list_item_lines_flat_witness :
  let items := [VDict [(py "a", VDict [(py "b", VInt 1)])]] in
  exists parts,
    json_to_toon (VList items) 0 = join_lines parts /\
    Forall
      (fun part =>
         part = indent_of 0 ++ py "-" \/
         (exists item,
             In item items /\ is_nonempty_collection item = false /\
             part = indent_of 0 ++ py "- " ++ json_to_toon item 0) \/
         (exists item line,
             In item items /\ is_nonempty_collection item = true /\
             In line (split_lines (json_to_toon item 0)) /\
             strip line <> [] /\
             part = indent_of 0 ++ py "  " ++ lstrip line /\
             indent_width part = 2 * 0 + 2))
      parts.
Proof.
  cbv zeta. apply list_item_lines_flat; reflexivity.
Defined.

(** ** What the verifier looks at *)

Lemma py_set_add_fold_nonempty (l : list pystr) :
  forall acc : py_set,
    acc <> [] \/ l <> [] ->
    fold_left (fun s x => py_set_add x s) l acc <> [].
Proof.
  induction l as [|x l IH]; intros acc H; cbn [fold_left].
  - destruct H as [H|H]; [exact H|congruence].
  - apply IH. left. apply set_add_not_empty.
Qed.

Lemma json_keys_nonempty (entries : list (pystr * Value)) :
  (0 <? length (py_set_of (map fst entries)))%nat = negb (is_empty entries).
Proof.
  destruct entries as [|e entries]; [reflexivity|].
  cbn [is_empty negb]. unfold py_set_of.
  destruct (fold_left (fun s x => py_set_add x s) (map fst (e :: entries))
              (empty_set pystr)) eqn:E; [|reflexivity].
  exfalso. revert E. apply py_set_add_fold_nonempty. right. discriminate.
Qed.

(** X12: the verifier looks at the value only for its truth and for
    whether it is an object: two values that agree on both get the same
    verdict on every text.  The keys and the values of an object are
    never compared with the text. *)
Theorem verify_ignores_content (v1 v2 : Value) (toon_data : pystr) :
  truthy v1 = truthy v2 -> is_dict v1 = is_dict v2 ->
  verify_toon_roundtrip v1 toon_data = verify_toon_roundtrip v2 toon_data.
Proof.
  intros Ht Hd. unfold verify_toon_roundtrip. rewrite Ht.
  assert (N : no_keys_found v1 toon_data = no_keys_found v2 toon_data).
  { destruct v1 as [p1|l1|e1], v2 as [p2|l2|e2]; try discriminate Hd;
      try reflexivity.
    cbn [no_keys_found truthy] in *. rewrite !json_keys_nonempty.
    now rewrite Ht. }
  now rewrite N.
Qed.

Lemma verify_ignores_content_witness :
  verify_toon_roundtrip (VDict [(py "x", VInt 1)])
    (json_to_toon (VDict [(py "other", VStr (py "text"))]) 0) =
  verify_toon_roundtrip (VDict [(py "other", VStr (py "text"))])
    (json_to_toon (VDict [(py "other", VStr (py "text"))]) 0).
Proof.
  apply verify_ignores_content; reflexivity.
Defined.

(** ** The conversion endpoint *)

Lemma verify_returns (v : Value) (t : pystr) :
  exists is_valid msg,
    verify_toon_roundtrip v t = Some (is_valid, msg) /\
    (is_valid = false -> exists m, msg = Some m).
Proof.
  unfold verify_toon_roundtrip.
  destruct (truthy v && is_empty (strip t)).
  { do 2 eexists. split; [reflexivity|]. intros _. now eexists. }
  destruct (no_keys_found v t).
  { do 2 eexists. split; [reflexivity|]. intros _. now eexists. }
  destruct (validate_toon_cases t)
    as [[_ H]|[(_ & H & _)|(_ & j & l & m & _ & _ & H)]].
  - rewrite H. do 2 eexists. split; [reflexivity|]. intros _. now eexists.
  - unfold accepts in H. rewrite H. do 2 eexists.
    split; [reflexivity|]. discriminate.
  - rewrite H. do 2 eexists. split; [reflexivity|]. intros _. now eexists.
Qed.

Lemma allowed_file_json_name (name : pystr) :
  json_name name <-> allowed_file name = Ok true.
Proof.
  unfold json_name. split.
  - intros (stem & ext & -> & J).
    rewrite (@allowed_file_last stem ext (json_extension_no_dot J)).
    f_equal. apply pystr_eqb_true. now apply lower_json.
  - intros H. destruct (mem DOT name) eqn:M.
    + destruct (@last_occurrence DOT name M) as (stem & ext & -> & Hext).
      rewrite (@allowed_file_last stem ext Hext) in H. injection H as H.
      apply pystr_eqb_true, lower_json in H. now exists stem, ext.
    + unfold allowed_file in H. rewrite M in H. discriminate H.
Qed.

Lemma allowed_file_ok (name : pystr) : exists b, allowed_file name = Ok b.
Proof.
  destruct (mem DOT name) eqn:M.
  - destruct (@last_occurrence DOT name M) as (stem & ext & -> & Hext).
    rewrite (@allowed_file_last stem ext Hext). now eexists.
  - unfold allowed_file. rewrite M. now eexists.
Qed.

Lemma encoder_within (limit : nat) (v : Value) (indent : nat) :
  activations v <= limit ->
  json_to_toon_limited limit v indent = Ok (json_to_toon v indent).
Proof.
  intros H. rewrite json_to_toon_limited_spec.
  destruct (Nat.leb_spec (activations v) limit); [reflexivity|lia].
Qed.

Lemma encoder_beyond (limit : nat) (v : Value) (indent : nat) :
  limit < activations v ->
  json_to_toon_limited limit v indent = Err recursion_error.
Proof.
  intros H. rewrite json_to_toon_limited_spec.
  destruct (Nat.leb_spec (activations v) limit); [lia|reflexivity].
Qed.

Lemma verify_true_None (v : Value) (t : pystr) (msg : option pystr) :
  verify_toon_roundtrip v t = Some (true, msg) -> msg = None.
Proof.
  unfold verify_toon_roundtrip.
  destruct (truthy v && is_empty (strip t)); [discriminate|].
  destruct (no_keys_found v t); [discriminate|].
  destruct (validate_toon t) as [[b1 m1]|]; [|discriminate].
  destruct b1; cbn [negb]; congruence.
Qed.



Lemma activations_row (row : Row) : activations (value_of_row row) = 1.
Proof.
  unfold value_of_row. cbn [activations]. f_equal.
  induction row as [|[k p] row IH]; [reflexivity|].
  cbn [map list_max fold_right fst snd] in *.
  change (fold_right Nat.max 0) with list_max. rewrite IH. reflexivity.
Qed.



(** ** Lines of no known shape *)

Lemma unrecognised_passes (lines : list pystr) (i : nat) (line : pystr) :
  unrecognised line -> check_line lines i line = Ok Continue.
Proof.
  intros (Hp & Hc & Hd & Hb).
  destruct (check_line_cases lines i line) as [C|(msg & _ & D)];
    [exact C|exfalso].
  destruct D as [(D1 & _)|(D1 & _)|(D1 & _)|(D1 & D2 & _)]; cbv zeta in *.
  - apply contains_pipe in D1. contradiction.
  - congruence.
  - apply mem_In in D1. contradiction.
  - rewrite D1, D2 in Hb. discriminate Hb.
Qed.

(** X15: the validator never rejects what it does not recognise: a text
    that is not blank and whose lines, when not blank, have none of the
    known shapes (no pipe, no colon, no leading dash, not bracketed) is
    accepted, whatever it says. *)
Theorem validator_lenient (toon_data : pystr) :
  strip toon_data <> [] ->
  (forall line, In line (split_lines toon_data) -> unrecognised line) ->
  accepts toon_data.
Proof.
  intros Hne Hall. apply lines_accepts; [exact Hne|].
  intros line Hin. apply unrecognised_passes.
  specialize (Hall line Hin). unfold unrecognised in *.
  now rewrite strip_idem.
Qed.

Lemma validator_lenient_witness :
  accepts (py "this is not TOON" ++ NL :: py "   } nor this {").
Proof.
  apply validator_lenient; [discriminate|].
  intros line [<-|[<-|[]]]; (split; [|split; [|split]]);
    try reflexivity; vm_compute; intuition discriminate.
Defined.

(** ** Uniform tables through the pipeline *)

Lemma startswith_sep_pipe (x : codepoint) (s : pystr) :
  startswith (py " | ") (x :: s) = true -> hd 0%N s = PIPE.
Proof.
  intros H. apply startswith_prefix in H. destruct H as (r & E).
  injection E as _ ->. reflexivity.
Qed.

(** Scanning a piece without pipe: no separator begins inside it. *)
Lemma split_str_piece_end (cell cur : pystr) :
  ~ In PIPE cell ->
  split_str_aux (py " | ") cell 0 cur = [rev cur ++ cell].
Proof.
  revert cur. induction cell as [|x cell IH]; intros cur Hp;
    cbn [split_str_aux].
  - now rewrite app_nil_r.
  - destruct (startswith (py " | ") (x :: cell)) eqn:E.
    + exfalso. apply startswith_sep_pipe in E. apply Hp. right.
      destruct cell as [|y cell]; [discriminate E|]. left. exact E.
    + rewrite IH by (intros H; apply Hp; now right).
      cbn [rev]. now rewrite <- app_assoc.
Qed.

Lemma split_str_piece_sep (cell rest cur : pystr) :
  ~ In PIPE cell ->
  split_str_aux (py " | ") (cell ++ py " | " ++ rest) 0 cur =
    (rev cur ++ cell) :: split_str_aux (py " | ") rest 0 [].
Proof.
  revert cur. induction cell as [|x cell IH]; intros cur Hp.
  - rewrite app_nil_r. reflexivity.
  - cbn [app split_str_aux].
    destruct (startswith (py " | ") (x :: cell ++ py " | " ++ rest)) eqn:E.
    + exfalso. apply startswith_sep_pipe in E.
      destruct cell as [|y cell]; [discriminate E|].
      apply Hp. right. left. exact E.
    + rewrite IH by (intros H; apply Hp; now right).
      cbn [rev]. now rewrite <- app_assoc.
Qed.

(** Splitting a row on the separator gives back the cells, when no cell
    holds a pipe. *)
Lemma split_str_join (cells : list pystr) :
  cells <> [] -> Forall (fun cell => ~ In PIPE cell) cells ->
  split_str (py " | ") (join (py " | ") cells) = cells.
Proof.
  intros Hne H. unfold split_str. revert Hne.
  induction H as [|c cells Hc _ IH]; intros Hne; [now destruct Hne|].
  destruct cells as [|d cells].
  - cbn [join]. now rewrite split_str_piece_end.
  - change (join (py " | ") (c :: d :: cells))
      with (c ++ py " | " ++ join (py " | ") (d :: cells)).
    rewrite split_str_piece_sep by exact Hc.
    now rewrite IH by discriminate.
Qed.

Lemma strip_ends (c d : codepoint) (m m' : pystr) :
  c :: m = m' ++ [d] -> is_space c = false -> is_space d = false ->
  strip (c :: m) = c :: m.
Proof.
  intros E Hc Hd. unfold strip, lstrip. cbn [dropwhile]. rewrite Hc, E.
  rewrite rstrip_mid by exact Hd. reflexivity.
Qed.

Lemma strip_no_space (s : pystr) :
  (forall x, In x s -> is_space x = false) -> strip s = s.
Proof.
  intros H. destruct s as [|c m]; [reflexivity|].
  destruct (@exists_last _ (c :: m)) as (m' & d & E); [discriminate|].
  apply strip_ends with (d := d) (m' := m'); [exact E| |].
  - apply H. now left.
  - apply H. rewrite E. apply in_or_app. right. now left.
Qed.

Lemma join_last (sep : pystr) (init : list pystr) (a : pystr) :
  exists pre, join sep (init ++ [a]) = pre ++ a.
Proof.
  induction init as [|b init IH].
  - now exists [].
  - destruct IH as (pre & E). cbn [app].
    destruct (init ++ [a]) as [|x l] eqn:El.
    + destruct init; discriminate El.
    + change (join sep (b :: x :: l)) with (b ++ sep ++ join sep (x :: l)).
      rewrite E. exists (b ++ sep ++ pre). now rewrite <- !app_assoc.
Qed.

Lemma strip_join (sep : pystr) (cells : list pystr) :
  cells <> [] ->
  Forall (fun t => t <> [] /\ forall x, In x t -> is_space x = false) cells ->
  strip (join sep cells) = join sep cells.
Proof.
  intros Hne H.
  destruct (@exists_last _ cells Hne) as (init & a & E).
  assert (Ha : a <> [] /\ forall x, In x a -> is_space x = false).
  { rewrite Forall_forall in H. apply H. rewrite E.
    apply in_or_app. right. now left. }
  destruct Ha as [Hane Ha].
  destruct (@exists_last _ a Hane) as (a' & d & Ea).
  destruct (join_last sep init a) as (pre & Ej).
  assert (J1 : join sep cells = (pre ++ a') ++ [d]).
  { rewrite E, Ej, Ea. now rewrite app_assoc. }
  assert (J2 : exists c m, join sep cells = c :: m /\ is_space c = false).
  { clear - H Hne. destruct cells as [|c1 rest]; [congruence|].
    assert (H1 : c1 <> [] /\ forall x, In x c1 -> is_space x = false)
      by (inversion H; assumption).
    destruct H1 as [H1ne H1]. destruct c1 as [|c m1]; [congruence|].
    exists c. destruct rest; cbn [join app]; eexists;
      (split; [reflexivity|]); apply H1; now left. }
  destruct J2 as (c & m & J2 & Hc). rewrite J2.
  apply strip_ends with (d := d) (m' := pre ++ a').
  - now rewrite <- J2.
  - exact Hc.
  - apply Ha. rewrite Ea. apply in_or_app. right. now left.
Qed.

(** A row of plain cells is its own stripped form. *)
Lemma strip_row (cells : list pystr) :
  cells <> [] -> Forall plain_cell cells ->
  strip (join (py " | ") cells) = join (py " | ") cells.
Proof.
  intros Hne H. apply strip_join; [exact Hne|].
  apply Forall_forall. intros t Hin. rewrite Forall_forall in H.
  destruct (H t Hin) as [Htne Hc]. split; [exact Htne|].
  intros x Hx. now apply Hc.
Qed.

Lemma contains_app (p a r : pystr) : contains p (a ++ p ++ r) = true.
Proof.
  induction a as [|x a IH]; cbn [app].
  - assert (S : startswith p (p ++ r) = true).
    { induction p as [|y p IHp]; [reflexivity|].
      cbn [app startswith]. now rewrite N.eqb_refl, IHp. }
    destruct (p ++ r) as [|y l]; cbn [contains]; now rewrite S.
  - cbn [contains]. rewrite IH. apply orb_true_r.
Qed.

(** A row of two or more plain cells passes the validator. *)
Lemma plain_row_passes (cells : list pystr) :
  2 <= length cells -> Forall plain_cell cells ->
  check_line [] 0 (strip (join (py " | ") cells)) = Ok Continue.
Proof.
  intros Hlen H.
  assert (Hne : cells <> []) by (intros ->; cbn in Hlen; lia).
  assert (Hp : Forall (fun cell => ~ In PIPE cell) cells).
  { apply Forall_forall. intros cell Hin Hx. rewrite Forall_forall in H.
    destruct (H cell Hin) as [_ Hc]. apply Hc in Hx. tauto. }
  assert (M : map strip cells = cells).
  { rewrite <- (map_id cells) at 2.
    apply map_ext_in. intros cell Hin. apply strip_no_space.
    intros x Hx. rewrite Forall_forall in H.
    destruct (H cell Hin) as [_ Hc]. now apply Hc. }
  assert (F : forallb nonempty cells = true).
  { apply forallb_forall. intros cell Hin. rewrite Forall_forall in H.
    destruct (H cell Hin) as [Hcne _]. now destruct cell. }
  assert (Er : exists c m1 r,
             join (py " | ") cells = (c :: m1) ++ py " | " ++ r).
  { clear - H Hlen. destruct cells as [|c1 [|c2 rest]];
      try (cbn in Hlen; lia).
    assert (H1 : plain_cell c1) by (inversion H; assumption).
    destruct H1 as [H1ne _]. destruct c1 as [|c m1]; [congruence|].
    now exists c, m1, (join (py " | ") (c2 :: rest)). }
  destruct Er as (c & m1 & r & Er).
  pose proof (strip_row Hne H) as Es.
  pose proof (split_str_join Hne Hp) as Sj.
  remember (join (py " | ") cells) as row eqn:Erow.
  unfold check_line. rewrite strip_idem, Es.
  assert (C : contains (py " | ") row = true)
    by (rewrite Er; apply contains_app).
  assert (Ne : is_empty row = false) by (rewrite Er; reflexivity).
  rewrite Ne, C. cbn [andb].
  destruct (startswith (py "-") row) eqn:D; cbn [negb].
  - assert (Nc : strip (slice_from1 row) <> []).
    { apply strip_nonblank_iff. exists PIPE. split; [|reflexivity].
      rewrite Er. cbn [app slice_from1 tl].
      apply in_or_app. right. right. now left. }
    destruct (strip (slice_from1 row)); [congruence|reflexivity].
  - rewrite Sj, M, F. destruct cells; [congruence|reflexivity].
Qed.

Lemma table_text (first : Row) (rest : list Row) (indent : nat) :
  Forall (fun r => r <> []) (first :: rest) ->
  json_to_toon (VList (map value_of_row (first :: rest))) indent =
    join_lines (table_lines (indent_of indent) (first :: rest)).
Proof.
  intros H.
  assert (E : as_table (map value_of_row (first :: rest))
              = Some (first :: rest))
    by (apply as_table_Some; now split).
  cbn [map] in *.
  cbn [json_to_toon is_empty forallb is_primitive value_of_row andb].
  fold (value_of_row first). now rewrite E.
Qed.

Lemma plain_row_no_newline (cells : list pystr) :
  Forall plain_cell cells -> mem NL (join (py " | ") cells) = false.
Proof.
  intros H. apply mem_false. intros Hin. apply in_join in Hin.
  destruct Hin as [(cell & Hc & Hx)|Hx].
  - rewrite Forall_forall in H. destruct (H cell Hc) as [_ Hs].
    destruct (Hs NL Hx) as [Hsp _]. discriminate Hsp.
  - cbn in Hx. intuition discriminate.
Qed.

(** X16: a uniform table goes through the pipeline.  When the keys of
    the first element (two or more) and all the cells of all the rows
    are not empty and hold neither white space nor pipe, the array is
    written as the header and one row per element, cells joined by the
    separator, and the verifier finds the text valid. *)
Theorem uniform_table_accepted (first : Row) (rest : list Row) :
  let rows := first :: rest in
  let keys := map fst first in
  Forall (fun r => r <> []) rows ->
  2 <= length keys ->
  Forall plain_cell keys ->
  Forall (fun r => Forall plain_cell (row_cells keys r)) rows ->
  split_lines (json_to_toon (VList (map value_of_row rows)) 0) =
    join (py " | ") keys
      :: map (fun r => join (py " | ") (row_cells keys r)) rows /\
  verify_toon_roundtrip (VList (map value_of_row rows))
    (json_to_toon (VList (map value_of_row rows)) 0) = Some (true, None).
Proof.
  cbv zeta. intros Hrows Hlen Hkeys Hcells.
  set (rows := first :: rest) in *. set (keys := map fst first) in *.
  set (lines := join (py " | ") keys
                  :: map (fun r => join (py " | ") (row_cells keys r)) rows).
  assert (T : json_to_toon (VList (map value_of_row rows)) 0
              = join_lines lines).
  { unfold rows. rewrite (table_text 0 Hrows). reflexivity. }
  assert (P : forall l, In l lines ->
                        exists cells, l = join (py " | ") cells /\
                                      2 <= length cells /\
                                      Forall plain_cell cells).
  { intros l [<-|Hl].
    - now exists keys.
    - apply in_map_iff in Hl. destruct Hl as (r & <- & Hr).
      exists (row_cells keys r). split; [reflexivity|]. split.
      + unfold row_cells. now rewrite length_map.
      + rewrite Forall_forall in Hcells. now apply Hcells. }
  assert (Sp : split_lines (join_lines lines) = lines).
  { apply split_join_pieces; [discriminate|].
    apply Forall_forall. intros l Hl.
    destruct (P l Hl) as (cells & -> & _ & Hc).
    now apply plain_row_no_newline. }
  rewrite T, Sp. split; [reflexivity|].
  assert (Nb : strip (join_lines lines) <> []).
  { destruct keys as [|k ks] eqn:Ek; [cbn in Hlen; lia|].
    assert (Hk : plain_cell k) by (inversion Hkeys; assumption).
    destruct Hk as [Hkne Hk]. destruct k as [|c k']; [congruence|].
    apply strip_nonblank_iff. exists c. split.
    - apply in_join_part with (p := join (py " | ") ((c :: k') :: ks));
        [now left|].
      destruct ks; cbn [join app]; now left.
    - apply Hk. now left. }
  assert (A : accepts (join_lines lines)).
  { apply lines_accepts; [exact Nb|]. rewrite Sp. intros l Hl.
    destruct (P l Hl) as (cells & -> & Hn & Hc).
    now apply plain_row_passes. }
  unfold verify_toon_roundtrip.
  destruct (strip (join_lines lines)); [congruence|].
  rewrite andb_false_r. cbn [no_keys_found].
  unfold accepts in A. now rewrite A.
Qed.

Lemma uniform_table_accepted_witness :
  let first := [(py "a", PInt 1); (py "b", PStr (py "x:y"))] in
  let rest := [[(py "b", PNull); (py "a", PInt (-3)); (py "c", PInt 0)]] in
  verify_toon_roundtrip (VList (map value_of_row (first :: rest)))
    (json_to_toon (VList (map value_of_row (first :: rest))) 0)
    = Some (true, None).
Proof.
  cbv zeta.
  assert (C : forall t : pystr,
             t <> [] ->
             forallb (fun x => negb (is_space x) && negb (N.eqb x PIPE)) t
               = true ->
             plain_cell t).
  { intros t Hne Hf. split; [exact Hne|]. intros x Hx.
    rewrite forallb_forall in Hf. apply Hf in Hx.
    apply andb_true_iff in Hx. destruct Hx as [H1 H2].
    apply negb_true_iff in H1, H2. split; [exact H1|].
    now apply N.eqb_neq. }
  refine (proj2 (@uniform_table_accepted
                   [(py "a", PInt 1); (py "b", PStr (py "x:y"))]
                   [[(py "b", PNull); (py "a", PInt (-3)); (py "c", PInt 0)]]
                   _ _ _ _)).
  - repeat constructor; discriminate.
  - cbn. lia.
  - cbn [map fst].
    repeat first [apply Forall_nil | apply Forall_cons];
      apply C; try reflexivity; vm_compute; discriminate.
  - cbn [map fst row_cells].
    repeat first [apply Forall_nil | apply Forall_cons];
      apply C; try reflexivity; vm_compute; discriminate.
Defined.

(** ** Inline arrays through the pipeline *)

Lemma split_comma_join (t : pystr) (ts : list pystr) :
  Forall (fun u => ~ In COMMA u) (t :: ts) ->
  split_char COMMA (join (py ", ") (t :: ts)) = t :: map (cons SP) ts.
Proof.
  revert t. induction ts as [|u ts IH]; intros t H.
  - cbn [join map]. apply split_char_no_sep. apply mem_false.
    now inversion H.
  - change (join (py ", ") (t :: u :: ts))
      with (t ++ COMMA :: SP :: join (py ", ") (u :: ts)).
    rewrite split_char_app.
    rewrite (@split_char_no_sep COMMA t)
      by (apply mem_false; now inversion H).
    cbn [app split_char]. change (N.eqb SP COMMA) with false. cbv iota.
    rewrite IH by (now inversion H). reflexivity.
Qed.

Lemma inline_text (items : list Prim) (indent : nat) :
  items <> [] ->
  json_to_toon (VList (map VPrim items)) indent =
    py "[" ++
    join (py ", ") (map (fun p => format_value (VPrim p)) items) ++ py "]".
Proof.
  intros Hne.
  assert (E : is_empty (map VPrim items) = false)
    by (destruct items; [congruence|reflexivity]).
  assert (F : forallb is_primitive (map VPrim items) = true).
  { clear. induction items as [|p items IH]; [reflexivity|exact IH]. }
  cbn [json_to_toon]. rewrite E, F. now rewrite map_map.
Qed.

(** X17: an array of primitives goes through the pipeline.  When the
    text of every element is not empty and holds neither white space nor
    pipe, comma or colon, as the text of every integer, boolean and null
    does, the array is written on one line between square brackets, the
    texts joined by a comma and a space, whatever the indentation level,
    and the verifier finds the text valid. *)
Theorem inline_array_accepted (items : list Prim) (indent : nat) :
  items <> [] ->
  Forall (fun p => plain_item (format_value (VPrim p))) items ->
  json_to_toon (VList (map VPrim items)) indent =
    py "[" ++
    join (py ", ") (map (fun p => format_value (VPrim p)) items) ++ py "]" /\
  verify_toon_roundtrip (VList (map VPrim items))
    (json_to_toon (VList (map VPrim items)) 0) = Some (true, None).
Proof.
  intros Hne H. split; [now apply inline_text|].
  rewrite (inline_text 0 Hne).
  set (texts := map (fun p => format_value (VPrim p)) items).
  set (inner := join (py ", ") texts).
  assert (Ht : Forall plain_item texts).
  { unfold texts. apply Forall_forall. intros t Hin.
    apply in_map_iff in Hin. destruct Hin as (p & <- & Hp).
    rewrite Forall_forall in H. now apply H. }
  assert (Htne : texts <> []).
  { unfold texts. destruct items; [congruence|discriminate]. }
  assert (Hin : forall x, In x inner ->
                          x <> NL /\ x <> PIPE /\ x <> COLON).
  { intros x Hx. apply in_join in Hx.
    destruct Hx as [(t & Ht1 & Hx)|Hx].
    - rewrite Forall_forall in Ht. destruct (Ht t Ht1) as [_ Hc].
      destruct (Hc x Hx) as (Hs & Hp & _ & Hcol).
      repeat split; try assumption. intros ->. discriminate Hs.
    - cbn in Hx. intuition (subst; discriminate). }
  change (py "[" ++ inner ++ py "]") with (LBRACK :: inner ++ [RBRACK]).
  set (text := LBRACK :: inner ++ [RBRACK]).
  assert (Hx : forall x, In x text -> x <> NL /\ x <> PIPE /\ x <> COLON).
  { intros x Hx. unfold text in Hx.
    destruct Hx as [<-|Hx]; [repeat split; discriminate|].
    apply in_app_or in Hx. destruct Hx as [Hx|[<-|[]]];
      [now apply Hin|repeat split; discriminate]. }
  assert (Es : strip text = text).
  { unfold text.
    apply strip_ends with (d := RBRACK) (m' := LBRACK :: inner);
      reflexivity. }
  assert (Sp : split_lines text = [text]).
  { apply split_char_no_sep. apply mem_false. intros F.
    now apply Hx in F. }
  assert (L : check_line [] 0 (strip text) = Ok Continue).
  { destruct (check_line_cases [] 0 (strip text)) as [C|(msg & _ & D)];
      [exact C|exfalso].
    destruct D as [(D1 & _)|(D1 & _)|(D1 & _)|(_ & _ & _ & D1)];
      cbv zeta in *; rewrite strip_idem, Es in D1.
    - apply contains_pipe in D1. apply Hx in D1. tauto.
    - discriminate D1.
    - apply mem_In in D1. apply Hx in D1. tauto.
    - assert (Sl : slice_1_m1 text = inner).
      { unfold slice_1_m1, text. cbn [tl].
        now rewrite removelast_last. }
      assert (Si : strip inner = inner).
      { apply strip_join; [exact Htne|]. apply Forall_forall.
        intros t Hin'. rewrite Forall_forall in Ht.
        destruct (Ht t Hin') as [Hne' Hc]. split; [exact Hne'|].
        intros x Hx'. now apply Hc. }
      rewrite Sl, Si in D1. unfold inner in D1.
      destruct texts as [|t ts] eqn:Et; [congruence|].
      rewrite split_comma_join in D1.
      2:{ apply Forall_forall. intros u Hu Hc. rewrite Forall_forall in Ht.
          destruct (Ht u Hu) as [_ Hcc]. apply Hcc in Hc. tauto. }
      assert (Nb : forall u, In u (t :: ts) ->
                             forall w, strip (w ++ u) <> []).
      { intros u Hu w. rewrite Forall_forall in Ht.
        destruct (Ht u Hu) as [Hune Hc]. destruct u as [|c u']; [congruence|].
        apply strip_nonblank_iff. exists c. split.
        - apply in_or_app. right. now left.
        - apply Hc. now left. }
      cbn [map] in D1. destruct D1 as [D1|D1].
      + apply (Nb t (or_introl eq_refl) []). exact D1.
      + apply in_map_iff in D1. destruct D1 as (v & D1 & Hv).
        apply in_map_iff in Hv. destruct Hv as (u & <- & Hu).
        apply (Nb u (or_intror Hu) [SP]). exact D1. }
  assert (A : accepts text).
  { apply lines_accepts.
    - rewrite Es. discriminate.
    - rewrite Sp. intros l [<-|[]]. exact L. }
  unfold verify_toon_roundtrip. rewrite Es.
  change (is_empty text) with false. rewrite andb_false_r.
  cbn [no_keys_found]. unfold accepts in A. now rewrite A.
Qed.

Lemma inline_array_accepted_witness :
  verify_toon_roundtrip (VList (map VPrim [PInt 1; PBool true; PNull]))
    (json_to_toon (VList (map VPrim [PInt 1; PBool true; PNull])) 0)
    = Some (true, None).
Proof.
  assert (C : forall t : pystr,
             t <> [] ->
             forallb (fun x => negb (is_space x) && negb (N.eqb x PIPE) &&
                               negb (N.eqb x COMMA) && negb (N.eqb x COLON)) t
               = true ->
             plain_item t).
  { intros t Hne Hf. split; [exact Hne|]. intros x Hx.
    rewrite forallb_forall in Hf. apply Hf in Hx.
    repeat (apply andb_true_iff in Hx; destruct Hx as [Hx ?]).
    repeat match goal with
           | H : negb _ = true |- _ => apply negb_true_iff in H
           end.
    repeat split; try assumption; now apply N.eqb_neq. }
  refine (proj2 (@inline_array_accepted [PInt 1; PBool true; PNull] 0 _ _)).
  - discriminate.
  - repeat first [apply Forall_nil | apply Forall_cons];
      apply C; try reflexivity; vm_compute; discriminate.
Defined.
